(** * GeoCroissant metadata converters: a shallow embedding

    The repository is a collection of converters between geospatial metadata
    schemas (STAC, NASA UMM-G, CEDA, SDO NetCDF, GeoDCAT, ...) and the
    GeoCroissant JSON-LD vocabulary.  This development embeds the converter
    functions as Rocq functions over Python-like strings, lists and ordered
    dictionaries, and proves properties of them.

    Layout: Python built-ins first ([PyStr], [PyVal]), then one module per
    source file, then the lemmas and theorems. *)

From Stdlib Require Import String Ascii List ZArith Lia Bool Arith.
From Stdlib Require Import DecimalString DecimalZ DecimalPos.
From Stdlib Require OrderedTypeEx.
Import ListNotations.

Local Open Scope list_scope.
Local Open Scope string_scope.

(* ===================================================================== *)
(** ** Python [str] built-ins *)
(* ===================================================================== *)

Module PyStr.

(** The double-quote character, for string literals that contain it. *)
Definition dq : string := String (ascii_of_nat 34) EmptyString.

(** [s.startswith(p)] *)
Definition startswith (p s : string) : bool := String.prefix p s.

(** [s.endswith(suf)]: some tail of [s] is [suf]. *)
Fixpoint endswith (suf s : string) : bool :=
  String.eqb s suf ||
  match s with
  | EmptyString => false
  | String _ s' => endswith suf s'
  end.

(** [sub in s] *)
Fixpoint contains (sub s : string) : bool :=
  String.prefix sub s ||
  match s with
  | EmptyString => false
  | String _ s' => contains sub s'
  end.

(** Truthiness of a Python [str]: non-empty. *)
Definition nonempty (s : string) : bool :=
  match s with EmptyString => false | String _ _ => true end.

Definition is_digit (c : ascii) : bool :=
  let n := nat_of_ascii c in ((48 <=? n) && (n <=? 57))%nat.

Definition is_upper (c : ascii) : bool :=
  let n := nat_of_ascii c in ((65 <=? n) && (n <=? 90))%nat.

Definition is_lower (c : ascii) : bool :=
  let n := nat_of_ascii c in ((97 <=? n) && (n <=? 122))%nat.

(** Characters on which [str.split()] without arguments splits (the
    whitespace characters of the ASCII range). *)
Definition is_space (c : ascii) : bool :=
  let n := nat_of_ascii c in
  (((9 <=? n) && (n <=? 13)) || ((28 <=? n) && (n <=? 32)))%nat.

Definition lower_char (c : ascii) : ascii :=
  if is_upper c then ascii_of_nat (nat_of_ascii c + 32) else c.

(** [s.lower()] *)
Fixpoint lower (s : string) : string :=
  match s with
  | EmptyString => EmptyString
  | String c s' => String (lower_char c) (lower s')
  end.

Fixpoint map_chars (f : ascii -> ascii) (s : string) : string :=
  match s with
  | EmptyString => EmptyString
  | String c s' => String (f c) (map_chars f s')
  end.

(** Longest prefix of characters satisfying [p], and what follows it. *)
Fixpoint take_while (p : ascii -> bool) (s : string) : string :=
  match s with
  | EmptyString => EmptyString
  | String c s' => if p c then String c (take_while p s') else EmptyString
  end.

Fixpoint drop_while (p : ascii -> bool) (s : string) : string :=
  match s with
  | EmptyString => EmptyString
  | String c s' => if p c then drop_while p s' else s
  end.

Fixpoint drop (n : nat) (s : string) : string :=
  match n, s with
  | O, _ => s
  | S n', String _ s' => drop n' s'
  | S _, EmptyString => EmptyString
  end.

(** [all(p(c) for c in s)] *)
Fixpoint all_chars (p : ascii -> bool) (s : string) : bool :=
  match s with
  | EmptyString => true
  | String c s' => p c && all_chars p s'
  end.

(** [sep.join(parts)] *)
Fixpoint join (sep : string) (parts : list string) : string :=
  match parts with
  | [] => EmptyString
  | [p] => p
  | p :: rest => p ++ sep ++ join sep rest
  end.

(** [s.split(c)] for a one-character separator [c]: never empty, and
    [join c (split_char c s) = s]. *)
Fixpoint split_char (c : ascii) (s : string) : list string :=
  match s with
  | EmptyString => [EmptyString]
  | String a s' =>
      if Ascii.eqb a c then EmptyString :: split_char c s'
      else match split_char c s' with
           | [] => [String a EmptyString]
           | p :: rest => String a p :: rest
           end
  end.

(** [s.split()]: split on runs of whitespace, no empty pieces.  [cur] is
    the piece being read, in reverse. *)
Fixpoint split_ws_aux (cur : list ascii) (s : string) : list string :=
  match s with
  | EmptyString =>
      match cur with
      | [] => []
      | _ => [string_of_list_ascii (rev cur)]
      end
  | String c s' =>
      if is_space c then
        match cur with
        | [] => split_ws_aux [] s'
        | _ => string_of_list_ascii (rev cur) :: split_ws_aux [] s'
        end
      else split_ws_aux (c :: cur) s'
  end.

Definition split_ws (s : string) : list string := split_ws_aux [] s.

(** The part of [s] before the last occurrence of [sep], if [sep]
    occurs. *)
Fixpoint before_last (sep s : string) : option string :=
  match s with
  | EmptyString => None
  | String c s' =>
      match before_last sep s' with
      | Some r => Some (String c r)
      | None => if String.prefix sep s then Some EmptyString else None
      end
  end.

(** [s.rsplit(sep, 1)[0]] for a non-empty [sep]. *)
Definition rsplit_head (sep s : string) : string :=
  match before_last sep s with Some r => r | None => s end.

(** A non-empty string without whitespace: one piece for [split()]. *)
Definition is_token (t : string) : bool :=
  nonempty t && all_chars (fun c => negb (is_space c)) t.

(** [str(n)] for a Python [int]. *)
Definition str_Z (z : Z) : string := NilZero.string_of_int (Z.to_int z).

Definition str_nat (n : nat) : string := str_Z (Z.of_nat n).

End PyStr.

(* ===================================================================== *)
(** ** Python values, ordered dictionaries, numbers, exceptions *)
(* ===================================================================== *)

Module PyVal.
Import PyStr.

(** Numbers that come from the input documents (JSON ints or floats) are
    kept abstract: the converters only format them with [str] (inside
    f-strings) and read them back with [float]. *)
Class PyNumber (num : Type) := {
  num_str : num -> string;            (* [str(x)] / [f"{x}"] *)
  num_float : string -> option num;   (* [float(s)]; [None]: ValueError *)
  num_bool : num -> bool              (* [bool(x)]: non-zero *)
}.

(** Python [int]s under [str] and, for integer literals, [float]. *)
Definition int_float (s : string) : option Z :=
  option_map Z.of_int (NilZero.int_of_string s).

#[export] Instance Z_PyNumber : PyNumber Z :=
  {| num_str := str_Z; num_float := int_float;
     num_bool := fun z => negb (Z.eqb z 0) |}.

#[local] Set Warnings "-register-all".

(** JSON-like values.  A [dict] keeps insertion order, as Python's does,
    so it is an association list. *)
Inductive pyval (num : Type) : Type :=
| VNone
| VBool (b : bool)
| VInt (z : Z)
| VNum (x : num)
| VStr (s : string)
| VList (l : list (pyval num))
| VDict (d : list (string * pyval num)).

Arguments VNone {num}.
Arguments VBool {num} b.
Arguments VInt {num} z.
Arguments VNum {num} x.
Arguments VStr {num} s.
Arguments VList {num} l.
Arguments VDict {num} d.

Definition dict (num : Type) : Type := list (string * pyval num).

(** [d.get(k)] *)
Fixpoint dict_get {num} (k : string) (d : dict num) : option (pyval num) :=
  match d with
  | [] => None
  | (k', v) :: d' => if String.eqb k' k then Some v else dict_get k d'
  end.

(** [k in d] *)
Definition dict_has {num} (k : string) (d : dict num) : bool :=
  match dict_get k d with Some _ => true | None => false end.

(** [d[k] = v]: an existing key keeps its place, a new key goes last. *)
Fixpoint dict_set {num} (k : string) (v : pyval num) (d : dict num) : dict num :=
  match d with
  | [] => [(k, v)]
  | (k', v') :: d' =>
      if String.eqb k' k then (k, v) :: d' else (k', v') :: dict_set k v d'
  end.

(** [bool(v)] *)
Definition py_bool {num} {N : PyNumber num} (v : pyval num) : bool :=
  match v with
  | VNone => false
  | VBool b => b
  | VInt z => negb (Z.eqb z 0)
  | VNum x => num_bool x
  | VStr s => nonempty s
  | VList l => negb (Nat.eqb (List.length l) 0)
  | VDict d => negb (Nat.eqb (List.length d) 0)
  end.

Definition vopt {num} (o : option string) : pyval num :=
  match o with Some s => VStr s | None => VNone end.

(** [f"{x}"] for an optional string: [None] prints as "None". *)
Definition fmt_opt (o : option string) : string :=
  match o with Some s => s | None => "None" end.

(** [x or y] for an optional string [x]. *)
Definition or_else (o : option string) (y : string) : string :=
  match o with
  | Some s => if nonempty s then s else y
  | None => y
  end.

(** Truthiness of an optional string ([None] and the empty string are
    false). *)
Definition truthy (o : option string) : bool :=
  match o with Some s => nonempty s | None => false end.

(** Outcome of code that can raise. *)
Inductive pyres (A : Type) : Type :=
| Ok (a : A)
| Raise (exc : string).
Arguments Ok {A} a.
Arguments Raise {A} exc.

(** [datetime.utcnow()] / [datetime.now()]: the clock reading of a run. *)
Record datetime := {
  year : nat; month : nat; day : nat;
  hour : nat; minute : nat; second : nat; microsecond : nat
}.

(** ["%0<w>d"] *)
Fixpoint zeros (n : nat) : string :=
  match n with O => EmptyString | S n' => String "0"%char (zeros n') end.

Definition zpad (w n : nat) : string :=
  let s := str_nat n in zeros (w - String.length s) ++ s.

(** [dt.isoformat()] *)
Definition isoformat (dt : datetime) : string :=
  zpad 4 (year dt) ++ "-" ++ zpad 2 (month dt) ++ "-" ++ zpad 2 (day dt)
  ++ "T" ++ zpad 2 (hour dt) ++ ":" ++ zpad 2 (minute dt) ++ ":"
  ++ zpad 2 (second dt)
  ++ (if Nat.eqb (microsecond dt) 0 then EmptyString
      else "." ++ zpad 6 (microsecond dt)).

(** [s.split("T")[0]] *)
Definition date_part (s : string) : string :=
  hd EmptyString (split_char "T"%char s).

(** [min(l)] and [max(l)] for [l = x :: rest] and the comparison [ltb] of
    the items ([<]): the running extreme is replaced by an item that
    compares strictly below (above) it. *)
Fixpoint py_min {A} (ltb : A -> A -> bool) (x : A) (rest : list A) : A :=
  match rest with
  | [] => x
  | y :: rest' => py_min ltb (if ltb y x then y else x) rest'
  end.

Fixpoint py_max {A} (ltb : A -> A -> bool) (x : A) (rest : list A) : A :=
  match rest with
  | [] => x
  | y :: rest' => py_max ltb (if ltb x y then y else x) rest'
  end.

End PyVal.

(* ===================================================================== *)
(** ** STAC to GeoCroissant (stac_to_geocroissant.py) *)
(* ===================================================================== *)

Module StacToGeoCroissant.
Import PyStr PyVal.

(** [sanitize_name]: [re.sub(r"[^a-zA-Z0-9_\-]", "-", name)] *)
Definition name_char_ok (c : ascii) : bool :=
  is_lower c || is_upper c || is_digit c
  || Ascii.eqb c "_"%char || Ascii.eqb c "-"%char.

Definition sanitize_name (name : string) : string :=
  map_chars (fun c => if name_char_ok c then c else "-"%char) name.

(** [ensure_semver] *)
Definition ensure_semver (version : string) : string :=
  if negb (nonempty version) then "1.0.0"
  else
    let version := if startswith "v" version then drop 1 version else version in
    let parts := split_char "."%char version in
    let parts := if Nat.eqb (List.length parts) 2 then (parts ++ ["0"])%list else parts in
    join "." (firstn 3 parts).

(** *** [extract_crs_from_wkt2] *)

(** One attempt of [UTM[^\d]*(\d+)] (case-insensitive) at the start of
    [s]; the group is returned.  [[^\d]*] is greedy and can only end where
    the digits start, so there is a single way to match. *)
Definition match_utm_zone_here (s : string) : option string :=
  if startswith "utm" (lower (substring 0 3 s)) then
    let digits := take_while is_digit (drop_while (fun c => negb (is_digit c)) (drop 3 s)) in
    if nonempty digits then Some digits else None
  else None.

(** [re.search(r'UTM[^\d]*(\d+)', s, re.IGNORECASE)]: leftmost match. *)
Fixpoint search_utm_zone (s : string) : option string :=
  match match_utm_zone_here s with
  | Some z => Some z
  | None =>
      match s with
      | EmptyString => None
      | String _ s' => search_utm_zone s'
      end
  end.

Definition authority_open : string := "AUTHORITY[" ++ dq ++ "EPSG" ++ dq ++ "," ++ dq.
Definition authority_close : string := dq ++ "]".

(** One attempt of [AUTHORITY\["EPSG","(\d+)"\]] at the start of [s]. *)
Definition match_epsg_here (s : string) : option string :=
  if startswith authority_open s then
    let rest := drop (String.length authority_open) s in
    let digits := take_while is_digit rest in
    if nonempty digits && startswith authority_close (drop_while is_digit rest)
    then Some digits else None
  else None.

(** [re.search(r'AUTHORITY\["EPSG","(\d+)"\]', s)]: leftmost match. *)
Fixpoint search_epsg (s : string) : option string :=
  match match_epsg_here s with
  | Some code => Some code
  | None =>
      match s with
      | EmptyString => None
      | String _ s' => search_epsg s'
      end
  end.

(** The unit codes that are skipped. *)
Definition unit_codes : list string := ["9122"; "9001"].

Definition in_list (x : string) (l : list string) : bool :=
  existsb (String.eqb x) l.

Definition extract_crs_from_wkt2 (wkt2_string : string) : option string :=
  if negb (nonempty wkt2_string) then None
  else if contains "PROJCS" wkt2_string || contains "PROJECTION" wkt2_string then
    if contains "Albers" wkt2_string then
      Some "Custom Albers Equal Area projection"
    else if contains "UTM" wkt2_string then
      match search_utm_zone wkt2_string with
      | Some zone => Some ("UTM Zone " ++ zone)
      | None => Some "UTM projection"
      end
    else Some "Custom projection (see proj:wkt2)"
  else
    match search_epsg wkt2_string with
    | Some epsg_code =>
        if negb (in_list epsg_code unit_codes) then Some ("EPSG:" ++ epsg_code)
        else None
    | None => None
    end.

(** *** Input documents

    A STAC document is read through [.get] with defaults and [in] tests;
    an optional key is an [option] field ([None]: the key is absent, or
    for the timestamps that STAC allows to be [null], absent or null). *)

Record band := { band_name : option string }.

Record asset (num : Type) := {
  a_description : option string;
  a_title : option string;
  a_href : option string;
  a_type : option string;
  a_checksum_multihash : option string;   (* "checksum:multihash" *)
  a_file_checksum : option string;        (* "file:checksum" *)
  a_checksum_md5 : option string;         (* "checksum:md5" *)
  a_bands : option (list band);
  a_gsd : option num
}.
Arguments a_description {num}.
Arguments a_title {num}.
Arguments a_href {num}.
Arguments a_type {num}.
Arguments a_checksum_multihash {num}.
Arguments a_file_checksum {num}.
Arguments a_checksum_md5 {num}.
Arguments a_bands {num}.
Arguments a_gsd {num}.

Record provider := { p_name : option string; p_url : option string }.

Record link := {
  l_rel : option string; l_href : option string; l_type : option string
}.

Record properties (num : Type) := {
  start_datetime : option string;
  end_datetime : option string;
  datetime_val : option string;           (* "datetime" *)
  created_datetime : option string;
  proj_epsg : option num;                 (* "proj:epsg" *)
  proj_wkt2 : option string               (* "proj:wkt2" *)
}.
Arguments start_datetime {num}.
Arguments end_datetime {num}.
Arguments datetime_val {num}.
Arguments created_datetime {num}.
Arguments proj_epsg {num}.
Arguments proj_wkt2 {num}.

Record summaries (num : Type) := {
  sum_proj_epsg : option (list num);
  sum_gsd : option (list num)
}.
Arguments sum_proj_epsg {num}.
Arguments sum_gsd {num}.

Record stac_doc (num : Type) := {
  s_type : option string;
  s_id : option string;
  s_title : option string;
  s_version : option string;
  s_description : option string;
  s_license : option string;
  s_collection : option string;
  s_sci_citation : option string;         (* "sci:citation" *)
  s_providers : option (list provider);
  s_links : option (list link);
  s_bbox : option (list num);
  s_extent_bbox : option (list (list num));   (* extent.spatial.bbox *)
  s_extent_interval : option (list (option string * option string));
                                             (* extent.temporal.interval *)
  s_properties : option (properties num);
  s_assets : option (list (string * asset num));
  s_item_assets : option (list (string * asset num));
  s_keywords : option (list string);
  s_summaries : option (summaries num);
  s_deprecated : option bool;
  s_extra : list (string * string)
    (* keys outside [mapped_keys], each with [type(v).__name__] *)
}.
Arguments s_type {num}.
Arguments s_id {num}.
Arguments s_title {num}.
Arguments s_version {num}.
Arguments s_description {num}.
Arguments s_license {num}.
Arguments s_collection {num}.
Arguments s_sci_citation {num}.
Arguments s_providers {num}.
Arguments s_links {num}.
Arguments s_bbox {num}.
Arguments s_extent_bbox {num}.
Arguments s_extent_interval {num}.
Arguments s_properties {num}.
Arguments s_assets {num}.
Arguments s_item_assets {num}.
Arguments s_keywords {num}.
Arguments s_summaries {num}.
Arguments s_deprecated {num}.
Arguments s_extra {num}.

Definition no_properties {num} : properties num :=
  {| start_datetime := None; end_datetime := None; datetime_val := None;
     created_datetime := None; proj_epsg := None; proj_wkt2 := None |}.

Definition no_summaries {num} : summaries num :=
  {| sum_proj_epsg := None; sum_gsd := None |}.

Section Converter.
Context {num : Type} {N : PyNumber num}.

Definition default {A} (x : A) (o : option A) : A :=
  match o with Some a => a | None => x end.

(** The ["@context"] literal. *)
Definition jsonld_context : pyval num :=
  VDict [
    ("@language", VStr "en");
    ("@vocab", VStr "https://schema.org/");
    ("citeAs", VStr "cr:citeAs");
    ("column", VStr "cr:column");
    ("conformsTo", VStr "dct:conformsTo");
    ("cr", VStr "http://mlcommons.org/croissant/");
    ("geocr", VStr "http://mlcommons.org/croissant/geo/");
    ("rai", VStr "http://mlcommons.org/croissant/RAI/");
    ("dct", VStr "http://purl.org/dc/terms/");
    ("sc", VStr "https://schema.org/");
    ("data", VDict [("@id", VStr "cr:data"); ("@type", VStr "@json")]);
    ("examples", VDict [("@id", VStr "cr:examples"); ("@type", VStr "@json")]);
    ("dataBiases", VStr "cr:dataBiases");
    ("dataCollection", VStr "cr:dataCollection");
    ("dataType", VDict [("@id", VStr "cr:dataType"); ("@type", VStr "@vocab")]);
    ("extract", VStr "cr:extract");
    ("field", VStr "cr:field");
    ("fileProperty", VStr "cr:fileProperty");
    ("fileObject", VStr "cr:fileObject");
    ("fileSet", VStr "cr:fileSet");
    ("format", VStr "cr:format");
    ("includes", VStr "cr:includes");
    ("isLiveDataset", VStr "cr:isLiveDataset");
    ("jsonPath", VStr "cr:jsonPath");
    ("key", VStr "cr:key");
    ("md5", VStr "cr:md5");
    ("parentField", VStr "cr:parentField");
    ("path", VStr "cr:path");
    ("personalSensitiveInformation", VStr "cr:personalSensitiveInformation");
    ("recordSet", VStr "cr:recordSet");
    ("references", VStr "cr:references");
    ("regex", VStr "cr:regex");
    ("repeated", VStr "cr:repeated");
    ("replace", VStr "cr:replace");
    ("samplingRate", VStr "cr:samplingRate");
    ("separator", VStr "cr:separator");
    ("source", VStr "cr:source");
    ("subField", VStr "cr:subField");
    ("transform", VStr "cr:transform") ].

Definition stac_type (d : stac_doc num) : string :=
  lower (default EmptyString (s_type d)).

Definition is_item (d : stac_doc num) : bool :=
  String.eqb (stac_type d) "feature".

Definition is_collection (d : stac_doc num) : bool :=
  String.eqb (stac_type d) "collection".

Definition detect_line (d : stac_doc num) : string :=
  if is_item d then "Detected STAC Item (Feature)"
  else if is_collection d then "Detected STAC Collection"
  else "Unknown STAC type: " ++ stac_type d ++ ", treating as Collection".

Definition dataset_name (d : stac_doc num) : string :=
  if is_item d then sanitize_name (or_else (s_id d) "UnnamedItem")
  else sanitize_name
         (match s_title d with
          | Some t => t
          | None => or_else (s_id d) "UnnamedDataset"
          end).

(** The [croissant = {...}] literal. *)
Definition header (d : stac_doc num) : dict num :=
  [ ("@context", jsonld_context);
    ("@type", VStr "sc:Dataset");
    ("@id", vopt (s_id d));
    ("name", VStr (dataset_name d));
    ("description", VStr (default EmptyString (s_description d)));
    ("version", VStr (ensure_semver (default "1.0.0" (s_version d))));
    ("license", VStr (default "CC-BY-4.0" (s_license d)));
    ("conformsTo", VList [VStr "http://mlcommons.org/croissant/1.0";
                          VStr "http://mlcommons.org/croissant/geo/1.0"]) ].

(** "Add citeAs": the year is read from the clock. *)
Definition cite_as (now : datetime) (d : stac_doc num) : string :=
  if is_collection d then
    let collection_name := default (dataset_name d) (s_title d) in
    "@misc{" ++ fmt_opt (s_id d) ++ ", title={" ++ collection_name
      ++ "}, year={" ++ str_nat (year now) ++ "}}"
  else
    let collection_id :=
      match s_collection d with Some c => Some c | None => s_id d end in
    "@misc{" ++ fmt_opt collection_id ++ ", title={" ++ dataset_name d
      ++ "}, year={" ++ str_nat (year now) ++ "}}".

Definition set_cite_as (now : datetime) (d : stac_doc num) (c : dict num) : dict num :=
  dict_set "citeAs" (VStr (cite_as now d)) c.

Definition set_sci_citation (d : stac_doc num) (c : dict num) : dict num :=
  match s_sci_citation d with
  | Some cit => dict_set "citation" (VStr cit) (dict_set "citeAs" (VStr cit) c)
  | None => c
  end.

Definition set_creator (d : stac_doc num) (c : dict num) : dict num :=
  match s_providers d with
  | Some (p :: _) =>
      dict_set "creator"
        (VDict [("@type", VStr "Organization");
                ("name", VStr (default "Unknown" (p_name p)));
                ("url", VStr (default EmptyString (p_url p)))]) c
  | _ => c
  end.

Definition rel_is (r : string) (l : link) : bool :=
  match l_rel l with Some r' => String.eqb r' r | None => false end.

(** "Handle 'self' URL": the first link with [rel == "self"]. *)
Definition set_url (d : stac_doc num) (c : dict num) : dict num :=
  match find (rel_is "self") (default [] (s_links d)) with
  | Some l => dict_set "url" (vopt (l_href l)) c
  | None => c
  end.

Definition name_map : list (string * string) :=
  [ ("root", "STAC root catalog");
    ("parent", "STAC parent catalog");
    ("items", "STAC item list");
    ("about", "GitHub Repository");
    ("predecessor-version", "Previous version");
    ("http://www.opengis.net/def/rel/ogc/1.0/queryables", "Queryables") ].

Fixpoint assoc (k : string) (l : list (string * string)) : option string :=
  match l with
  | [] => None
  | (k', v) :: l' => if String.eqb k' k then Some v else assoc k l'
  end.

Definition reference_of (l : link) : list (pyval num) :=
  if negb (truthy (l_href l)) || rel_is "self" l then []
  else
    [ VDict [("@type", VStr "CreativeWork");
             ("url", vopt (l_href l));
             ("name", match l_rel l with
                      | Some r => VStr (default r (assoc r name_map))
                      | None => VNone
                      end);
             ("encodingFormat", VStr (default "application/json" (l_type l)))] ].

Definition set_references (d : stac_doc num) (c : dict num) : dict num :=
  match flat_map reference_of (default [] (s_links d)) with
  | [] => c
  | references => dict_set "references" (VList references) c
  end.

(** *** Spatial coverage *)

Definition select_bbox (d : stac_doc num) : option (list num) :=
  if is_item d then s_bbox d
  else
    match s_extent_bbox d with
    | Some ((_ :: _) as b :: _) => Some b
    | _ => None
    end.

(** STAC bbox [[west, south, east, north]] to the GeoShape box
    ["south west north east"]. *)
Definition box_string (b0 b1 b2 b3 : num) : string :=
  num_str b1 ++ " " ++ num_str b0 ++ " " ++ num_str b3 ++ " " ++ num_str b2.

Definition set_spatial (d : stac_doc num) (c : dict num) : dict num :=
  match select_bbox d with
  | Some (b0 :: b1 :: b2 :: b3 :: _) =>
      dict_set "spatialCoverage"
        (VDict [("@type", VStr "Place");
                ("geo", VDict [("@type", VStr "GeoShape");
                               ("box", VStr (box_string b0 b1 b2 b3))])]) c
  | _ => c
  end.

(** *** Temporal coverage *)

(** The string held by a field that was just tested truthy. *)
Definition val (o : option string) : string := default EmptyString o.

Definition set_temporal (d : stac_doc num) (c : dict num) : dict num :=
  if is_item d then
    let props := default no_properties (s_properties d) in
    let start_dt := start_datetime props in
    let end_dt := end_datetime props in
    let datetime_val := datetime_val props in
    let c :=
      if truthy start_dt && truthy end_dt then
        dict_set "datePublished" (VStr (date_part (val start_dt)))
          (dict_set "temporalCoverage"
             (VStr (val start_dt ++ "/" ++ val end_dt)) c)
      else if truthy datetime_val then
        dict_set "datePublished" (VStr (date_part (val datetime_val)))
          (dict_set "temporalCoverage" (VStr (val datetime_val)) c)
      else c in
    match created_datetime props with
    | Some cd =>
        if negb (dict_has "datePublished" c)
        then dict_set "datePublished" (VStr (date_part cd)) c
        else c
    | None => c
    end
  else
    match s_extent_interval d with
    | Some ((start, end_) :: _) =>
        let c :=
          if truthy start && truthy end_ then
            dict_set "temporalCoverage" (VStr (val start ++ "/" ++ val end_)) c
          else if truthy start then
            dict_set "temporalCoverage" (VStr (val start)) c
          else c in
        if truthy start
        then dict_set "datePublished" (VStr (date_part (val start))) c
        else c
    | _ => c
    end.

(** The date of the run is used when no date came from the document. *)
Definition set_default_date (now : datetime) (c : dict num) : dict num :=
  if negb (dict_has "datePublished" c)
  then dict_set "datePublished" (VStr (date_part (isoformat now))) c
  else c.

(** *** Asset-level distribution *)

Definition placeholder_checksum : string := "PLACEHOLDER-CHECKSUM-REQUIRED".

(** The two lines printed for an asset without checksum. *)
Definition checksum_warning (key : string) (a : asset num) : list string :=
  [ "  Warning: No checksum found for asset '" ++ key ++ "'. Added placeholder.";
    "   Please compute SHA256 for: " ++ default "N/A" (a_href a) ].

(** The [file_object] of one asset up to the checksum policy, with the
    lines it prints. *)
Definition file_object_of (key : string) (a : asset num) : dict num * list string :=
  let file_object : dict num :=
    [ ("@type", VStr "cr:FileObject");
      ("@id", VStr key);
      ("name", VStr key);
      ("description",
         VStr (match a_description a with
               | Some s => s
               | None => default EmptyString (a_title a)
               end));
      ("contentUrl", vopt (a_href a));
      ("encodingFormat", VStr (default "application/octet-stream" (a_type a))) ] in
  let file_object :=
    match a_checksum_multihash a, a_file_checksum a with
    | Some h, _ => dict_set "sha256" (VStr h) file_object
    | None, Some h => dict_set "sha256" (VStr h) file_object
    | None, None => file_object
    end in
  let file_object :=
    match a_checksum_md5 a with
    | Some h => dict_set "md5" (VStr h) file_object
    | None => file_object
    end in
  if negb (dict_has "sha256" file_object) && negb (dict_has "md5" file_object)
  then (dict_set "sha256" (VStr placeholder_checksum) file_object,
        checksum_warning key a)
  else (file_object, []).

(** The [for i, band in enumerate(bands)] loop, from index [i] on. *)
Fixpoint band_names_from (i : nat) (bands : list band) : list string :=
  match bands with
  | [] => []
  | b :: rest =>
      match band_name b with
      | Some n => n
      | None => "Band" ++ str_nat (i + 1)
      end :: band_names_from (S i) rest
  end.

Definition band_names_list (bands : list band) : list string :=
  band_names_from 0 bands.

Definition band_config (bands : list band) : pyval num :=
  VDict [ ("@type", VStr "geocr:BandConfiguration");
          ("geocr:totalBands", VInt (Z.of_nat (List.length bands)));
          ("geocr:bandNamesList", VList (map VStr (band_names_list bands))) ].

Definition quantity (v : num) : pyval num :=
  VDict [ ("@type", VStr "QuantitativeValue");
          ("value", VNum v);
          ("unitText", VStr "m") ].

(** State of the asset loop: the dictionary under construction, the
    distribution list, [all_bands] and the printed lines. *)
Record loop_state := {
  croissant : dict num;
  distribution : list (pyval num);
  all_bands : list band;
  printed : list string
}.

(** The bands of an asset that carry a band configuration
    ([if "bands" in asset] and the list is non-empty). *)
Definition asset_bands (a : asset num) : list band :=
  match a_bands a with
  | Some bands => bands
  | None => []
  end.

(** The dictionary appended to [croissant["distribution"]] for one
    asset, and the lines printed while building it. *)
Definition asset_entry (key : string) (a : asset num) : dict num * list string :=
  let (file_object, lines) := file_object_of key a in
  match asset_bands a with
  | [] => (file_object, lines)
  | bands =>
      (dict_set "geocr:bandConfiguration" (band_config bands) file_object, lines)
  end.

Definition asset_step (st : loop_state) (ka : string * asset num) : loop_state :=
  let (key, a) := ka in
  let (file_object, lines) := asset_entry key a in
  let croissant' :=
    match a_gsd a with
    | Some gsd =>
        if negb (dict_has "geocr:spatialResolution" (croissant st))
        then dict_set "geocr:spatialResolution" (quantity gsd) (croissant st)
        else croissant st
    | None => croissant st
    end in
  {| croissant := croissant';
     distribution := (distribution st ++ [VDict file_object])%list;
     all_bands := (all_bands st ++ asset_bands a)%list;
     printed := (printed st ++ lines)%list |}.

Definition asset_loop (d : stac_doc num) (c : dict num) : loop_state :=
  fold_left asset_step (default [] (s_assets d))
    {| croissant := dict_set "distribution" (VList []) c;
       distribution := []; all_bands := []; printed := [] |}.

(** [croissant["distribution"]] is the list the loop appended to. *)
Definition set_distribution (d : stac_doc num) (c : dict num) : dict num :=
  let st := asset_loop d c in
  dict_set "distribution" (VList (distribution st)) (croissant st).

(** *** item_assets, keywords, CRS, deprecated *)

Definition file_set_template (ka : string * asset num) : pyval num :=
  let (key, a) := ka in
  let file_obj : pyval num :=
    VDict [ ("@type", VStr "cr:FileObject");
            ("@id", VStr key);
            ("name", VStr key);
            ("description",
               VStr (match a_description a with
                     | Some s => s
                     | None => default EmptyString (a_title a)
                     end));
            ("encodingFormat", VStr (default "application/octet-stream" (a_type a))) ] in
  VDict [ ("@type", VStr "cr:FileSet");
          ("name", VStr ("Template for " ++ key));
          ("includes", VList [file_obj]) ].

Definition set_file_set (d : stac_doc num) (c : dict num) : dict num :=
  match s_item_assets d with
  | Some item_assets => dict_set "fileSet" (VList (map file_set_template item_assets)) c
  | None => c
  end.

Definition set_keywords (d : stac_doc num) (c : dict num) : dict num :=
  match s_keywords d with
  | Some kws => dict_set "keywords" (VList (map VStr kws)) c
  | None => c
  end.

Definition crs_key : string := "geocr:coordinateReferenceSystem".

Definition set_crs (d : stac_doc num) (c : dict num) : dict num :=
  if is_item d then
    let props := default no_properties (s_properties d) in
    match proj_epsg props, proj_wkt2 props with
    | Some e, _ => dict_set crs_key (VStr ("EPSG:" ++ num_str e)) c
    | None, Some w =>
        match extract_crs_from_wkt2 w with
        | Some crs_result =>
            if nonempty crs_result then dict_set crs_key (VStr crs_result) c else c
        | None => c
        end
    | None, None => c
    end
  else
    let summaries := default no_summaries (s_summaries d) in
    let c :=
      match sum_proj_epsg summaries with
      | Some (e :: _) => dict_set crs_key (VStr ("EPSG:" ++ num_str e)) c
      | _ => c
      end in
    match sum_gsd summaries with
    | Some (g :: _) =>
        if negb (dict_has "geocr:spatialResolution" c)
        then dict_set "geocr:spatialResolution" (quantity g) c
        else c
    | _ => c
    end.

Definition set_live (d : stac_doc num) (c : dict num) : dict num :=
  match s_deprecated d with
  | Some b => dict_set "isLiveDataset" (VBool (negb b)) c
  | None => c
  end.

(** "Report unmapped fields" *)
Definition unmapped_lines (d : stac_doc num) : list string :=
  let esc := String (ascii_of_nat 27) EmptyString in
  let lf := String (ascii_of_nat 10) EmptyString in
  (lf ++ esc ++ "[1mUnmapped STAC Fields:" ++ esc ++ "[0m") ::
  match s_extra d with
  | [] => ["None"]
  | extra => map (fun kv => "- " ++ fst kv ++ ": " ++ snd kv) extra
  end.

(** *** The converter

    [now] is what [datetime.utcnow()] returns during the run.  The result
    is the returned dictionary and the lines printed. *)
Definition stac_to_geocroissant (now : datetime) (d : stac_doc num)
  : dict num * list string :=
  let c := header d in
  let c := set_cite_as now d c in
  let c := set_sci_citation d c in
  let c := set_creator d c in
  let c := set_url d c in
  let c := set_references d c in
  let c := set_spatial d c in
  let c := set_temporal d c in
  let c := set_default_date now c in
  let st := asset_loop d c in
  let c := set_distribution d c in
  let c := set_file_set d c in
  let c := set_keywords d c in
  let c := set_crs d c in
  let c := set_live d c in
  (c, (detect_line d :: printed st ++ unmapped_lines d)%list).

End Converter.

End StacToGeoCroissant.

(* ===================================================================== *)
(** ** GeoCroissant to STAC (geocroissant_to_stac.py) *)
(* ===================================================================== *)

Module GeoCroissantToStac.
Import PyStr PyVal.

(** Python [datetime] values are read with [fromisoformat], printed with
    [isoformat] and averaged ([start + (end - start) / 2]); they are kept
    abstract. *)
Class PyDatetime (dt : Type) := {
  fromisoformat : string -> option dt;     (* [None]: ValueError *)
  dt_isoformat : dt -> string;
  dt_midpoint : dt -> dt -> dt
}.

Section Converter.
Context {num : Type} {N : PyNumber num}.

(** [[float(x) for x in tokens]] *)
Fixpoint floats (tokens : list string) : option (list num) :=
  match tokens with
  | [] => Some []
  | t :: rest =>
      match num_float t, floats rest with
      | Some x, Some xs => Some (x :: xs)
      | _, _ => None
      end
  end.

(** [bbox_string]: the ["box"] of the ["geo"] of ["spatialCoverage"],
    with the [isinstance(..., dict)] guards; [None] stands for the
    default [""]. *)
Definition bbox_string (geocroissant_data : dict num) : option (pyval num) :=
  match dict_get "spatialCoverage" geocroissant_data with
  | Some (VDict spatial_coverage) =>
      match dict_get "geo" spatial_coverage with
      | Some (VDict geo_info) => dict_get "box" geo_info
      | Some _ => None
      | None => None
      end
  | Some _ => None
  | None => None
  end.

Definition point (x y : pyval num) : pyval num := VList [x; y].

Definition polygon (west south east north : pyval num) : pyval num :=
  VDict [ ("type", VStr "Polygon");
          ("coordinates",
             VList [ VList [ point west south; point west north;
                             point east north; point east south;
                             point west south ] ]) ].

(** The [if bbox_string:] branch for a string: parse
    ["south west north east"]. *)
Definition bbox_of_box (box : string) : pyres (list (pyval num) * pyval num) :=
  match floats (split_ws box) with
  | Some [south; west; north; east] =>
      Ok ([VNum west; VNum south; VNum east; VNum north],
          polygon (VNum west) (VNum south) (VNum east) (VNum north))
  | Some _ => Raise "ValueError"        (* unpacking *)
  | None => Raise "ValueError"          (* float() *)
  end.

Definition global_extent : list (pyval num) * pyval num :=
  ([VInt (-180); VInt (-90); VInt 180; VInt 90],
   polygon (VInt (-180)) (VInt (-90)) (VInt 180) (VInt 90)).

(** "Parse spatial coverage": the [bbox] and [geometry] handed to the
    STAC item. *)
Definition bbox_and_geometry (geocroissant_data : dict num)
  : pyres (list (pyval num) * pyval num) :=
  match bbox_string geocroissant_data with
  | Some v =>
      if py_bool v then
        match v with
        | VStr box => bbox_of_box box
        | _ => Raise "AttributeError"   (* no [split] on a non-string *)
        end
      else Ok global_extent
  | None => Ok global_extent
  end.

End Converter.

Section Temporal.
Context {dt : Type} {D : PyDatetime dt}.

(** What "Parse temporal coverage" computes: the item [datetime] and
    the [start_datetime] / [end_datetime] properties, if any. *)
Record temporal := {
  item_datetime : dt;
  start_end : option (string * string)
}.

(** [temporal_coverage] is the string under ["temporalCoverage"]
    ([None]: absent, so the default [""]); [now] is [datetime.now()]. *)
Definition parse_temporal (now : dt) (temporal_coverage : option string)
  : pyres temporal :=
  let tc := match temporal_coverage with Some s => s | None => EmptyString end in
  if nonempty tc && contains "/" tc then
    match split_char "/"%char tc with
    | [start_str; end_str] =>
        match fromisoformat start_str, fromisoformat end_str with
        | Some start_dt, Some end_dt =>
            Ok {| item_datetime := dt_midpoint start_dt end_dt;
                  start_end := Some (dt_isoformat start_dt ++ "Z",
                                     dt_isoformat end_dt ++ "Z") |}
        | _, _ => Raise "ValueError"
        end
    | _ => Raise "ValueError"           (* unpacking *)
    end
  else Ok {| item_datetime := now; start_end := None |}.

End Temporal.

Section Assets.
Context {num : Type} {N : PyNumber num}.

(** [d.get(k, default)] *)
Definition get_or (k : string) (default : pyval num) (d : dict num) : pyval num :=
  match dict_get k d with Some v => v | None => default end.

(** The media types that the loop chooses between: three constants of
    [pystac.MediaType], or the encoding format itself. *)
Inductive media_type :=
| GEOTIFF
| JSON
| PARQUET
| Verbatim (encoding_format : string).

(** What [Asset(...)] is called with, and the ["file_pattern"] extra
    field. *)
Record asset := {
  href : string;
  media : media_type;
  title : pyval num;
  roles : list string;
  file_pattern : option (pyval num)
}.

(** [s.replace(" ", "_")] *)
Definition underscored (s : string) : string :=
  map_chars (fun c => if Ascii.eqb c " "%char then "_"%char else c) s.

(** "Determine media type" *)
Definition determine_media_type (encoding_format : string) : media_type :=
  if contains "tiff" (lower encoding_format) || contains "tif" (lower encoding_format)
  then GEOTIFF
  else if contains "json" (lower encoding_format) then JSON
  else if contains "parquet" (lower encoding_format) then PARQUET
  else Verbatim encoding_format.

(** ["FileSet" in item_type] *)
Definition names_file_set (item_type : pyval num) : pyres bool :=
  match item_type with
  | VStr s => Ok (contains "FileSet" s)
  | VList l =>
      Ok (existsb (fun v => match v with
                            | VStr s => String.eqb s "FileSet"
                            | _ => false
                            end) l)
  | VDict d => Ok (dict_has "FileSet" d)
  | _ => Raise "TypeError"
  end.

(** One turn of the loop over [distribution]: [Ok None] when the entry is
    skipped ([continue]), [Ok (Some (asset_id, asset))] when
    [item.add_asset(asset_id, asset)] is reached.  A method called on a
    value that is not a string raises AttributeError. *)
Definition asset_of (dist_item : dict num) : pyres (option (string * asset)) :=
  let item_type := get_or "@type" (VStr EmptyString) dist_item in
  let content_url := get_or "contentUrl" (VStr EmptyString) dist_item in
  if negb (py_bool content_url) then Ok None
  else
    match content_url with
    | VStr url =>
        if startswith "file://" url then Ok None
        else
          match get_or "encodingFormat" (VStr EmptyString) dist_item with
          | VStr encoding_format =>
              if contains "directory" (lower encoding_format) then Ok None
              else
                match get_or "@id" (get_or "name" (VStr "asset") dist_item) dist_item with
                | VStr id =>
                    let asset_id := lower (underscored id) in
                    match names_file_set item_type with
                    | Ok is_file_set =>
                        let includes := dict_get "includes" dist_item in
                        Ok (Some
                              (asset_id,
                               {| href := url;
                                  media := determine_media_type encoding_format;
                                  title := get_or "description"
                                             (get_or "name" (VStr EmptyString) dist_item)
                                             dist_item;
                                  roles := if is_file_set then ["data"; "collection"]
                                           else ["data"];
                                  file_pattern :=
                                    match includes with
                                    | Some v => if py_bool v then Some v else None
                                    | None => None
                                    end |}))
                    | Raise exc => Raise exc
                    end
                | _ => Raise "AttributeError"
                end
          | _ => Raise "AttributeError"
          end
    | _ => Raise "AttributeError"
    end.

(** [self.assets[key] = asset]: a key that is there keeps its place. *)
Fixpoint add_asset (key : string) (a : asset) (assets : list (string * asset))
  : list (string * asset) :=
  match assets with
  | [] => [(key, a)]
  | (k, a') :: rest =>
      if String.eqb k key then (key, a) :: rest else (k, a') :: add_asset key a rest
  end.

(** The loop "Process distribution to add assets", from the assets added
    so far; an entry that is not a dictionary has no [get]. *)
Fixpoint add_assets (distribution : list (pyval num)) (assets : list (string * asset))
  : pyres (list (string * asset)) :=
  match distribution with
  | [] => Ok assets
  | VDict dist_item :: rest =>
      match asset_of dist_item with
      | Ok (Some (asset_id, a)) => add_assets rest (add_asset asset_id a assets)
      | Ok None => add_assets rest assets
      | Raise exc => Raise exc
      end
  | _ :: _ => Raise "AttributeError"
  end.

(** [item_id]: [geocroissant_data.get("name", "unknown").replace(" ", "_")] *)
Definition item_id (geocroissant_data : dict num) : pyres string :=
  match get_or "name" (VStr "unknown") geocroissant_data with
  | VStr name => Ok (underscored name)
  | _ => Raise "AttributeError"
  end.

End Assets.

Section Projection.
Context {num : Type} {N : PyNumber num}.

(** [s.replace(old, new)] for a non-empty [old]: the occurrences are
    replaced from the left, without overlap; [skip] is what is left of
    the occurrence being replaced. *)
Fixpoint replace_from (old new : string) (skip : nat) (s : string) : string :=
  match s with
  | EmptyString => EmptyString
  | String c s' =>
      match skip with
      | S k => replace_from old new k s'
      | O =>
          if String.prefix old s
          then new ++ replace_from old new (String.length old - 1) s'
          else String c (replace_from old new 0 s')
      end
  end.

Definition replace (old new s : string) : string := replace_from old new 0 s.

(** [int(s)] is kept abstract ([None]: ValueError). *)
Context (py_int : string -> option Z).

(** "Add projection extension if CRS present": the value given to
    [proj_ext.epsg], if the extension is added.  [crs] is
    [geocroissant_data.get("geocr:coordinateReferenceSystem")]. *)
Definition projection_epsg (crs : option (pyval num)) : pyres (option Z) :=
  match crs with
  | None => Ok None
  | Some v =>
      if negb (py_bool v) then Ok None
      else
        match v with
        | VStr crs =>
            if contains "EPSG:" crs then
              match py_int (replace "EPSG:" EmptyString crs) with
              | Some code => Ok (Some code)
              | None => Raise "ValueError"
              end
            else Ok None
        | VList l =>
            if existsb (fun x => match x with
                                 | VStr s => String.eqb s "EPSG:"
                                 | _ => false
                                 end) l
            then Raise "AttributeError"
            else Ok None
        | VDict d => if dict_has "EPSG:" d then Raise "AttributeError" else Ok None
        | _ => Raise "TypeError"
        end
  end.

End Projection.

End GeoCroissantToStac.

(* ===================================================================== *)
(** ** SDO NetCDF converter (sdo_converter.py) *)
(* ===================================================================== *)

Module Sdo.
Import PyStr PyVal.

(** "Dynamically determine number of bands from variable shape" in
    [_generate_field_definitions]. *)
Definition num_bands (shape : list nat) : nat :=
  match shape with
  | [d0; d1; d2] =>
      if (d0 <? d1)%nat && (d0 <? d2)%nat then d0
      else if (d2 <? d0)%nat && (d2 <? d1)%nat then d2
      else 1
  | _ => 1
  end.

(** The position in [dims] that [num_bands] is read from, when one is. *)
Definition band_axis (shape : list nat) : option nat :=
  match shape with
  | [d0; d1; d2] =>
      if (d0 <? d1)%nat && (d0 <? d2)%nat then Some 0
      else if (d2 <? d0)%nat && (d2 <? d1)%nat then Some 2
      else None
  | _ => None
  end.

Definition band_names (var_name : string) (shape : list nat) : list string :=
  if (1 <? num_bands shape)%nat then
    map (fun i => var_name ++ "_band" ++ str_nat (i + 1)) (seq 0 (num_bands shape))
  else [var_name].

Section Distribution.
Context {num : Type}.

(** The ["distribution"] literal of [generate_geocroissant]. *)
Definition distribution (data_dir : string) (n_files : nat) : list (pyval num) :=
  [ VDict [ ("@type", VStr "cr:FileObject");
            ("@id", VStr "data_repo");
            ("name", VStr "data_repo");
            ("description", VStr "SDO dataset directory containing NetCDF4 files");
            ("contentUrl", VStr data_dir);
            ("encodingFormat", VStr "local_directory");
            ("sha256", VStr "placeholder_checksum_for_directory") ];
    VDict [ ("@type", VStr "cr:FileSet");
            ("@id", VStr "nc-files");
            ("name", VStr "nc-files");
            ("description",
               VStr ("All NetCDF4 files containing synchronized AIA and HMI observations ("
                     ++ str_nat n_files ++ " files)"));
            ("containedIn", VDict [("@id", VStr "data_repo")]);
            ("encodingFormat", VStr "application/x-netcdf");
            ("includes", VStr "*.nc") ] ].
End Distribution.

(** [os.path.basename(f)]: what follows the last "/". *)
Definition basename (f : string) : string :=
  last (split_char "/"%char f) EmptyString.

(** The date that [_get_temporal_coverage] reads from one file name, if
    the part of its base name before the first "_" has 8 characters. *)
Definition file_date (f : string) : option string :=
  let date_str := hd EmptyString (split_char "_"%char (basename f)) in
  if Nat.eqb (String.length date_str) 8 then
    Some (substring 0 4 date_str ++ "-" ++ substring 4 2 date_str ++ "-"
          ++ substring 6 2 date_str)
  else None.

(** The [dates] list after the loop over [self.nc_files]. *)
Definition dates (nc_files : list string) : list string :=
  flat_map (fun f => match file_date f with Some d => [d] | None => [] end) nc_files.

(** [_get_temporal_coverage]; strings are compared as Python compares
    them, character by character. *)
Definition _get_temporal_coverage (nc_files : list string) : string :=
  match dates nc_files with
  | [] => "Unknown"
  | d :: ds => py_min String.ltb d ds ++ "/" ++ py_max String.ltb d ds
  end.

End Sdo.

(* ===================================================================== *)
(** ** NASA UMM-G converter (geocroissant_converter.py) *)
(* ===================================================================== *)

Module NasaUmm.
Import PyStr PyVal.

(** [determine_encoding_format(url, url_type, subtype)] *)
Definition determine_encoding_format (url url_type subtype : string) : string :=
  if endswith ".tif" url || endswith ".tiff" url then "image/tiff"
  else if endswith ".jpg" url || endswith ".jpeg" url then "image/jpeg"
  else if endswith ".json" url then "application/json"
  else if endswith ".xml" url then "application/xml"
  else if endswith ".hdf" url || endswith ".h5" url then "application/x-hdf"
  else if endswith ".nc" url then "application/x-netcdf"
  else if contains "s3credentials" url then "application/octet-stream"
  else "application/octet-stream".

Section Polygon.
Context {num : Type} {N : PyNumber num}.

(** A boundary point: a dictionary read with
    [point.get('Longitude', 0)] and [point.get('Latitude', 0)]. *)
Record point := { Longitude : option num; Latitude : option num }.

(** [f"{x}"] for a coordinate that defaults to the integer [0]. *)
Definition coord (o : option num) : string :=
  match o with Some x => num_str x | None => "0" end.

(** The [coords] list after the loop over [points]. *)
Definition point_coords (points : list point) : list string :=
  map (fun p => coord (Longitude p) ++ " " ++ coord (Latitude p)) points.

(** [coords] after [if coords and coords[0] != coords[-1]:
    coords.append(coords[0])]. *)
Definition ring_coords (points : list point) : list string :=
  let coords := point_coords points in
  match coords with
  | [] => coords
  | first :: _ =>
      if negb (String.eqb first (last coords EmptyString))
      then (coords ++ [first])%list
      else coords
  end.

(** [convert_polygon_to_wkt] *)
Definition convert_polygon_to_wkt (points : list point) : string :=
  match points with
  | [] => EmptyString
  | _ => "POLYGON((" ++ join ", " (ring_coords points) ++ "))"
  end.

End Polygon.

(** Numbers that are also compared ([min], [max]); [num_zero] is the
    [0] that [point.get('Longitude', 0)] falls back to. *)
Class PyOrdered (num : Type) := {
  num_ltb : num -> num -> bool;       (* [x < y] *)
  num_zero : num
}.

#[export] Instance Z_PyOrdered : PyOrdered Z :=
  {| num_ltb := Z.ltb; num_zero := 0%Z |}.

Section Bounds.
Context {num : Type} {O : PyOrdered num}.

(** The dictionary returned by [calculate_bounding_box]. *)
Record bounding_box := { west : num; south : num; east : num; north : num }.

Definition or_zero (o : option num) : num :=
  match o with Some x => x | None => num_zero end.

(** [calculate_bounding_box]: [None] stands for the empty dictionary. *)
Definition calculate_bounding_box (points : list (@point num)) : option bounding_box :=
  let lons := map (fun p => or_zero (Longitude p)) points in
  let lats := map (fun p => or_zero (Latitude p)) points in
  match lons, lats with
  | lon0 :: lons', lat0 :: lats' =>
      Some {| west := py_min num_ltb lon0 lons'; south := py_min num_ltb lat0 lats';
              east := py_max num_ltb lon0 lons'; north := py_max num_ltb lat0 lats' |}
  | _, _ => None
  end.

End Bounds.

Section Dataset.
Context {num : Type} {N : PyNumber num} {O : PyOrdered num}.

(** An entry of [AdditionalAttributes]. *)
Record attribute := { Name : option string; Values : option (list string) }.

Definition named (name : string) (attr : attribute) : bool :=
  match Name attr with Some n => String.eqb n name | None => false end.

(** [find_additional_attribute] *)
Fixpoint find_additional_attribute (attributes : list attribute) (name : string)
  : option string :=
  match attributes with
  | [] => None
  | attr :: rest =>
      if named name attr then
        match Values attr with
        | Some (v :: _) => Some v
        | _ => None
        end
      else find_additional_attribute rest name
  end.

(** [find_additional_attribute_values] *)
Fixpoint find_additional_attribute_values (attributes : list attribute) (name : string)
  : list string :=
  match attributes with
  | [] => []
  | attr :: rest =>
      if named name attr then
        match Values attr with Some values => values | None => [] end
      else find_additional_attribute_values rest name
  end.

(** An entry of [RelatedUrls]; a key that is missing reads as [''] . *)
Record related_url := {
  URL : option string;
  Type_ : option string;
  Subtype : option string;
  Description : option string
}.

Definition get_str (o : option string) : string :=
  match o with Some s => s | None => EmptyString end.

(** [url.split('/')[-1]] *)
Definition last_segment (url : string) : string :=
  last (split_char "/"%char url) EmptyString.

Definition sha256_note : string :=
  "https://github.com/mlcommons/croissant/issues/80".

(** The [distribution] dictionary built for one related URL. *)
Definition file_object (url_info : related_url) : dict num :=
  let url := get_str (URL url_info) in
  let url_type := get_str (Type_ url_info) in
  let subtype := get_str (Subtype url_info) in
  let description := get_str (Description url_info) in
  let encoding_format := determine_encoding_format url url_type subtype in
  [ ("@type", VStr "cr:FileObject");
    ("name", VStr (if nonempty (last_segment url) then last_segment url
                   else "data_file"));
    ("contentUrl", VStr url);
    ("encodingFormat", VStr encoding_format);
    ("sha256", VStr sha256_note);
    ("description",
       VStr (if nonempty description then description
             else "Download " ++ last_segment url)) ].

(** [add_distribution] *)
Definition add_distribution (related_urls : list related_url) (dataset : dict num)
  : dict num :=
  match related_urls with
  | [] => dataset
  | _ => dict_set "distribution" (VList (map (fun u => VDict (file_object u)) related_urls))
                  dataset
  end.

(** The parts of the [umm] section that the converter reads.
    [SpatialExtent] is reduced to the [Points] of the boundary of the
    first polygon ([[]] when any step on the way there is missing or
    empty), [TemporalExtent] to the two ends of its [RangeDateTime], and
    [Platforms] to the short names of the first platform and of its first
    instrument ([None] when there is no platform or it has no
    instrument). *)
Record umm_g := {
  GranuleUR : option string;
  EntryTitle : option string;
  AdditionalAttributes : list attribute;
  Points : list (@point num);
  BeginningDateTime : option string;
  EndingDateTime : option string;
  Instrument : option (option string * option string);
  RelatedUrls : list related_url
}.

(** The [meta] section; [revision_id] is an integer. *)
Record meta_info := {
  concept_id : option string;
  revision_date : option string;
  revision_id : option Z
}.

(** [self.context], set by [setup_context]. *)
Definition context : pyval num :=
  VDict [
    ("@language", VStr "en");
    ("@vocab", VStr "https://schema.org/");
    ("citeAs", VStr "cr:citeAs");
    ("column", VStr "cr:column");
    ("conformsTo", VStr "dct:conformsTo");
    ("cr", VStr "http://mlcommons.org/croissant/");
    ("geocr", VStr "http://mlcommons.org/croissant/geo/");
    ("rai", VStr "http://mlcommons.org/croissant/RAI/");
    ("dct", VStr "http://purl.org/dc/terms/");
    ("sc", VStr "https://schema.org/");
    ("data", VDict [("@id", VStr "cr:data"); ("@type", VStr "@json")]);
    ("examples", VDict [("@id", VStr "cr:examples"); ("@type", VStr "@json")]);
    ("dataBiases", VStr "cr:dataBiases");
    ("dataCollection", VStr "cr:dataCollection");
    ("dataType", VDict [("@id", VStr "cr:dataType"); ("@type", VStr "@vocab")]);
    ("extract", VStr "cr:extract");
    ("field", VStr "cr:field");
    ("fileProperty", VStr "cr:fileProperty");
    ("fileObject", VStr "cr:fileObject");
    ("fileSet", VStr "cr:fileSet");
    ("format", VStr "cr:format");
    ("includes", VStr "cr:includes");
    ("isLiveDataset", VStr "cr:isLiveDataset");
    ("jsonPath", VStr "cr:jsonPath");
    ("key", VStr "cr:key");
    ("md5", VStr "cr:md5");
    ("parentField", VStr "cr:parentField");
    ("path", VStr "cr:path");
    ("personalSensitiveInformation", VStr "cr:personalSensitiveInformation");
    ("recordSet", VStr "cr:recordSet");
    ("references", VStr "cr:references");
    ("regex", VStr "cr:regex");
    ("repeated", VStr "cr:repeated");
    ("replace", VStr "cr:replace");
    ("samplingRate", VStr "cr:samplingRate");
    ("separator", VStr "cr:separator");
    ("source", VStr "cr:source");
    ("subField", VStr "cr:subField");
    ("transform", VStr "cr:transform") ].

(** The [band_info] table of [add_band_properties]: name, wavelength,
    bandwidth, description. *)
Definition band_info : list (string * (Z * Z * string)) :=
  [ ("B01", (443%Z, 65%Z, "Coastal aerosol"));
    ("B02", (490%Z, 65%Z, "Blue"));
    ("B03", (560%Z, 60%Z, "Green"));
    ("B04", (665%Z, 30%Z, "Red"));
    ("B05", (705%Z, 15%Z, "Red edge 1"));
    ("B06", (740%Z, 15%Z, "Red edge 2"));
    ("B07", (783%Z, 20%Z, "Red edge 3"));
    ("B08", (842%Z, 115%Z, "NIR"));
    ("B8A", (865%Z, 20%Z, "NIR narrow"));
    ("B09", (945%Z, 20%Z, "Water vapour"));
    ("B10", (1375%Z, 30%Z, "SWIR cirrus"));
    ("B11", (1610%Z, 90%Z, "SWIR 1"));
    ("B12", (2190%Z, 180%Z, "SWIR 2")) ].

(** The ["box"] f-string of [add_geospatial_properties]. *)
Definition box_of (bbox : bounding_box) : string :=
  num_str (south bbox) ++ " " ++ num_str (west bbox) ++ " "
  ++ num_str (north bbox) ++ " " ++ num_str (east bbox).

(** [add_geospatial_properties]; [float(spatial_resolution)] can raise. *)
Definition add_geospatial_properties (umm : umm_g) (dataset : dict num)
  : pyres (dict num) :=
  let additional_attrs := AdditionalAttributes umm in
  let dataset :=
    match find_additional_attribute additional_attrs "HORIZONTAL_CS_CODE" with
    | Some crs_code =>
        if nonempty crs_code
        then dict_set "geocr:coordinateReferenceSystem" (VStr crs_code) dataset
        else dataset
    | None => dataset
    end in
  let resolved :=
    match find_additional_attribute additional_attrs "SPATIAL_RESOLUTION" with
    | Some spatial_resolution =>
        if nonempty spatial_resolution then
          match num_float spatial_resolution with
          | Some value =>
              Ok (dict_set "geocr:spatialResolution"
                    (VDict [("@type", VStr "sc:QuantitativeValue");
                            ("value", VNum value);
                            ("unitText", VStr "m")]) dataset)
          | None => Raise "ValueError"
          end
        else Ok dataset
    | None => Ok dataset
    end in
  match resolved with
  | Ok dataset =>
      match calculate_bounding_box (Points umm) with
      | Some bbox =>
          Ok (dict_set "spatialCoverage"
                (VDict [("@type", VStr "sc:Place");
                        ("geo", VDict [("@type", VStr "sc:GeoShape");
                                       ("box", VStr (box_of bbox))])]) dataset)
      | None => Ok dataset
      end
  | Raise exc => Raise exc
  end.

(** [add_temporal_properties] *)
Definition add_temporal_properties (umm : umm_g) (dataset : dict num) : dict num :=
  match BeginningDateTime umm, EndingDateTime umm with
  | Some start, Some end_ =>
      if nonempty start && nonempty end_
      then dict_set "temporalCoverage" (VStr (start ++ "/" ++ end_)) dataset
      else dataset
  | _, _ => dataset
  end.

(** [add_instrument_properties] *)
Definition add_instrument_properties (umm : umm_g) (dataset : dict num) : dict num :=
  match Instrument umm with
  | Some (platform_name, instrument_name) =>
      dict_set "geocr:solarInstrumentCharacteristics"
        (VDict [("@type", VStr "geocr:SolarInstrumentCharacteristics");
                ("geocr:observatory", vopt platform_name);
                ("geocr:instrument", vopt instrument_name)]) dataset
  | None => dataset
  end.

(** [add_sampling_properties] *)
Definition add_sampling_properties (umm : umm_g) (dataset : dict num) : dict num :=
  match find_additional_attribute (AdditionalAttributes umm) "SPATIAL_COVERAGE" with
  | Some spatial_coverage =>
      if nonempty spatial_coverage
      then dict_set "geocr:samplingStrategy"
             (VStr ("Spatial coverage: " ++ spatial_coverage ++ "%")) dataset
      else dataset
  | None => dataset
  end.

(** [create_record] *)
Definition create_record (meta : meta_info) (umm : umm_g) : pyval num :=
  VDict [ ("@type", VStr "cr:RecordSet");
          ("@id", vopt (concept_id meta));
          ("name", vopt (GranuleUR umm));
          ("description", vopt (EntryTitle umm)) ].

(** [add_band_properties] *)
Definition add_band_properties (dataset : dict num) : dict num :=
  let dataset :=
    dict_set "geocr:bandConfiguration"
      (VDict [("@type", VStr "geocr:BandConfiguration");
              ("geocr:totalBands", VInt 13);
              ("geocr:bandNamesList",
                 VList (map VStr ["B01"; "B02"; "B03"; "B04"; "B05"; "B06"; "B07";
                                  "B08"; "B8A"; "B09"; "B10"; "B11"; "B12"]))])
      dataset in
  let spectral_bands :=
    map (fun '(band_name, (wavelength, bandwidth, description)) =>
           VDict [("@type", VStr "geocr:SpectralBand");
                  ("name", VStr band_name);
                  ("description", VStr description);
                  ("geocr:centerWavelength",
                     VDict [("@type", VStr "sc:QuantitativeValue");
                            ("value", VInt wavelength);
                            ("unitText", VStr "nm")]);
                  ("geocr:bandwidth",
                     VDict [("@type", VStr "sc:QuantitativeValue");
                            ("value", VInt bandwidth);
                            ("unitText", VStr "nm")])])
        band_info in
  dict_set "geocr:spectralBandMetadata" (VList spectral_bands) dataset.

(** The [dataset = {...}] literal of [create_dataset_structure]. *)
Definition dataset_header (meta : meta_info) (umm : umm_g) : dict num :=
  let granule_ur :=
    match GranuleUR umm with Some g => g | None => "HLS_Sentinel2_Dataset" end in
  let concept_url :=
    "https://cmr.earthdata.nasa.gov/search/concepts/" ++ fmt_opt (concept_id meta)
    ++ ".html" in
  [ ("@context", context);
    ("@type", VStr "sc:Dataset");
    ("name", VStr granule_ur);
    ("description",
       VStr (match EntryTitle umm with
             | Some t => t
             | None => "HLS Sentinel-2 satellite imagery dataset"
             end));
    ("url", VStr concept_url);
    ("datePublished", vopt (revision_date meta));
    ("version",
       VStr (match revision_id meta with Some z => str_Z z | None => "1.0" end));
    ("license", VStr "https://creativecommons.org/publicdomain/zero/1.0/");
    ("citeAs",
       VStr (granule_ur
             ++ ". NASA EOSDIS Land Processes Distributed Active Archive Center. "
             ++ concept_url));
    ("conformsTo", VList [VStr "http://mlcommons.org/croissant/1.1";
                          VStr "http://mlcommons.org/croissant/geo/1.0"]) ].

(** [create_dataset_structure] *)
Definition create_dataset_structure (meta : meta_info) (umm : umm_g)
  : pyres (dict num) :=
  match add_geospatial_properties umm (dataset_header meta umm) with
  | Ok dataset =>
      let dataset := add_temporal_properties umm dataset in
      let dataset := add_band_properties dataset in
      let dataset := add_instrument_properties umm dataset in
      let dataset := add_sampling_properties umm dataset in
      let dataset := add_distribution (RelatedUrls umm) dataset in
      Ok (dict_set "recordSet" (VList [create_record meta umm]) dataset)
  | Raise exc => Raise exc
  end.

End Dataset.

End NasaUmm.

(* ===================================================================== *)
(** ** CEDA converter (ceda.py) *)
(* ===================================================================== *)

Module Ceda.
Import PyStr PyVal.

(** The "Determine encoding from URL" block of
    [cloud_product_to_geocroissant]. *)
Definition product_encoding (product_url : string) : string :=
  if endswith ".json" product_url then "application/json"
  else if endswith ".nc" product_url || endswith ".netcdf" product_url
       then "application/netcdf"
  else if endswith ".zarr" product_url then "application/zarr"
  else "application/octet-stream".

(** The [file_obj] built for a product with identifier [asset_name]. *)
Definition file_obj {num} (asset_name product_url : string) : dict num :=
  [ ("@type", VStr "cr:FileObject");
    ("@id", VStr asset_name);
    ("name", VStr asset_name);
    ("contentUrl", VStr product_url);
    ("encodingFormat", VStr (product_encoding product_url));
    ("sha256", VStr "placeholder") ].

(** A cloud product: its [id], and its [href] when it has that
    attribute ([hasattr(product, 'href')]). *)
Record product := { id : string; href : option string }.

(** "Extract asset name from product ID" *)
Definition asset_name (product_id : string) : string :=
  if contains "-" product_id
  then last (split_char "-"%char product_id) EmptyString
  else product_id.

(** [croissant_metadata["distribution"]] after the loop over
    [products]. *)
Definition distribution {num} (products : list product) : list (dict num) :=
  flat_map (fun p => match href p with
                     | Some product_url => [file_obj (asset_name (id p)) product_url]
                     | None => []
                     end) products.

(** A field of the record set, referring to the FileObject [first_id]. *)
Definition field {num} (name description data_type : string) (first_id : pyval num)
  : pyval num :=
  VDict [ ("@type", VStr "cr:Field");
          ("name", VStr name);
          ("description", VStr description);
          ("dataType", VStr data_type);
          ("source", VDict [("fileObject", VDict [("@id", first_id)])]) ].

(** "Add recordSet": [None] when the distribution is empty and the key is
    not set; [croissant_metadata["distribution"][0]["@id"]] raises KeyError
    on an entry without ["@id"]. *)
Definition record_set {num} (variable_id variable_name : string)
    (distribution : list (dict num)) : pyres (option (pyval num)) :=
  match distribution with
  | [] => Ok None
  | first :: _ =>
      match dict_get "@id" first with
      | Some first_id =>
          Ok (Some
                (VList
                   [ VDict [ ("@type", VStr "cr:RecordSet");
                             ("name", VStr "climate_data");
                             ("field",
                                VList [ field variable_id variable_name "sc:Float" first_id;
                                        field "latitude" "Latitude coordinate"
                                              "sc:Float" first_id;
                                        field "longitude" "Longitude coordinate"
                                              "sc:Float" first_id;
                                        field "time" "Time coordinate"
                                              "sc:Text" first_id ]) ] ]))
      | None => Raise "KeyError"
      end
  end.

(** "Format bounding box for spatialCoverage" *)
Definition bbox_str {num} {N : PyNumber num} (bbox : option (list num)) : string :=
  match bbox with
  | Some (b0 :: b1 :: b2 :: b3 :: _) =>
      num_str b1 ++ " " ++ num_str b0 ++ " " ++ num_str b3 ++ " " ++ num_str b2
  | _ => "-90 -180 90 180"
  end.

(** The ["temporalCoverage"] f-string. *)
Definition temporal_coverage (start_datetime end_datetime : option string) : string :=
  match start_datetime with Some s => s | None => "2015-01-01" end
  ++ "/" ++
  match end_datetime with Some e => e | None => "2100-12-31" end.

End Ceda.

(* ===================================================================== *)
(** ** Google Earth Engine script (gee-geocr.py) *)
(* ===================================================================== *)

Module Gee.
Import PyStr PyVal.

(** [s.replace(a, b)] for single characters. *)
Definition replace_char (a b : ascii) (s : string) : string :=
  map_chars (fun c => if Ascii.eqb c a then b else c) s.

Definition ASSET_ID : string :=
  "COPERNICUS/S2/20170430T190351_20170430T190351_T10SEG".

(** The ["distribution"] literal of [geo_croissant], for an asset
    identifier. *)
Definition distribution {num} (asset_id : string) : list (pyval num) :=
  [ VDict [ ("@type", VStr "cr:FileObject");
            ("@id", VStr ("sentinel2-bands-" ++ replace_char "/" "-" asset_id));
            ("name", VStr ("Sentinel-2 Bands for " ++ asset_id));
            ("description",
               VStr ("Downloadable Sentinel-2 spectral bands for " ++ asset_id));
            ("contentUrl",
               VStr ("https://earthengine.googleapis.com/v1alpha/projects/earthengine-public/assets/"
                     ++ asset_id));
            ("encodingFormat", VStr "application/json") ] ].

End Gee.

(* ===================================================================== *)
(** ** Landslide4Sense script (l4s.py) *)
(* ===================================================================== *)

Module L4s.
Import PyVal.

(** The ["distribution"] literal of [geocroissant_json]. *)
Definition distribution {num} : list (pyval num) :=
  [ VDict [ ("@type", VStr "cr:FileObject");
            ("@id", VStr "data_repo");
            ("name", VStr "data_repo");
            ("description",
               VStr "Landslide4sense dataset directory containing HDF5 files");
            ("contentUrl", VStr "./Landslide4sense");
            ("encodingFormat", VStr "local_directory");
            ("sha256", VStr "placeholder_checksum_for_directory") ];
    VDict [ ("@type", VStr "cr:FileSet");
            ("@id", VStr "h5-files");
            ("name", VStr "h5-files");
            ("description", VStr "All HDF5 files containing images and masks");
            ("containedIn", VDict [("@id", VStr "data_repo")]);
            ("encodingFormat", VStr "application/x-hdf5");
            ("includes", VStr "**/*.h5") ] ].

End L4s.

(* ===================================================================== *)
(** ** Time-series converter (geocr-timeseries.py) *)
(* ===================================================================== *)

Module TimeSeries.
Import PyStr PyVal.

(** [properties.datetime] of an item: the key can be missing (also when
    the item has no [properties]), hold [null], which STAC allows, or hold a
    string. *)
Inductive datetime_field :=
| NoDatetime
| NullDatetime
| Datetime (dt_str : string).

(** A STAC item as [convert_items_to_geocroissant] reads it for the
    temporal extent, the distribution and the examples: its id,
    [properties.datetime] and the [href] of its assets. *)
Record item := {
  item_id : option string;
  item_datetime : datetime_field;
  item_assets : list (string * option string)
}.

(** Python [datetime] values as this converter uses them: read with
    [fromisoformat] and compared.  An aware and a naive datetime cannot be
    compared. *)
Class PyDatetimes (dt : Type) := {
  fromisoformat : string -> option dt;   (* [None]: ValueError *)
  dt_ltb : dt -> dt -> option bool       (* [a < b]; [None]: TypeError *)
}.

(** [dt_str.replace('Z', '+00:00')] *)
Fixpoint replace_Z (s : string) : string :=
  match s with
  | EmptyString => EmptyString
  | String c s' =>
      if Ascii.eqb c "Z"%char then "+00:00" ++ replace_Z s'
      else String c (replace_Z s')
  end.

Fixpoint lookup (k : string) (l : list (string * option string))
  : option (option string) :=
  match l with
  | [] => None
  | (k', v) :: l' => if String.eqb k' k then Some v else lookup k l'
  end.

(** The asset keys of the first item that count as bands. *)
Definition band_names (items_list : list item) : list string :=
  match items_list with
  | [] => []
  | first_item :: _ =>
      filter (fun asset_key => contains "B" asset_key || contains "B8A" asset_key)
             (map fst (item_assets first_item))
  end.

Definition base_url (band_names : list string) (it : item) : string :=
  match band_names with
  | b0 :: _ =>
      match lookup b0 (item_assets it) with
      | Some href =>
          let first_band_url := match href with Some u => u | None => EmptyString end in
          let first_band_url :=
            if contains "?" first_band_url
            then hd EmptyString (split_char "?"%char first_band_url)
            else first_band_url in
          if contains ".B" first_band_url
          then rsplit_head ".B" first_band_url
          else rsplit_head "/" first_band_url
      | None => EmptyString
      end
  | [] => EmptyString
  end.

Section Distribution.
Context {num : Type}.

(** The [file_set] appended for the item numbered [idx]. *)
Definition file_set (band_names : list string) (idx : nat) (it : item) : pyval num :=
  let id := match item_id it with
            | Some i => i
            | None => "item_" ++ str_nat idx
            end in
  let dt_str := match item_datetime it with
                | Datetime s => s
                | NullDatetime => "None"
                | NoDatetime => EmptyString
                end in
  VDict [ ("@type", VStr "cr:FileSet");
          ("@id", VStr ("granule_" ++ str_nat idx ++ "_bands"));
          ("name", VStr (id ++ "_spectral_bands"));
          ("description",
             VStr ("13 spectral band GeoTIFF files for " ++ id ++ " (" ++ dt_str
                   ++ "). URLs require signing via Microsoft Planetary Computer."));
          ("contentUrl", VStr (base_url band_names it));
          ("encodingFormat", VStr "image/tiff");
          ("includes", VStr "*.tif") ].

(** The [for idx, item in enumerate(items_list, 1)] loop, from [idx]
    on. *)
Fixpoint file_sets_from (band_names : list string) (idx : nat) (items : list item)
  : list (pyval num) :=
  match items with
  | [] => []
  | it :: rest => file_set band_names idx it :: file_sets_from band_names (S idx) rest
  end.

(** [geocr_dataset['distribution']] after the loop "Create FileSet
    entries". *)
Definition file_sets (items_list : list item) : list (pyval num) :=
  file_sets_from (band_names items_list) 1 items_list.

End Distribution.

Section Conversion.
Context {num : Type} {dt : Type} {D : PyDatetimes dt}.

(** [datetime.fromisoformat(dt_str.replace('Z', '+00:00'))] *)
Definition parse (dt_str : string) : pyres dt :=
  match fromisoformat (replace_Z dt_str) with
  | Some d => Ok d
  | None => Raise "ValueError"
  end.

(** [if bound is None or <comparison>: bound = dt], where [comparison] is
    the outcome of comparing [dt] with the bound. *)
Definition update_bound (bound : option dt) (d : dt)
    (comparison : dt -> option bool) : pyres (option dt) :=
  match bound with
  | None => Ok (Some d)
  | Some b =>
      match comparison b with
      | Some true => Ok (Some d)
      | Some false => Ok (Some b)
      | None => Raise "TypeError"
      end
  end.

(** One turn of the loop "Calculate temporal and spatial extents", on
    [(min_date, max_date)].  The spatial extent, made in the same loop
    from the numbers of the bounding boxes, is left out. *)
Definition extent_step (bounds : option dt * option dt) (it : item)
  : pyres (option dt * option dt) :=
  match item_datetime it with
  | Datetime dt_str =>
      if nonempty dt_str then
        match parse dt_str with
        | Ok d =>
            match update_bound (fst bounds) d (fun min_date => dt_ltb d min_date) with
            | Ok min_date =>
                match update_bound (snd bounds) d
                        (fun max_date => dt_ltb max_date d) with
                | Ok max_date => Ok (min_date, max_date)
                | Raise exc => Raise exc
                end
            | Raise exc => Raise exc
            end
        | Raise exc => Raise exc
        end
      else Ok bounds
  | _ => Ok bounds
  end.

Fixpoint extent_from (bounds : option dt * option dt) (items : list item)
  : pyres (option dt * option dt) :=
  match items with
  | [] => Ok bounds
  | it :: rest =>
      match extent_step bounds it with
      | Ok bounds' => extent_from bounds' rest
      | Raise exc => Raise exc
      end
  end.

(** An entry of ["examples"]: the granule id, the datetime string and the
    datetime that [month] is formatted from. *)
Record example := {
  granule_id : string;
  observation_datetime : string;
  dt_obj : dt
}.

(** One turn of the loop over [items_list[:2]].  The datetime of an item
    without one is read as the empty string, which [fromisoformat] never
    reads; [None] has no [replace]. *)
Definition example_of (idx : nat) (it : item) : pyres example :=
  let id := match item_id it with
            | Some i => i
            | None => "item_" ++ str_nat idx
            end in
  match item_datetime it with
  | Datetime dt_str =>
      if nonempty dt_str then
        match parse dt_str with
        | Ok d => Ok {| granule_id := id; observation_datetime := dt_str; dt_obj := d |}
        | Raise exc => Raise exc
        end
      else Raise "ValueError"
  | NoDatetime => Raise "ValueError"
  | NullDatetime => Raise "AttributeError"
  end.

Fixpoint examples_from (idx : nat) (items : list item) : pyres (list example) :=
  match items with
  | [] => Ok []
  | it :: rest =>
      match example_of idx it with
      | Ok e =>
          match examples_from (S idx) rest with
          | Ok es => Ok (e :: es)
          | Raise exc => Raise exc
          end
      | Raise exc => Raise exc
      end
  end.

(** The parts of the returned dataset that are modelled: [min_date] and
    [max_date], the distribution and the examples of the record set. *)
Record dataset := {
  temporal_extent : option dt * option dt;
  distribution : list (pyval num);
  examples : list example
}.

(** [convert_items_to_geocroissant]: [Ok None] stands for the empty
    dictionary that is returned for an empty list. *)
Definition convert_items_to_geocroissant (items_list : list item)
  : pyres (option dataset) :=
  match items_list with
  | [] => Ok None
  | _ =>
      match extent_from (None, None) items_list with
      | Ok bounds =>
          match examples_from 1 (firstn 2 items_list) with
          | Ok es =>
              Ok (Some {| temporal_extent := bounds;
                          distribution := file_sets items_list;
                          examples := es |})
          | Raise exc => Raise exc
          end
      | Raise exc => Raise exc
      end
  end.

End Conversion.

Section RecordSet.
Context {num : Type}.

(** A field of [time_series_recordset]: every one of them has
    ["granule_1_bands"] as the file set of its source. *)
Definition field (name description data_type : string) : pyval num :=
  VDict [ ("@type", VStr "cr:Field");
          ("@id", VStr ("time_series_observations/" ++ name));
          ("name", VStr name);
          ("description", VStr description);
          ("dataType", VStr data_type);
          ("source", VDict [("fileSet", VStr "granule_1_bands");
                            ("extract", VDict [("column", VStr name)])]) ].

(** The ["field"] list of [time_series_recordset]. *)
Definition fields : list (pyval num) :=
  [ field "granule_id" "Unique identifier for monthly observation" "sc:Text";
    field "observation_datetime" "Observation timestamp (ISO 8601)" "sc:DateTime";
    field "month" "Year-month (YYYY-MM)" "sc:Text";
    field "platform" "Satellite platform" "sc:Text";
    field "cloud_cover" "Cloud cover percentage" "sc:Float" ].

End RecordSet.

Section Monthly.
(** The items found by the search, with the ["%Y-%m"] form of their
    datetime. *)
Context {stac_item : Type} (year_month : stac_item -> string).

(** [monthly_items[year_month].append(item)] on a [defaultdict(list)]: a
    new key goes last. *)
Fixpoint group_append (ym : string) (it : stac_item)
    (monthly_items : list (string * list stac_item)) : list (string * list stac_item) :=
  match monthly_items with
  | [] => [(ym, [it])]
  | (k, l) :: rest =>
      if String.eqb k ym then (k, (l ++ [it])%list) :: rest
      else (k, l) :: group_append ym it rest
  end.

(** [monthly_items] after the "Group by month" loop. *)
Definition group_by_month (items : list stac_item) : list (string * list stac_item) :=
  fold_left (fun monthly_items it => group_append (year_month it) it monthly_items)
            items [].

(** [monthly_items[month]] *)
Fixpoint group_of (month : string) (monthly_items : list (string * list stac_item))
  : list stac_item :=
  match monthly_items with
  | [] => []
  | (k, l) :: rest => if String.eqb k month then l else group_of month rest
  end.

(** [sorted(keys)], by insertion; strings are compared with [<]. *)
Fixpoint insert_sorted (k : string) (l : list string) : list string :=
  match l with
  | [] => [k]
  | x :: rest => if String.ltb k x then k :: l else x :: insert_sorted k rest
  end.

Definition sorted (keys : list string) : list string :=
  fold_right insert_sorted [] keys.

(** [fetch_monthly_items], from the list of the items found on. *)
Definition fetch_monthly_items (items : list stac_item) : list stac_item :=
  let monthly_items := group_by_month items in
  flat_map (fun month =>
              match group_of month monthly_items with
              | first :: _ => [first]
              | [] => []
              end)
           (sorted (map fst monthly_items)).

End Monthly.

End TimeSeries.

(* ===================================================================== *)
(** ** GeoCroissant to GeoDCAT (geocroissant_to_geodcat.py) *)
(* ===================================================================== *)

Module GeoDcat.
Import PyStr.

(** "Create WKT polygon from bounding box": [None] when the box does not
    split into four pieces (no polygon is added). *)
Definition wkt_bbox (box : string) : option string :=
  match split_ws box with
  | [south; west; north; east] =>
      Some ("POLYGON((" ++ west ++ " " ++ south ++ ", " ++ east ++ " " ++ south
            ++ ", " ++ east ++ " " ++ north ++ ", " ++ west ++ " " ++ north
            ++ ", " ++ west ++ " " ++ south ++ "))")
  | _ => None
  end.

(** "Temporal coverage" of [geocroissant_to_geodcat_jsonld]: the start and
    end dates of the period that is added, if one is; [Raise] when the
    unpacking of [split("/")] fails. *)
Definition period (temporal_coverage : string) : PyVal.pyres (option (string * string)) :=
  if contains "/" temporal_coverage then
    match split_char "/"%char temporal_coverage with
    | [start_date; end_date] => PyVal.Ok (Some (start_date, end_date))
    | _ => PyVal.Raise "ValueError"
    end
  else PyVal.Ok None.

Section Graph.
Import PyVal.
Context {num : Type}.

(** [str(v)] of a value inside an f-string; it is the identity on
    strings. *)
Context (py_str : pyval num -> string).

(** The terms of the triples: a constant of a namespace
    ([DCAT.distribution] is [NS "dcat" "distribution"]), [URIRef(...)] of
    an f-string, [URIRef(v)] and [Literal(v)] of a value of the record,
    and the blank nodes [BNode()], numbered as they are made. *)
Inductive term :=
| NS (prefix name : string)
| URIRef (uri : string)
| URIRefOf (v : pyval num)
| Literal (v : pyval num)
| BNode (n : nat).

Definition triple : Type := term * term * term.

(** [if key in dist: g.add((subject, predicate, make(dist[key])))] *)
Definition add_if_present (key : string) (subject predicate : term)
    (make : pyval num -> term) (dist : dict num) : list triple :=
  match dict_get key dist with
  | Some v => [(subject, predicate, make v)]
  | None => []
  end.

(** [dist.get("@type") == t] *)
Definition has_type (t : string) (dist : dict num) : bool :=
  match dict_get "@type" dist with
  | Some (VStr s) => String.eqb s t
  | _ => false
  end.

(** [dist_uri] for the default identifier [default_id]. *)
Definition dist_uri (dataset_uri default_id : string) (dist : dict num) : string :=
  dataset_uri ++ "/distribution/"
  ++ py_str (match dict_get "@id" dist with Some v => v | None => VStr default_id end).

(** One turn of the loop over ["distribution"]: the triples added to the
    graph, in order, and the number of blank nodes made so far ([next]
    before the turn). *)
Definition distribution_triples (dataset_uri : string) (next : nat) (dist : dict num)
  : list triple * nat :=
  if has_type "cr:FileObject" dist then
    let uri := URIRef (dist_uri dataset_uri "distribution" dist) in
    let described :=
      ([ (URIRef dataset_uri, NS "dcat" "distribution", uri);
         (uri, NS "rdf" "type", NS "dcat" "Distribution") ]
       ++ add_if_present "name" uri (NS "dct" "title") Literal dist
       ++ add_if_present "description" uri (NS "dct" "description") Literal dist
       ++ add_if_present "contentUrl" uri (NS "dcat" "accessURL") URIRefOf dist
       ++ add_if_present "encodingFormat" uri (NS "dcat" "mediaType") Literal dist)%list in
    match dict_get "md5" dist with
    | Some md5 =>
        let checksum_node := BNode next in
        ((described
          ++ [ (uri, NS "spdx" "checksum", checksum_node);
               (checksum_node, NS "rdf" "type", NS "spdx" "Checksum");
               (checksum_node, NS "spdx" "algorithm", NS "spdx" "checksumAlgorithm_md5");
               (checksum_node, NS "spdx" "checksumValue", Literal md5) ])%list,
         S next)
    | None => (described, next)
    end
  else if has_type "cr:FileSet" dist then
    let uri := URIRef (dist_uri dataset_uri "fileset" dist) in
    (([ (URIRef dataset_uri, NS "dcat" "distribution", uri);
        (uri, NS "rdf" "type", NS "dcat" "Distribution");
        (uri, NS "rdf" "type", NS "geocr" "FileSet") ]
      ++ add_if_present "name" uri (NS "dct" "title") Literal dist
      ++ add_if_present "description" uri (NS "dct" "description") Literal dist
      ++ add_if_present "encodingFormat" uri (NS "dcat" "mediaType") Literal dist
      ++ add_if_present "includes" uri (NS "geocr" "includes") Literal dist)%list,
     next)
  else ([], next).

(** The loop "Distributions", over the entries of the list. *)
Fixpoint add_distributions (dataset_uri : string) (next : nat)
    (distribution : list (dict num)) : list triple * nat :=
  match distribution with
  | [] => ([], next)
  | dist :: rest =>
      let (here, next') := distribution_triples dataset_uri next dist in
      let (later, next'') := add_distributions dataset_uri next' rest in
      ((here ++ later)%list, next'')
  end.

End Graph.

Section Header.
Import PyVal.
Context {num : Type}.

(** The characters that [urllib.parse.quote] never encodes. *)
Definition always_safe (c : ascii) : bool :=
  is_upper c || is_lower c || is_digit c
  || Ascii.eqb c "_"%char || Ascii.eqb c "."%char
  || Ascii.eqb c "-"%char || Ascii.eqb c "~"%char.

(** One digit of ["%02X"]. *)
Definition hex_digit (n : nat) : ascii :=
  if (n <? 10)%nat then ascii_of_nat (48 + n) else ascii_of_nat (55 + n).

Definition percent_encoded (c : ascii) : string :=
  String "%"%char
    (String (hex_digit (nat_of_ascii c / 16))
       (String (hex_digit (nat_of_ascii c mod 16)) EmptyString)).

(** [quote(s, safe='')], on the bytes of the string. *)
Fixpoint quote (s : string) : string :=
  match s with
  | EmptyString => EmptyString
  | String c s' =>
      (if always_safe c then String c EmptyString else percent_encoded c) ++ quote s'
  end.

(** "Create dataset URI" and "Basic dataset properties": the dataset URI
    and the first four triples.  [quote] of a value that is not a string
    raises TypeError, and [geocroissant_json["name"]] and
    [geocroissant_json["description"]] raise KeyError. *)
Definition dataset_header (geocroissant_json : dict num)
  : pyres (string * list (@triple num)) :=
  match (match dict_get "name" geocroissant_json with
         | Some v => v
         | None => VStr "dataset"
         end) with
  | VStr dataset_name =>
      let safe_name := quote dataset_name in
      let dataset_uri := "https://example.org/" ++ safe_name in
      match dict_get "name" geocroissant_json with
      | Some name =>
          match dict_get "description" geocroissant_json with
          | Some description =>
              Ok (dataset_uri,
                  [ (URIRef dataset_uri, NS "rdf" "type", NS "dcat" "Dataset");
                    (URIRef dataset_uri, NS "rdf" "type", NS "schema" "Dataset");
                    (URIRef dataset_uri, NS "dct" "title", Literal name);
                    (URIRef dataset_uri, NS "dct" "description", Literal description) ])
          | None => Raise "KeyError"
          end
      | None => Raise "KeyError"
      end
  | _ => Raise "TypeError"
  end.

End Header.

End GeoDcat.

(* ===================================================================== *)
(** ** Checks on a distribution list *)
(* ===================================================================== *)

Module Distribution.
Import PyStr PyVal.

Section Checks.
Context {num : Type}.

Definition str_field (k : string) (e : pyval num) : option string :=
  match e with
  | VDict d => match dict_get k d with Some (VStr s) => Some s | _ => None end
  | _ => None
  end.

Definition has_key (k : string) (e : pyval num) : bool :=
  match e with VDict d => dict_has k d | _ => false end.

Definition is_type (t : string) (e : pyval num) : bool :=
  match str_field "@type" e with Some t' => String.eqb t' t | None => false end.

(** The [@id] that ["containedIn"] refers to. *)
Definition container_ref (e : pyval num) : option string :=
  match e with
  | VDict d =>
      match dict_get "containedIn" d with
      | Some r => str_field "@id" r
      | None => None
      end
  | _ => None
  end.

Definition includes_nonempty (e : pyval num) : bool :=
  match str_field "includes" e with Some s => nonempty s | None => false end.

Definition has_checksum (e : pyval num) : bool :=
  has_key "sha256" e || has_key "md5" e.

(** Every FileSet has a non-empty include pattern and is contained in a
    FileObject that comes before it; [declared] are the ids of the
    FileObjects seen so far. *)
Fixpoint filesets_ok (declared : list string) (dist : list (pyval num)) : bool :=
  match dist with
  | [] => true
  | e :: rest =>
      if is_type "cr:FileSet" e then
        includes_nonempty e
        && match container_ref e with
           | Some r => existsb (String.eqb r) declared
           | None => false
           end
        && filesets_ok declared rest
      else if is_type "cr:FileObject" e then
        match str_field "@id" e with
        | Some i => filesets_ok (i :: declared) rest
        | None => filesets_ok declared rest
        end
      else filesets_ok declared rest
  end.

End Checks.

End Distribution.

(* ===================================================================== *)
(** ** Definitions used in the statements *)
(* ===================================================================== *)

(** The suffixes each converter tests, with the format it returns. *)
Definition nasa_format_table : list (string * string) :=
  [ (".tif", "image/tiff"); (".tiff", "image/tiff");
    (".jpg", "image/jpeg"); (".jpeg", "image/jpeg");
    (".json", "application/json"); (".xml", "application/xml");
    (".hdf", "application/x-hdf"); (".h5", "application/x-hdf");
    (".nc", "application/x-netcdf") ].

Definition ceda_format_table : list (string * string) :=
  [ (".json", "application/json");
    (".nc", "application/netcdf"); (".netcdf", "application/netcdf");
    (".zarr", "application/zarr") ].

Definition no_suffix_of (table : list (string * string)) (url : string) : bool :=
  forallb (fun row => negb (PyStr.endswith (fst row) url)) table.

(** A projected CRS description that carries an EPSG authority code. *)
Definition utm33_wkt2 : string :=
  "PROJCS[" ++ PyStr.dq ++ "WGS 84 / UTM zone 33N" ++ PyStr.dq
  ++ ",GEOGCS[" ++ PyStr.dq ++ "WGS 84" ++ PyStr.dq
  ++ "],PROJECTION[" ++ PyStr.dq ++ "Transverse_Mercator" ++ PyStr.dq
  ++ "],AUTHORITY[" ++ PyStr.dq ++ "EPSG" ++ PyStr.dq ++ "," ++ PyStr.dq
  ++ "32633" ++ PyStr.dq ++ "]]".

(** Three more projected descriptions: an Albers one, a UTM one without
    zone number, and one that names neither. *)
Definition albers_wkt2 : string :=
  "PROJCS[" ++ PyStr.dq ++ "NAD83 / Conus Albers" ++ PyStr.dq ++ "]".

Definition utm_plain_wkt2 : string :=
  "PROJCS[" ++ PyStr.dq ++ "UTM north" ++ PyStr.dq ++ "]".

Definition sinusoidal_wkt2 : string :=
  "PROJECTION[" ++ PyStr.dq ++ "Sinusoidal" ++ PyStr.dq ++ "]".

Section StacStatements.
Import PyVal StacToGeoCroissant.
Context {num : Type} {N : PyNumber num}.

(** The assets of a document, in order ([stac_dict.get("assets", {})]). *)
Definition assets_of (d : stac_doc num) : list (string * asset num) :=
  match s_assets d with Some l => l | None => [] end.

(** The dictionaries appended to [croissant["distribution"]], in order. *)
Definition distribution_entries (d : stac_doc num) : list (pyval num) :=
  map (fun ka => VDict (fst (asset_entry (fst ka) (snd ka)))) (assets_of d).

(** The lines printed by the asset loop, in order. *)
Definition checksum_lines (d : stac_doc num) : list string :=
  flat_map (fun ka => snd (asset_entry (fst ka) (snd ka))) (assets_of d).

(** The asset has none of the three checksum fields. *)
Definition no_checksum (a : asset num) : bool :=
  match a_checksum_multihash a, a_file_checksum a, a_checksum_md5 a with
  | None, None, None => true
  | _, _, _ => false
  end.

(** A printed line is a warning. *)
Definition is_warning (line : string) : bool :=
  PyStr.startswith "  Warning:" line.

(** The number prints as one piece that [float] reads back: what Python's
    [repr] and [float] guarantee for a finite float. *)
Definition reads_back (x : num) : Prop :=
  PyStr.is_token (num_str x) = true /\ num_float (num_str x) = Some x.

(** Some field of the document gives a publication date. *)
Definition has_date (d : stac_doc num) : bool :=
  if is_item d then
    match s_properties d with
    | Some props =>
        (truthy (start_datetime props) && truthy (end_datetime props))
        || truthy (datetime_val props)
        || match created_datetime props with Some _ => true | None => false end
    | None => false
    end
  else
    match s_extent_interval d with
    | Some ((start, _) :: _) => truthy start
    | _ => false
    end.

End StacStatements.

(** ** Example documents and clock readings *)

Definition run_2024 : PyVal.datetime :=
  {| PyVal.year := 2024; PyVal.month := 3; PyVal.day := 7; PyVal.hour := 9;
     PyVal.minute := 30; PyVal.second := 0; PyVal.microsecond := 0 |}.

Definition run_2025 : PyVal.datetime :=
  {| PyVal.year := 2025; PyVal.month := 3; PyVal.day := 7; PyVal.hour := 9;
     PyVal.minute := 30; PyVal.second := 0; PyVal.microsecond := 0 |}.

(** An asset without any checksum field, and one with an md5. *)
Definition plain_asset : StacToGeoCroissant.asset Z :=
  {| StacToGeoCroissant.a_description := None;
     StacToGeoCroissant.a_title := Some "Band 1";
     StacToGeoCroissant.a_href := Some "https://data.example/B01.tif";
     StacToGeoCroissant.a_type := Some "image/tiff";
     StacToGeoCroissant.a_checksum_multihash := None;
     StacToGeoCroissant.a_file_checksum := None;
     StacToGeoCroissant.a_checksum_md5 := None;
     StacToGeoCroissant.a_bands := None;
     StacToGeoCroissant.a_gsd := None |}.

Definition hashed_asset : StacToGeoCroissant.asset Z :=
  {| StacToGeoCroissant.a_description := None;
     StacToGeoCroissant.a_title := Some "Band 2";
     StacToGeoCroissant.a_href := Some "https://data.example/B02.tif";
     StacToGeoCroissant.a_type := Some "image/tiff";
     StacToGeoCroissant.a_checksum_multihash := None;
     StacToGeoCroissant.a_file_checksum := None;
     StacToGeoCroissant.a_checksum_md5 := Some "9e107d9d372bb6826bd81d3542a419d6";
     StacToGeoCroissant.a_bands := None;
     StacToGeoCroissant.a_gsd := None |}.

(** A STAC item with the given properties, assets and citation; its bbox is
    [[20, 10, 40, 30]] (west, south, east, north). *)
Definition item_doc (props : StacToGeoCroissant.properties Z)
    (assets : list (string * StacToGeoCroissant.asset Z))
    (citation : option string) : StacToGeoCroissant.stac_doc Z :=
  {| StacToGeoCroissant.s_type := Some "Feature";
     StacToGeoCroissant.s_id := Some "S2A_T10SEG_20170430";
     StacToGeoCroissant.s_title := None;
     StacToGeoCroissant.s_version := None;
     StacToGeoCroissant.s_description := Some "Sentinel-2 scene";
     StacToGeoCroissant.s_license := None;
     StacToGeoCroissant.s_collection := Some "sentinel-2-l1c";
     StacToGeoCroissant.s_sci_citation := citation;
     StacToGeoCroissant.s_providers := None;
     StacToGeoCroissant.s_links := None;
     StacToGeoCroissant.s_bbox := Some [20; 10; 40; 30]%Z;
     StacToGeoCroissant.s_extent_bbox := None;
     StacToGeoCroissant.s_extent_interval := None;
     StacToGeoCroissant.s_properties := Some props;
     StacToGeoCroissant.s_assets := Some assets;
     StacToGeoCroissant.s_item_assets := None;
     StacToGeoCroissant.s_keywords := None;
     StacToGeoCroissant.s_summaries := None;
     StacToGeoCroissant.s_deprecated := None;
     StacToGeoCroissant.s_extra := [] |}.

(** Properties whose range starts after it ends. *)
Definition reversed_range : StacToGeoCroissant.properties Z :=
  {| StacToGeoCroissant.start_datetime := Some "2021-01-01T00:00:00Z";
     StacToGeoCroissant.end_datetime := Some "2020-01-01T00:00:00Z";
     StacToGeoCroissant.datetime_val := None;
     StacToGeoCroissant.created_datetime := None;
     StacToGeoCroissant.proj_epsg := None;
     StacToGeoCroissant.proj_wkt2 := None |}.

Definition dated : StacToGeoCroissant.properties Z :=
  {| StacToGeoCroissant.start_datetime := None;
     StacToGeoCroissant.end_datetime := None;
     StacToGeoCroissant.datetime_val := Some "2017-04-30T19:03:51Z";
     StacToGeoCroissant.created_datetime := None;
     StacToGeoCroissant.proj_epsg := None;
     StacToGeoCroissant.proj_wkt2 := None |}.

(** One time-series item with a band asset. *)
Definition january : TimeSeries.item :=
  {| TimeSeries.item_id := Some "HLS.S30.T11SMT.2025027T183539.v2.0";
     TimeSeries.item_datetime := TimeSeries.Datetime "2025-01-27T18:35:39Z";
     TimeSeries.item_assets :=
       [("B01",
         Some "https://hls.example/T11SMT/HLS.S30.T11SMT.2025027T183539.v2.0.B01.tif?sig=abc")] |}.

(** The datetime of the item is a non-empty string that [fromisoformat]
    reads once "Z" is replaced. *)
Definition readable {dt} {D : TimeSeries.PyDatetimes dt} (it : TimeSeries.item)
  : bool :=
  match TimeSeries.item_datetime it with
  | TimeSeries.Datetime dt_str =>
      PyStr.nonempty dt_str
      && match TimeSeries.fromisoformat (TimeSeries.replace_Z dt_str) with
         | Some _ => true
         | None => false
         end
  | _ => false
  end.

(** The item has no datetime: the key is missing, or holds null or the
    empty string. *)
Definition undated (it : TimeSeries.item) : bool :=
  match TimeSeries.item_datetime it with
  | TimeSeries.Datetime dt_str => negb (PyStr.nonempty dt_str)
  | _ => true
  end.

(** Datetimes written to the second with a UTC offset, as in
    "2025-01-27T18:35:39+00:00" (25 characters), kept as their text and
    compared as text; any other text is not read. *)
Definition utc_text : TimeSeries.PyDatetimes string :=
  {| TimeSeries.fromisoformat s :=
       if Nat.eqb (String.length s) 25 then Some s else None;
     TimeSeries.dt_ltb a b := Some (String.ltb a b) |}.

(** An item whose properties have no datetime. *)
Definition no_datetime : TimeSeries.item :=
  {| TimeSeries.item_id := Some "HLS.S30.T11SMT.2025058T183539.v2.0";
     TimeSeries.item_datetime := TimeSeries.NoDatetime;
     TimeSeries.item_assets := [] |}.

(** An item whose datetime is null, as STAC allows beside a start and an
    end. *)
Definition null_datetime : TimeSeries.item :=
  {| TimeSeries.item_id := Some "HLS.S30.T11SMT.2025089T183539.v2.0";
     TimeSeries.item_datetime := TimeSeries.NullDatetime;
     TimeSeries.item_assets := [] |}.

(** The string has no occurrence of the character. *)
Definition free_of (c : ascii) (s : string) : bool :=
  PyStr.all_chars (fun a => negb (Ascii.eqb a c)) s.

Section MoreStacStatements.
Import PyVal StacToGeoCroissant.
Context {num : Type} {N : PyNumber num}.

(** The first ground sample distance among the assets, in order. *)
Fixpoint first_gsd (assets : list (string * asset num)) : option num :=
  match assets with
  | [] => None
  | (_, a) :: rest =>
      match a_gsd a with
      | Some g => Some g
      | None => first_gsd rest
      end
  end.

(** A link that becomes a reference: it has a non-empty href and is not the
    self link. *)
Definition is_reference (l : link) : bool :=
  truthy (l_href l) && negb (rel_is "self" l).

End MoreStacStatements.

(** An asset with three bands, two of them named alike, and a gsd. *)
Definition banded_asset : StacToGeoCroissant.asset Z :=
  {| StacToGeoCroissant.a_description := Some "Surface reflectance";
     StacToGeoCroissant.a_title := None;
     StacToGeoCroissant.a_href := None;
     StacToGeoCroissant.a_type := None;
     StacToGeoCroissant.a_checksum_multihash := Some "1220abcd";
     StacToGeoCroissant.a_file_checksum := Some "ffff";
     StacToGeoCroissant.a_checksum_md5 := None;
     StacToGeoCroissant.a_bands :=
       Some [ {| StacToGeoCroissant.band_name := Some "B1" |};
              {| StacToGeoCroissant.band_name := None |};
              {| StacToGeoCroissant.band_name := Some "B1" |} ];
     StacToGeoCroissant.a_gsd := Some 30%Z |}.

(** A collection without spatial extent whose interval has no end. *)
Definition open_collection : StacToGeoCroissant.stac_doc Z :=
  {| StacToGeoCroissant.s_type := Some "Collection";
     StacToGeoCroissant.s_id := Some "hls2-s30";
     StacToGeoCroissant.s_title := Some "HLS Sentinel-2";
     StacToGeoCroissant.s_version := Some "v2.0";
     StacToGeoCroissant.s_description := None;
     StacToGeoCroissant.s_license := None;
     StacToGeoCroissant.s_collection := None;
     StacToGeoCroissant.s_sci_citation := None;
     StacToGeoCroissant.s_providers := None;
     StacToGeoCroissant.s_links :=
       Some [ {| StacToGeoCroissant.l_rel := Some "self";
                 StacToGeoCroissant.l_href := Some "https://stac.example/hls2-s30";
                 StacToGeoCroissant.l_type := None |};
              {| StacToGeoCroissant.l_rel := Some "root";
                 StacToGeoCroissant.l_href := Some "https://stac.example/";
                 StacToGeoCroissant.l_type := None |};
              {| StacToGeoCroissant.l_rel := Some "license";
                 StacToGeoCroissant.l_href := None;
                 StacToGeoCroissant.l_type := None |} ];
     StacToGeoCroissant.s_bbox := None;
     StacToGeoCroissant.s_extent_bbox := None;
     StacToGeoCroissant.s_extent_interval := Some [(Some "2015-11-28T00:00:00Z", None)];
     StacToGeoCroissant.s_properties := None;
     StacToGeoCroissant.s_assets := None;
     StacToGeoCroissant.s_item_assets := None;
     StacToGeoCroissant.s_keywords := None;
     StacToGeoCroissant.s_summaries := None;
     StacToGeoCroissant.s_deprecated := None;
     StacToGeoCroissant.s_extra := [] |}.

(** Number of occurrences of a character in a string. *)
Fixpoint count_char (c : ascii) (s : string) : nat :=
  match s with
  | EmptyString => 0
  | String a s' => (if Ascii.eqb a c then 1 else 0) + count_char c s'
  end.

(** Related URLs of a granule: a data file, a directory and an entry
    without URL. *)
Definition granule_urls : list NasaUmm.related_url :=
  [ {| NasaUmm.URL := Some "https://data.example/hls/T11SMT.B02.tif";
       NasaUmm.Type_ := Some "GET DATA";
       NasaUmm.Subtype := None;
       NasaUmm.Description := None |};
    {| NasaUmm.URL := Some "https://data.example/hls/";
       NasaUmm.Type_ := None;
       NasaUmm.Subtype := None;
       NasaUmm.Description := Some "Granule directory" |};
    {| NasaUmm.URL := None;
       NasaUmm.Type_ := None;
       NasaUmm.Subtype := None;
       NasaUmm.Description := None |} ].

(** Additional attributes in which a name occurs twice. *)
Definition granule_attributes : list NasaUmm.attribute :=
  [ {| NasaUmm.Name := Some "SPATIAL_COVERAGE"; NasaUmm.Values := Some ["87"] |};
    {| NasaUmm.Name := Some "HORIZONTAL_CS_CODE"; NasaUmm.Values := Some [] |};
    {| NasaUmm.Name := Some "HORIZONTAL_CS_CODE";
       NasaUmm.Values := Some ["EPSG:32611"] |};
    {| NasaUmm.Name := Some "SPATIAL_RESOLUTION"; NasaUmm.Values := Some ["30"; "60"] |} ].

(** A boundary with integer coordinates. *)
Definition granule_points : list (@NasaUmm.point Z) :=
  [ {| NasaUmm.Longitude := Some (-118)%Z; NasaUmm.Latitude := Some 33%Z |};
    {| NasaUmm.Longitude := Some (-116)%Z; NasaUmm.Latitude := Some 35%Z |};
    {| NasaUmm.Longitude := Some (-117)%Z; NasaUmm.Latitude := Some 32%Z |} ].

Definition granule_meta : NasaUmm.meta_info :=
  {| NasaUmm.concept_id := Some "G1234-LPCLOUD";
     NasaUmm.revision_date := Some "2021-05-01T00:00:00Z";
     NasaUmm.revision_id := Some 2%Z |}.

Definition granule (resolution : string) : @NasaUmm.umm_g Z :=
  {| NasaUmm.GranuleUR := Some "HLS.S30.T11SMT.2021001";
     NasaUmm.EntryTitle := None;
     NasaUmm.AdditionalAttributes :=
       [ {| NasaUmm.Name := Some "SPATIAL_RESOLUTION";
            NasaUmm.Values := Some [resolution] |} ];
     NasaUmm.Points := granule_points;
     NasaUmm.BeginningDateTime := Some "2021-01-01T18:35:39Z";
     NasaUmm.EndingDateTime := Some "2021-01-01T18:35:39Z";
     NasaUmm.Instrument := None;
     NasaUmm.RelatedUrls := granule_urls |}.


(** Cloud products: two with a link, whose identifiers end alike, and one
    without. *)
Definition cloud_products : list Ceda.product :=
  [ {| Ceda.id := "CMIP6.ScenarioMIP.tas"; Ceda.href := None |};
    {| Ceda.id := "ssp126-tas-reference_file";
       Ceda.href := Some "https://data.ceda.ac.uk/ssp126/tas.json" |};
    {| Ceda.id := "ssp585-tas-reference_file";
       Ceda.href := Some "https://data.ceda.ac.uk/ssp585/tas.nc" |} ].

(** The source fields of a record set. *)
Definition field_sources {num} (rs : PyVal.pyval num) : list (option (PyVal.pyval num)) :=
  match rs with
  | PyVal.VList [PyVal.VDict d] =>
      match PyVal.dict_get "field" d with
      | Some (PyVal.VList fields) =>
          map (fun f =>
                 match f with
                 | PyVal.VDict fd =>
                     match PyVal.dict_get "source" fd with
                     | Some (PyVal.VDict sd) =>
                         match PyVal.dict_get "fileObject" sd with
                         | Some (PyVal.VDict fo) => PyVal.dict_get "@id" fo
                         | _ => None
                         end
                     | _ => None
                     end
                 | _ => None
                 end) fields
      | _ => []
      end
  | _ => []
  end.

Definition has_href (p : Ceda.product) : bool :=
  match Ceda.href p with Some _ => true | None => false end.


(** Files of an SDO data directory, in sorted order; the last one has no
    date in its name. *)
Definition sdo_files : list string :=
  [ "/data/sdo/20110120_0100.nc"; "/data/sdo/20110121_1300.nc";
    "/data/sdo/20101231_2348.nc"; "/data/sdo/readme_first.nc" ].


(** The file set that a field of a record set reads from. *)
Definition source_file_set {num} (f : PyVal.pyval num) : option string :=
  match f with
  | PyVal.VDict fd =>
      match PyVal.dict_get "source" fd with
      | Some src => Distribution.str_field "fileSet" src
      | None => None
      end
  | _ => None
  end.

(** A second item, whose band asset has another key. *)
Definition february : TimeSeries.item :=
  {| TimeSeries.item_id := None;
     TimeSeries.item_datetime := TimeSeries.Datetime "2025-02-11T18:35:39Z";
     TimeSeries.item_assets :=
       [("B02", Some "https://hls.example/T11SMT/x.B02.tif");
        ("B01", Some "https://hls.example/T11SMT/data/x_B01.tif?sig=def")] |}.


(** Adjacent strings increase strictly. *)
Fixpoint ascending (l : list string) : bool :=
  match l with
  | a :: (b :: _) as rest => String.ltb a b && ascending rest
  | _ => true
  end.

(** Items found by a search, as pairs of a month and an identifier. *)
Definition found_items : list (string * string) :=
  [ ("2025-03", "c1"); ("2025-01", "a1"); ("2025-03", "c2");
    ("2025-02", "b1"); ("2025-01", "a2") ].


(** A key without space and without upper-case letter. *)
Definition lower_key (k : string) : bool :=
  PyStr.all_chars (fun c => negb (PyStr.is_upper c) && negb (Ascii.eqb c " ")) k.

(** A distribution with a directory, a local file, a file without URL and
    two entries whose identifiers differ in case only. *)
Definition mixed_distribution : list (PyVal.pyval Z) :=
  [ PyVal.VDict [ ("@type", PyVal.VStr "cr:FileObject"); ("@id", PyVal.VStr "data_repo");
                  ("contentUrl", PyVal.VStr "./data");
                  ("encodingFormat", PyVal.VStr "Local_Directory") ];
    PyVal.VDict [ ("@type", PyVal.VStr "cr:FileObject"); ("@id", PyVal.VStr "local");
                  ("contentUrl", PyVal.VStr "file:///tmp/a.tif");
                  ("encodingFormat", PyVal.VStr "image/tiff") ];
    PyVal.VDict [ ("@type", PyVal.VStr "cr:FileObject"); ("@id", PyVal.VStr "nowhere");
                  ("contentUrl", PyVal.VNone);
                  ("encodingFormat", PyVal.VStr "image/tiff") ];
    PyVal.VDict [ ("@type", PyVal.VStr "cr:FileObject"); ("@id", PyVal.VStr "Band 1");
                  ("contentUrl", PyVal.VStr "https://x.example/b1.tif");
                  ("encodingFormat", PyVal.VStr "image/tiff") ];
    PyVal.VDict [ ("@type", PyVal.VStr "cr:FileSet"); ("@id", PyVal.VStr "band_1");
                  ("contentUrl", PyVal.VStr "https://x.example/all");
                  ("encodingFormat", PyVal.VStr "application/geo+json");
                  ("includes", PyVal.VStr "*.json") ] ].


(** What holds of an asset that the loop of the GeoCroissant-to-STAC
    converter adds for an entry of [dist]. *)
Definition asset_from {num} (dist : list (PyVal.pyval num))
    (ka : string * @GeoCroissantToStac.asset num) : Prop :=
  lower_key (fst ka) = true
  /\ PyStr.nonempty (GeoCroissantToStac.href (snd ka)) = true
  /\ PyStr.startswith "file://" (GeoCroissantToStac.href (snd ka)) = false
  /\ exists dist_item,
      In (PyVal.VDict dist_item) dist
      /\ PyVal.dict_get "contentUrl" dist_item
         = Some (PyVal.VStr (GeoCroissantToStac.href (snd ka)))
      /\ exists encoding_format,
          GeoCroissantToStac.get_or "encodingFormat" (PyVal.VStr EmptyString) dist_item
          = PyVal.VStr encoding_format
          /\ PyStr.contains "directory" (PyStr.lower encoding_format) = false.

(** [str] on the values of a record that the examples format. *)
Definition str_of_value (v : PyVal.pyval Z) : string :=
  match v with
  | PyVal.VStr s => s
  | PyVal.VInt z => PyStr.str_Z z
  | PyVal.VNum z => PyStr.str_Z z
  | PyVal.VBool true => "True"
  | PyVal.VBool false => "False"
  | _ => "None"
  end.


(** Item properties with an EPSG code and a WKT2 string. *)
Definition projected : StacToGeoCroissant.properties Z :=
  {| StacToGeoCroissant.start_datetime := None;
     StacToGeoCroissant.end_datetime := None;
     StacToGeoCroissant.datetime_val := Some "2017-04-30T19:03:51Z";
     StacToGeoCroissant.created_datetime := None;
     StacToGeoCroissant.proj_epsg := Some 32633%Z;
     StacToGeoCroissant.proj_wkt2 := Some utm33_wkt2 |}.


(* ===================================================================== *)
(** * Properties *)
(* ===================================================================== *)

Import PyStr PyVal.

(** ** Strings *)

Lemma append_assoc (a b c : string) : (a ++ b) ++ c = a ++ (b ++ c).
Proof. induction a as [|x a IH]; simpl; [reflexivity|now rewrite IH]. Qed.

Lemma append_nil_r (s : string) : s ++ EmptyString = s.
Proof. induction s as [|x s IH]; simpl; [reflexivity|now rewrite IH]. Qed.

Lemma endswith_refl (s : string) : endswith s s = true.
Proof. destruct s; cbn [endswith]; rewrite String.eqb_refl; reflexivity. Qed.

Lemma endswith_app (base suf : string) : endswith suf (base ++ suf) = true.
Proof.
  induction base as [|c base IH]; cbn [endswith append].
  - apply endswith_refl.
  - rewrite IH. apply orb_true_r.
Qed.

(** Two suffixes of one string: one is a suffix of the other. *)
Lemma endswith_both (a b s : string) :
  endswith a s = true -> endswith b s = true ->
  endswith a b = true \/ endswith b a = true.
Proof.
  induction s as [|c s IH]; cbn [endswith]; intros Ha Hb.
  - rewrite orb_false_r in Ha, Hb.
    apply String.eqb_eq in Ha. subst a. left. apply String.eqb_eq in Hb.
    subst b. reflexivity.
  - apply orb_true_iff in Ha. apply orb_true_iff in Hb.
    destruct Ha as [Ha|Ha].
    + apply String.eqb_eq in Ha. subst a. right.
      cbn [endswith]. destruct Hb as [Hb|Hb]; rewrite Hb; auto using orb_true_r.
    + destruct Hb as [Hb|Hb].
      * apply String.eqb_eq in Hb. subst b. left.
        cbn [endswith]. rewrite Ha. apply orb_true_r.
      * auto.
Qed.

(** If neither of [a], [b] is a suffix of the other, no string ends with
    both. *)
Lemma endswith_excl (a b s : string) :
  endswith a b = false -> endswith b a = false ->
  endswith a s = true -> endswith b s = false.
Proof.
  intros Hab Hba Ha.
  destruct (endswith b s) eqn:Hb; [|reflexivity].
  destruct (endswith_both a b s Ha Hb) as [H|H]; congruence.
Qed.

Ltac excl_suffix base suf :=
  repeat match goal with
    | |- context [endswith ?e (base ++ suf)] =>
        lazymatch e with
        | suf => rewrite (endswith_app base suf)
        | _ =>
            rewrite (endswith_excl suf e (base ++ suf)
                       eq_refl eq_refl (endswith_app base suf))
        end
    end.

(** ** Encoding formats (NASA UMM-G and CEDA) *)

Lemma nasa_table_honoured (ext fmt base url_type subtype : string) :
  In (ext, fmt) nasa_format_table ->
  NasaUmm.determine_encoding_format (base ++ ext) url_type subtype = fmt.
Proof.
  unfold nasa_format_table. cbn [In]. intros H.
  repeat (destruct H as [H|H]; [injection H as <- <-|]); try contradiction;
    unfold NasaUmm.determine_encoding_format;
    match goal with |- context [base ++ ?suf] => excl_suffix base suf end;
    reflexivity.
Qed.

Lemma nasa_fallback (url url_type subtype : string) :
  no_suffix_of nasa_format_table url = true ->
  NasaUmm.determine_encoding_format url url_type subtype = "application/octet-stream".
Proof.
  unfold no_suffix_of, nasa_format_table. cbn [forallb fst].
  intros H.
  repeat (apply andb_true_iff in H; destruct H as [?H H]).
  repeat match goal with
         | H : negb _ = true |- _ => apply negb_true_iff in H
         end.
  unfold NasaUmm.determine_encoding_format.
  repeat match goal with
         | H : endswith _ url = false |- _ => rewrite H; clear H
         end.
  cbn [orb]. destruct (contains "s3credentials" url); reflexivity.
Qed.

Lemma ceda_table_honoured (ext fmt base : string) :
  In (ext, fmt) ceda_format_table ->
  Ceda.product_encoding (base ++ ext) = fmt.
Proof.
  unfold ceda_format_table. cbn [In]. intros H.
  repeat (destruct H as [H|H]; [injection H as <- <-|]); try contradiction;
    unfold Ceda.product_encoding;
    match goal with |- context [base ++ ?suf] => excl_suffix base suf end;
    reflexivity.
Qed.

Lemma ceda_fallback (url : string) :
  no_suffix_of ceda_format_table url = true ->
  Ceda.product_encoding url = "application/octet-stream".
Proof.
  unfold no_suffix_of, ceda_format_table. cbn [forallb fst].
  intros H.
  repeat (apply andb_true_iff in H; destruct H as [?H H]).
  repeat match goal with
         | H : negb _ = true |- _ => apply negb_true_iff in H
         end.
  unfold Ceda.product_encoding.
  repeat match goal with
         | H : endswith _ url = false |- _ => rewrite H; clear H
         end.
  reflexivity.
Qed.

(** C8, as amended.  Encoding-format inference is by URL suffix, with one
    table per converter.  The NASA UMM-G converter maps .tif/.tiff to
    image/tiff, .jpg/.jpeg to image/jpeg, .json to application/json, .xml to
    application/xml, .hdf/.h5 to application/x-hdf and .nc to
    application/x-netcdf; the CEDA converter maps .json to application/json,
    .nc/.netcdf to application/netcdf and .zarr to application/zarr.  Every
    URL that ends with a listed suffix gets the format of its row, and every
    URL that ends with none of the converter's suffixes gets
    application/octet-stream. *)
Theorem encoding_format_inference :
  (forall ext fmt base url_type subtype,
      In (ext, fmt) nasa_format_table ->
      NasaUmm.determine_encoding_format (base ++ ext) url_type subtype = fmt)
  /\ (forall url url_type subtype,
      no_suffix_of nasa_format_table url = true ->
      NasaUmm.determine_encoding_format url url_type subtype
      = "application/octet-stream")
  /\ (forall ext fmt base,
      In (ext, fmt) ceda_format_table ->
      Ceda.product_encoding (base ++ ext) = fmt)
  /\ (forall url,
      no_suffix_of ceda_format_table url = true ->
      Ceda.product_encoding url = "application/octet-stream").
Proof.
  repeat split; intros.
  - now apply nasa_table_honoured.
  - now apply nasa_fallback.
  - now apply ceda_table_honoured.
  - now apply ceda_fallback.
Qed.

Lemma encoding_format_inference_witness :
  NasaUmm.determine_encoding_format
    ("https://data.example/HLS.S30.T11SMT.B01" ++ ".tif") "GET DATA" EmptyString
  = "image/tiff"
  /\ NasaUmm.determine_encoding_format "s3://bucket/table.parquet" EmptyString EmptyString
     = "application/octet-stream"
  /\ Ceda.product_encoding ("https://ceda.example/tas_Amon" ++ ".netcdf")
     = "application/netcdf"
  /\ Ceda.product_encoding "https://ceda.example/tas.h5" = "application/octet-stream".
Proof.
  destruct encoding_format_inference as (H1 & H2 & H3 & H4).
  split; [|split; [|split]].
  - apply H1. simpl. auto.
  - apply H2. reflexivity.
  - apply H3. simpl. auto.
  - apply H4. reflexivity.
Defined.

(** C8 as stated fails: .h5 is not mapped to application/x-hdf5, .zarr and
    .parquet are not in the NASA table, .nc is not mapped to
    application/x-netcdf by the CEDA converter, which has no .tiff row. *)
Lemma claimed_format_table_counterexample :
  NasaUmm.determine_encoding_format "scene.h5" EmptyString EmptyString
    <> "application/x-hdf5"
  /\ NasaUmm.determine_encoding_format "cube.zarr" EmptyString EmptyString
    <> "application/zarr"
  /\ NasaUmm.determine_encoding_format "table.parquet" EmptyString EmptyString
    <> "application/parquet"
  /\ Ceda.product_encoding "tas.nc" <> "application/x-netcdf"
  /\ Ceda.product_encoding "scene.tiff" <> "image/tiff".
Proof. repeat split; vm_compute; discriminate. Qed.

(** ** Band inference from an array shape (SDO) *)

Lemma num_bands_first (d0 d1 d2 : nat) :
  d0 < d1 -> d0 < d2 ->
  Sdo.num_bands [d0; d1; d2] = d0 /\ Sdo.band_axis [d0; d1; d2] = Some 0.
Proof.
  intros H1 H2. unfold Sdo.num_bands, Sdo.band_axis.
  apply Nat.ltb_lt in H1, H2. rewrite H1, H2. auto.
Qed.

Lemma num_bands_last (d0 d1 d2 : nat) :
  d2 < d0 -> d2 < d1 ->
  Sdo.num_bands [d0; d1; d2] = d2 /\ Sdo.band_axis [d0; d1; d2] = Some 2.
Proof.
  intros H1 H2. unfold Sdo.num_bands, Sdo.band_axis.
  assert (Hn : (d0 <? d2)%nat = false) by (apply Nat.ltb_ge; lia).
  apply Nat.ltb_lt in H1, H2. rewrite Hn, H1, H2, andb_false_r. auto.
Qed.

Lemma num_bands_otherwise (d0 d1 d2 : nat) :
  ~ (d0 < d1 /\ d0 < d2) -> ~ (d2 < d0 /\ d2 < d1) ->
  Sdo.num_bands [d0; d1; d2] = 1 /\ Sdo.band_axis [d0; d1; d2] = None.
Proof.
  intros H1 H2. unfold Sdo.num_bands, Sdo.band_axis.
  destruct (d0 <? d1)%nat eqn:E1, (d0 <? d2)%nat eqn:E2,
           (d2 <? d0)%nat eqn:E3, (d2 <? d1)%nat eqn:E4; cbn [andb]; auto;
    repeat match goal with
      | H : (_ <? _)%nat = true |- _ => apply Nat.ltb_lt in H
      | H : (_ <? _)%nat = false |- _ => apply Nat.ltb_ge in H
      end; exfalso; lia.
Qed.

(** C2, as amended.  For a 3-dimensional shape the first axis, or else the
    last axis, is the band axis when its size is strictly smaller than both
    other sizes, and the band count is that size; in every other case, in
    particular when the middle axis is the strictly smallest one or when no
    axis is strictly smallest, the band count is 1 and no axis is read.
    Every 2-dimensional shape has 1 band. *)
Theorem band_axis_inference (d0 d1 d2 : nat) :
  (d0 < d1 -> d0 < d2 ->
   Sdo.num_bands [d0; d1; d2] = d0 /\ Sdo.band_axis [d0; d1; d2] = Some 0)
  /\ (d2 < d0 -> d2 < d1 ->
      Sdo.num_bands [d0; d1; d2] = d2 /\ Sdo.band_axis [d0; d1; d2] = Some 2)
  /\ (d1 < d0 -> d1 < d2 ->
      Sdo.num_bands [d0; d1; d2] = 1 /\ Sdo.band_axis [d0; d1; d2] = None)
  /\ (~ (d0 < d1 /\ d0 < d2) -> ~ (d2 < d0 /\ d2 < d1) ->
      Sdo.num_bands [d0; d1; d2] = 1 /\ Sdo.band_axis [d0; d1; d2] = None)
  /\ (forall a b, Sdo.num_bands [a; b] = 1 /\ Sdo.band_axis [a; b] = None).
Proof.
  split; [|split; [|split; [|split]]].
  - apply num_bands_first.
  - apply num_bands_last.
  - intros. apply num_bands_otherwise; lia.
  - apply num_bands_otherwise.
  - intros. split; reflexivity.
Qed.

Lemma band_axis_inference_witness :
  (Sdo.num_bands [13; 512; 512] = 13 /\ Sdo.band_axis [13; 512; 512] = Some 0)
  /\ (Sdo.num_bands [512; 512; 13] = 13 /\ Sdo.band_axis [512; 512; 13] = Some 2)
  /\ (Sdo.num_bands [512; 13; 512] = 1 /\ Sdo.band_axis [512; 13; 512] = None)
  /\ (Sdo.num_bands [4; 4; 512] = 1 /\ Sdo.band_axis [4; 4; 512] = None)
  /\ (Sdo.num_bands [512; 512] = 1 /\ Sdo.band_axis [512; 512] = None).
Proof.
  split; [|split; [|split; [|split]]].
  - apply (proj1 (band_axis_inference 13 512 512)); lia.
  - apply (proj1 (proj2 (band_axis_inference 512 512 13))); lia.
  - apply (proj1 (proj2 (proj2 (band_axis_inference 512 13 512)))); lia.
  - apply (proj1 (proj2 (proj2 (proj2 (band_axis_inference 4 4 512))))); lia.
  - apply (proj2 (proj2 (proj2 (proj2 (band_axis_inference 0 0 0))))).
Defined.

(** C2 as stated fails: in the shape (512, 13, 512) the middle axis is
    strictly smaller than both others, yet the band count is 1, not 13. *)
Lemma middle_band_axis_counterexample :
  13 < 512 /\ 13 < 512 /\ Sdo.num_bands [512; 13; 512] = 1
  /\ Sdo.num_bands [512; 13; 512] <> 13.
Proof. repeat split; try lia. vm_compute. discriminate. Qed.

(** ** Band names (STAC assets) *)

Import StacToGeoCroissant.

Lemma band_names_from_length (bands : list band) (i : nat) :
  List.length (band_names_from i bands) = List.length bands.
Proof.
  revert i. induction bands as [|b bands IH]; intros i; simpl; [reflexivity|].
  now rewrite IH.
Qed.

Lemma band_names_from_nth (bands : list band) (i j : nat) (b : band) :
  nth_error bands j = Some b ->
  nth_error (band_names_from i bands) j
  = Some (match band_name b with
          | Some n => n
          | None => "Band" ++ str_nat (i + j + 1)
          end).
Proof.
  revert i j. induction bands as [|b0 bands IH]; intros i j H.
  - destruct j; discriminate.
  - destruct j as [|j]; simpl in *.
    + injection H as ->. now rewrite Nat.add_0_r.
    + rewrite (IH (S i) j H).
      replace (S i + j + 1) with (i + S j + 1) by lia. reflexivity.
Qed.

(** C5, as amended.  The band names of an asset are copied one per source
    band, in source order; a band without a name gets "Band" followed by its
    1-based position.  No band is dropped or overwritten, and a name that
    repeats an earlier one is copied unchanged: no suffix is appended, so the
    names are not made unique. *)
Theorem band_names_copied_in_order (bands : list band) :
  List.length (band_names_list bands) = List.length bands
  /\ forall i b,
      nth_error bands i = Some b ->
      nth_error (band_names_list bands) i
      = Some (match band_name b with
              | Some n => n
              | None => "Band" ++ str_nat (i + 1)
              end).
Proof.
  split.
  - apply band_names_from_length.
  - intros i b H. unfold band_names_list.
    now rewrite (band_names_from_nth bands 0 i b H).
Qed.

Lemma band_names_copied_in_order_witness :
  let bands := [ {| band_name := Some "B1" |}; {| band_name := None |};
                 {| band_name := Some "B1" |} ] in
  nth_error (band_names_list bands) 1 = Some "Band2"
  /\ nth_error (band_names_list bands) 2 = Some "B1".
Proof.
  intros bands. split.
  - apply (proj2 (band_names_copied_in_order bands) 1 {| band_name := None |}).
    reflexivity.
  - apply (proj2 (band_names_copied_in_order bands) 2 {| band_name := Some "B1" |}).
    reflexivity.
Defined.

(** C5 as stated fails: two bands both named "B1" give the names "B1" and
    "B1", not "B1" and "B1_2"; the list has a duplicate. *)
Lemma duplicate_band_names_counterexample :
  let bands := [ {| band_name := Some "B1" |}; {| band_name := Some "B1" |} ] in
  band_names_list bands = ["B1"; "B1"]
  /\ band_names_list bands <> ["B1"; "B1_2"]
  /\ ~ NoDup (band_names_list bands).
Proof.
  cbv zeta. split; [reflexivity|split].
  - vm_compute. discriminate.
  - intros H. inversion H as [|x l Hin _]. apply Hin. left. reflexivity.
Qed.

(** ** Closed polygon rings *)

Lemma last_cons_default {A} (l : list A) (x d d' : A) :
  last (x :: l) d = last (x :: l) d'.
Proof.
  revert x. induction l as [|y l IH]; intros x; [reflexivity|].
  change (last (y :: l) d = last (y :: l) d'). apply IH.
Qed.

Lemma nasa_ring_closed {num} {N : PyNumber num} (points : list (@NasaUmm.point num)) :
  points <> [] ->
  exists first rest,
    NasaUmm.ring_coords points = first :: rest
    /\ last (NasaUmm.ring_coords points) EmptyString = first.
Proof.
  intros Hne. unfold NasaUmm.ring_coords.
  destruct points as [|p points]; [contradiction|].
  cbn [NasaUmm.point_coords map].
  set (first := (NasaUmm.coord (NasaUmm.Longitude p) ++ " "
                 ++ NasaUmm.coord (NasaUmm.Latitude p))%string).
  set (coords := first :: map _ points).
  destruct (String.eqb first (last coords EmptyString)) eqn:E; cbn [negb].
  - eexists _, _. split; [reflexivity|].
    apply String.eqb_eq in E. now symmetry.
  - eexists _, _. split; [reflexivity|]. apply last_last.
Qed.

Lemma geodcat_wkt_of_corners (box south west north east : string) :
  split_ws box = [south; west; north; east] ->
  GeoDcat.wkt_bbox box
  = Some ("POLYGON(("
          ++ join ", " [ west ++ " " ++ south; east ++ " " ++ south;
                         east ++ " " ++ north; west ++ " " ++ north;
                         west ++ " " ++ south ]
          ++ "))").
Proof.
  intros H. unfold GeoDcat.wkt_bbox. rewrite H. cbn [join].
  repeat rewrite append_assoc. reflexivity.
Qed.

Lemma geodcat_wkt_needs_four (box : string) :
  List.length (split_ws box) <> 4 -> GeoDcat.wkt_bbox box = None.
Proof.
  unfold GeoDcat.wkt_bbox.
  destruct (split_ws box) as [|s [|w [|n [|e [|x l]]]]]; try reflexivity.
  cbn [List.length]. intros H. now contradiction H.
Qed.

Lemma nasa_ring_extends {num} {N : PyNumber num} (points : list (@NasaUmm.point num)) :
  NasaUmm.ring_coords points = NasaUmm.point_coords points
  \/ NasaUmm.ring_coords points
     = (NasaUmm.point_coords points
        ++ [hd EmptyString (NasaUmm.point_coords points)])%list.
Proof.
  unfold NasaUmm.ring_coords.
  destruct (NasaUmm.point_coords points) as [|first rest]; [now left|].
  destruct (negb _); [now right|now left].
Qed.

(** C10.  Every WKT polygon ring that is emitted is closed.  For a
    non-empty list of points, the NASA UMM-G converter emits
    "POLYGON((" + ", ".join(ring) + "))" where the ring is the list of the
    points' coordinates, followed by the first one again when it differs
    from the last; the ring's first and last coordinate pairs are equal.
    The GeoDCAT converter makes a polygon exactly for a box of four pieces,
    south west north east, and that polygon is
    "POLYGON((" + ", ".join(ring) + "))" for the ring of the five corners
    west south, east south, east north, west north, west south: it repeats
    its first corner at the end. *)
Theorem wkt_rings_closed :
  (forall num (N : PyNumber num) (points : list (@NasaUmm.point num)),
      points <> [] ->
      NasaUmm.convert_polygon_to_wkt points
      = "POLYGON((" ++ join ", " (NasaUmm.ring_coords points) ++ "))"
      /\ (NasaUmm.ring_coords points = NasaUmm.point_coords points
          \/ NasaUmm.ring_coords points
             = (NasaUmm.point_coords points
                ++ [hd EmptyString (NasaUmm.point_coords points)])%list)
      /\ exists first rest,
          NasaUmm.ring_coords points = first :: rest
          /\ last (NasaUmm.ring_coords points) EmptyString = first)
  /\ (forall box south west north east,
      split_ws box = [south; west; north; east] ->
      let ring := [ west ++ " " ++ south; east ++ " " ++ south;
                    east ++ " " ++ north; west ++ " " ++ north;
                    west ++ " " ++ south ] in
      GeoDcat.wkt_bbox box = Some ("POLYGON((" ++ join ", " ring ++ "))")
      /\ hd EmptyString ring = west ++ " " ++ south
      /\ last ring EmptyString = hd EmptyString ring)
  /\ (forall box,
      List.length (split_ws box) <> 4 -> GeoDcat.wkt_bbox box = None).
Proof.
  split; [|split].
  - intros num N points Hne. split; [|split].
    + destruct points; [contradiction|reflexivity].
    + apply nasa_ring_extends.
    + now apply nasa_ring_closed.
  - intros box south west north east H ring. subst ring.
    split; [now apply geodcat_wkt_of_corners|]. split; reflexivity.
  - apply geodcat_wkt_needs_four.
Qed.

Lemma wkt_rings_closed_witness :
  let points : list (@NasaUmm.point Z) :=
    [ {| NasaUmm.Longitude := Some 20%Z; NasaUmm.Latitude := Some 10%Z |};
      {| NasaUmm.Longitude := Some 40%Z; NasaUmm.Latitude := Some 10%Z |};
      {| NasaUmm.Longitude := Some 40%Z; NasaUmm.Latitude := None |} ] in
  (exists first rest,
      NasaUmm.ring_coords points = first :: rest
      /\ last (NasaUmm.ring_coords points) EmptyString = first)
  /\ GeoDcat.wkt_bbox "10 20 30 40"
     = Some "POLYGON((20 10, 40 10, 40 30, 20 30, 20 10))"
  /\ GeoDcat.wkt_bbox "10 20 30" = None.
Proof.
  intros points. split; [|split].
  - apply (proj1 wkt_rings_closed Z _ points). discriminate.
  - apply (proj1 (proj1 (proj2 wkt_rings_closed) "10 20 30 40" "10" "20" "30" "40"
                    eq_refl)).
  - apply (proj2 (proj2 wkt_rings_closed)). cbn. discriminate.
Defined.

(** ** CRS extraction from a WKT2 string *)

Lemma prefix_app (p s : string) :
  String.prefix p s = true -> s = p ++ drop (String.length p) s.
Proof.
  revert s. induction p as [|a p IH]; intros s H; [reflexivity|].
  destruct s as [|b s]; [discriminate|].
  simpl in H. destruct (ascii_dec a b) as [->|]; [|discriminate].
  simpl. now rewrite <- (IH s H).
Qed.

Lemma prefix_append (p t : string) : String.prefix p (p ++ t) = true.
Proof.
  induction p as [|a p IH]; simpl; [destruct t; reflexivity|].
  destruct (ascii_dec a a); [assumption|contradiction].
Qed.

Lemma take_drop_while (p : ascii -> bool) (s : string) :
  take_while p s ++ drop_while p s = s.
Proof.
  induction s as [|c s IH]; simpl; [reflexivity|].
  destruct (p c); simpl; [now rewrite IH|reflexivity].
Qed.

Lemma take_while_all (p : ascii -> bool) (s : string) :
  all_chars p (take_while p s) = true.
Proof.
  induction s as [|c s IH]; simpl; [reflexivity|].
  destruct (p c) eqn:E; simpl; [now rewrite E|reflexivity].
Qed.

Lemma contains_prefix (p s : string) :
  String.prefix p s = true -> contains p s = true.
Proof. intros H. destruct s; simpl in *; rewrite H; reflexivity. Qed.

Lemma contains_cons (p : string) (c : ascii) (s : string) :
  contains p s = true -> contains p (String c s) = true.
Proof. intros H. cbn [contains]. rewrite H. apply orb_true_r. Qed.

Lemma match_epsg_here_sound (s code : string) :
  match_epsg_here s = Some code ->
  String.prefix (authority_open ++ code ++ authority_close) s = true
  /\ nonempty code = true /\ all_chars is_digit code = true.
Proof.
  unfold match_epsg_here, startswith.
  destruct (String.prefix authority_open s) eqn:Ho; [|discriminate].
  set (rest := drop (String.length authority_open) s).
  destruct (nonempty (take_while is_digit rest)) eqn:Hn; [|discriminate].
  destruct (String.prefix authority_close (drop_while is_digit rest)) eqn:Hc;
    [|discriminate].
  cbn [andb]. intros H. injection H as <-.
  split; [|split; [assumption|apply take_while_all]].
  rewrite (prefix_app _ _ Ho). fold rest.
  rewrite <- (take_drop_while is_digit rest) at 2.
  rewrite (prefix_app _ _ Hc).
  rewrite <- !append_assoc. apply prefix_append.
Qed.

Lemma search_epsg_sound (s code : string) :
  search_epsg s = Some code ->
  contains (authority_open ++ code ++ authority_close) s = true
  /\ nonempty code = true /\ all_chars is_digit code = true.
Proof.
  induction s as [|c s IH]; cbn [search_epsg].
  - destruct (match_epsg_here EmptyString) eqn:E; [|discriminate].
    intros H. injection H as ->.
    destruct (match_epsg_here_sound _ _ E) as (Hp & Hn & Hd).
    auto using contains_prefix.
  - destruct (match_epsg_here (String c s)) eqn:E.
    + intros H. injection H as ->.
      destruct (match_epsg_here_sound _ _ E) as (Hp & Hn & Hd).
      auto using contains_prefix.
    + intros H. destruct (IH H) as (Hp & Hn & Hd).
      auto using contains_cons.
Qed.

Lemma match_utm_zone_here_sound (s zone : string) :
  match_utm_zone_here s = Some zone ->
  nonempty zone = true /\ all_chars is_digit zone = true.
Proof.
  unfold match_utm_zone_here.
  destruct (startswith _ _); [|discriminate].
  destruct (nonempty _) eqn:Hn; [|discriminate].
  intros H. injection H as <-. split; [assumption|apply take_while_all].
Qed.

Lemma search_utm_zone_sound (s zone : string) :
  search_utm_zone s = Some zone ->
  nonempty zone = true /\ all_chars is_digit zone = true.
Proof.
  induction s as [|c s IH]; cbn [search_utm_zone].
  - destruct (match_utm_zone_here EmptyString) eqn:E; [|discriminate].
    intros H. injection H as ->. eauto using match_utm_zone_here_sound.
  - destruct (match_utm_zone_here (String c s)) eqn:E.
    + intros H. injection H as ->. eauto using match_utm_zone_here_sound.
    + assumption.
Qed.

Lemma contains_nonempty (p : string) (s : string) :
  nonempty p = true -> contains p s = true -> nonempty s = true.
Proof. destruct p; [discriminate|]. destruct s; [discriminate|reflexivity]. Qed.

Lemma substring_drop (n : nat) (s : string) :
  substring 0 n s ++ drop n s = s.
Proof.
  revert s. induction n as [|n IH]; intros [|c s]; cbn [substring drop append];
    try reflexivity.
  now rewrite IH.
Qed.

Lemma drop_while_stops (p : ascii -> bool) (s : string) :
  match drop_while p s with
  | EmptyString => True
  | String c _ => p c = false
  end.
Proof.
  induction s as [|c s IH]; [exact I|]. cbn [drop_while].
  destruct (p c) eqn:E; [exact IH|exact E].
Qed.

(** A match of the zone pattern: "utm" in any letter case, then characters
    that are not digits, then the digits of the zone, which end where the
    string ends or a character that is not a digit comes. *)
Lemma match_utm_zone_here_parts (s zone : string) :
  match_utm_zone_here s = Some zone ->
  exists utm gap rest,
    s = utm ++ gap ++ zone ++ rest
    /\ lower utm = "utm"
    /\ all_chars (fun c => negb (is_digit c)) gap = true
    /\ match rest with
       | EmptyString => True
       | String c _ => is_digit c = false
       end.
Proof.
  unfold match_utm_zone_here.
  destruct (startswith "utm" (lower (substring 0 3 s))) eqn:Hu; [|discriminate].
  destruct (nonempty _) eqn:Hn; [|discriminate].
  intros H. injection H as <-.
  exists (substring 0 3 s), (take_while (fun c => negb (is_digit c)) (drop 3 s)),
    (drop_while is_digit (drop_while (fun c => negb (is_digit c)) (drop 3 s))).
  split; [|split; [|split]].
  - now rewrite take_drop_while, take_drop_while, substring_drop.
  - destruct s as [|a [|b [|c s]]]; try discriminate.
    cbn [substring] in *. unfold startswith in Hu. cbn [lower] in *.
    cbn [String.prefix] in Hu.
    destruct (ascii_dec "u" (lower_char a)) as [<-|]; [|discriminate].
    destruct (ascii_dec "t" (lower_char b)) as [<-|]; [|discriminate].
    destruct (ascii_dec "m" (lower_char c)) as [<-|]; [|discriminate].
    now destruct s.
  - apply take_while_all.
  - apply drop_while_stops.
Qed.

Lemma search_utm_zone_parts (s zone : string) :
  search_utm_zone s = Some zone ->
  exists before utm gap rest,
    s = before ++ utm ++ gap ++ zone ++ rest
    /\ lower utm = "utm"
    /\ all_chars (fun c => negb (is_digit c)) gap = true
    /\ match rest with
       | EmptyString => True
       | String c _ => is_digit c = false
       end.
Proof.
  induction s as [|c s IH]; cbn [search_utm_zone].
  - destruct (match_utm_zone_here EmptyString) eqn:E; [|discriminate].
    intros H. injection H as ->.
    destruct (match_utm_zone_here_parts _ _ E) as (u & g & r & H).
    now exists EmptyString, u, g, r.
  - destruct (match_utm_zone_here (String c s)) eqn:E.
    + intros H. injection H as ->.
      destruct (match_utm_zone_here_parts _ _ E) as (u & g & r & H).
      now exists EmptyString, u, g, r.
    + intros H. destruct (IH H) as (b & u & g & r & -> & H').
      now exists (String c b), u, g, r.
Qed.

Lemma projected_nonempty (s : string) :
  contains "PROJCS" s || contains "PROJECTION" s = true -> nonempty s = true.
Proof.
  intros Hp. apply orb_true_iff in Hp.
  destruct Hp as [H|H]; eapply contains_nonempty; try exact H; reflexivity.
Qed.

Lemma projected_label (s : string) :
  contains "PROJCS" s || contains "PROJECTION" s = true ->
  extract_crs_from_wkt2 s
  = if contains "Albers" s then Some "Custom Albers Equal Area projection"
    else if contains "UTM" s then
      match search_utm_zone s with
      | Some zone => Some ("UTM Zone " ++ zone)
      | None => Some "UTM projection"
      end
    else Some "Custom projection (see proj:wkt2)".
Proof.
  intros Hp. unfold extract_crs_from_wkt2.
  now rewrite (projected_nonempty s Hp), Hp.
Qed.

Lemma geographic_result (s : string) :
  contains "PROJCS" s || contains "PROJECTION" s = false ->
  extract_crs_from_wkt2 s
  = match search_epsg s with
    | Some code =>
        if in_list code unit_codes then None else Some ("EPSG:" ++ code)
    | None => None
    end.
Proof.
  intros Hp. unfold extract_crs_from_wkt2. rewrite Hp.
  destruct (nonempty s) eqn:Hs; cbn [negb].
  - destruct (search_epsg s) as [code|]; [|reflexivity].
    now destruct (in_list code unit_codes).
  - destruct s; [reflexivity|discriminate].
Qed.

Lemma never_unit_code (s code : string) :
  in_list code unit_codes = true ->
  extract_crs_from_wkt2 s <> Some ("EPSG:" ++ code).
Proof.
  intros Hu.
  destruct (contains "PROJCS" s || contains "PROJECTION" s) eqn:Hp.
  - rewrite (projected_label s Hp).
    destruct (contains "Albers" s); [discriminate|].
    destruct (contains "UTM" s); [|discriminate].
    destruct (search_utm_zone s); discriminate.
  - rewrite (geographic_result s Hp).
    destruct (search_epsg s) as [c|]; [|discriminate].
    destruct (in_list c unit_codes) eqn:E; [discriminate|].
    intros H. injection H as ->. congruence.
Qed.

(** C7, as amended.  CRS extraction from a description string follows this
    precedence.  (1) A string that contains PROJCS or PROJECTION gets a
    named label, whatever authority codes it holds: the Albers label when it
    contains "Albers"; when it does not but contains "UTM", the label
    "UTM Zone N" where N is the digit run found by the zone pattern (the
    string then reads: something, "utm" in any letter case, characters that
    are not digits, N, and then its end or a character that is not a digit),
    or "UTM projection" when the pattern finds nothing; and the
    custom-projection label when it contains neither.  It never gets an EPSG
    code.  (2) Any other string gets "EPSG:<code>" for the first
    AUTHORITY["EPSG","<code>"] pair it contains, provided that code is not
    one of the unit codes 9122 and 9001; when that first code is a unit code,
    or there is no such pair, the result is absent.  (3) The empty string
    gives absent.  No string gives EPSG:9122 or EPSG:9001. *)
Theorem crs_extraction_precedence (s : string) :
  (contains "PROJCS" s || contains "PROJECTION" s = true ->
   (contains "Albers" s = true ->
    extract_crs_from_wkt2 s = Some "Custom Albers Equal Area projection")
   /\ (contains "Albers" s = false -> contains "UTM" s = true ->
       forall zone,
         search_utm_zone s = Some zone ->
         extract_crs_from_wkt2 s = Some ("UTM Zone " ++ zone)
         /\ nonempty zone = true /\ all_chars is_digit zone = true
         /\ exists before utm gap rest,
             s = before ++ utm ++ gap ++ zone ++ rest
             /\ lower utm = "utm"
             /\ all_chars (fun c => negb (is_digit c)) gap = true
             /\ match rest with
                | EmptyString => True
                | String c _ => is_digit c = false
                end)
   /\ (contains "Albers" s = false -> contains "UTM" s = true ->
       search_utm_zone s = None ->
       extract_crs_from_wkt2 s = Some "UTM projection")
   /\ (contains "Albers" s = false -> contains "UTM" s = false ->
       extract_crs_from_wkt2 s = Some "Custom projection (see proj:wkt2)")
   /\ forall code, extract_crs_from_wkt2 s <> Some ("EPSG:" ++ code))
  /\ (contains "PROJCS" s || contains "PROJECTION" s = false ->
      extract_crs_from_wkt2 s
      = match search_epsg s with
        | Some code =>
            if in_list code unit_codes then None else Some ("EPSG:" ++ code)
        | None => None
        end
      /\ forall r,
          extract_crs_from_wkt2 s = Some r ->
          exists code,
            r = "EPSG:" ++ code
            /\ contains (authority_open ++ code ++ authority_close) s = true
            /\ nonempty code = true /\ all_chars is_digit code = true
            /\ in_list code unit_codes = false)
  /\ (nonempty s = false -> extract_crs_from_wkt2 s = None)
  /\ extract_crs_from_wkt2 s <> Some "EPSG:9122"
  /\ extract_crs_from_wkt2 s <> Some "EPSG:9001".
Proof.
  split; [|split; [|split; [|split]]].
  - intros Hp. rewrite (projected_label s Hp).
    split; [now intros ->|].
    split.
    { intros -> -> zone Hz. rewrite Hz. split; [reflexivity|].
      destruct (search_utm_zone_sound _ _ Hz) as [Hn Hd].
      split; [exact Hn|]. split; [exact Hd|].
      now apply search_utm_zone_parts. }
    split; [now intros -> -> ->|].
    split; [now intros -> ->|].
    intros code.
    destruct (contains "Albers" s); [discriminate|].
    destruct (contains "UTM" s); [|discriminate].
    destruct (search_utm_zone s); discriminate.
  - intros Hp. split; [now apply geographic_result|].
    intros r. rewrite (geographic_result s Hp).
    destruct (search_epsg s) as [code|] eqn:E; [|discriminate].
    destruct (in_list code unit_codes) eqn:Hu; [discriminate|].
    intros H. injection H as <-. exists code.
    destruct (search_epsg_sound _ _ E) as (Hc & Hn & Hd). auto.
  - intros Hs. unfold extract_crs_from_wkt2. now rewrite Hs.
  - apply (never_unit_code s "9122"). reflexivity.
  - apply (never_unit_code s "9001"). reflexivity.
Qed.

Lemma crs_extraction_precedence_witness :
  extract_crs_from_wkt2 utm33_wkt2 = Some ("UTM Zone " ++ "33")
  /\ (forall code, extract_crs_from_wkt2 utm33_wkt2 <> Some ("EPSG:" ++ code))
  /\ extract_crs_from_wkt2 albers_wkt2 = Some "Custom Albers Equal Area projection"
  /\ extract_crs_from_wkt2 utm_plain_wkt2 = Some "UTM projection"
  /\ extract_crs_from_wkt2 sinusoidal_wkt2 = Some "Custom projection (see proj:wkt2)"
  /\ extract_crs_from_wkt2
       ("GEOGCS[AUTHORITY[" ++ dq ++ "EPSG" ++ dq ++ "," ++ dq ++ "4326" ++ dq ++ "]]")
     = Some "EPSG:4326".
Proof.
  split; [|split; [|split; [|split; [|split]]]].
  - apply (proj1 (proj2 (proj1 (crs_extraction_precedence utm33_wkt2) eq_refl))
             eq_refl eq_refl "33" eq_refl).
  - apply (proj1 (crs_extraction_precedence utm33_wkt2)). reflexivity.
  - apply (proj1 (proj1 (crs_extraction_precedence albers_wkt2) eq_refl)).
    reflexivity.
  - apply (proj1 (proj2 (proj2 (proj1 (crs_extraction_precedence utm_plain_wkt2)
                                  eq_refl)))); reflexivity.
  - apply (proj1 (proj2 (proj2 (proj2 (proj1
                    (crs_extraction_precedence sinusoidal_wkt2) eq_refl)))));
      reflexivity.
  - match goal with |- extract_crs_from_wkt2 ?s = _ =>
      assert (Hg : contains "PROJCS" s || contains "PROJECTION" s = false)
        by reflexivity;
      destruct (proj1 (proj2 (crs_extraction_precedence s)) Hg) as [H _]
    end.
    rewrite H. reflexivity.
Defined.

(** C7 as stated fails: a projected description that carries the explicit
    pair EPSG/32633, which is not a unit code, gets the UTM label, not the
    authority code. *)
Lemma authority_first_counterexample :
  search_epsg utm33_wkt2 = Some "32633"
  /\ in_list "32633" unit_codes = false
  /\ extract_crs_from_wkt2 utm33_wkt2 = Some "UTM Zone 33"
  /\ extract_crs_from_wkt2 utm33_wkt2 <> Some "EPSG:32633".
Proof. repeat split; vm_compute; discriminate. Qed.

(** ** Ordered dictionaries *)

Section Dicts.
Context {num : Type}.
Implicit Types (c : dict num) (k : string) (v : pyval num).

Lemma dict_get_set_eq k v c : dict_get k (dict_set k v c) = Some v.
Proof.
  induction c as [|[k' v'] c IH]; simpl.
  - now rewrite String.eqb_refl.
  - destruct (String.eqb k' k) eqn:E; simpl.
    + now rewrite String.eqb_refl.
    + now rewrite E.
Qed.

Lemma dict_get_set_ne k k' v c :
  k' <> k -> dict_get k (dict_set k' v c) = dict_get k c.
Proof.
  intros Hne. apply String.eqb_neq in Hne.
  induction c as [|[k0 v0] c IH]; simpl.
  - now rewrite Hne.
  - destruct (String.eqb k0 k') eqn:E; simpl.
    + apply String.eqb_eq in E. subst k0. now rewrite Hne.
    + now rewrite IH.
Qed.

Lemma dict_has_set_eq k v c : dict_has k (dict_set k v c) = true.
Proof. unfold dict_has. now rewrite dict_get_set_eq. Qed.

Lemma dict_has_set_ne k k' v c :
  k' <> k -> dict_has k (dict_set k' v c) = dict_has k c.
Proof. intros H. unfold dict_has. now rewrite dict_get_set_ne. Qed.

(** Assigning twice to a key is assigning once. *)
Lemma dict_set_set k v1 v2 c :
  dict_set k v2 (dict_set k v1 c) = dict_set k v2 c.
Proof.
  induction c as [|[k' v'] c IH]; simpl.
  - now rewrite String.eqb_refl.
  - destruct (String.eqb k' k) eqn:E; simpl.
    + now rewrite String.eqb_refl.
    + now rewrite E, IH.
Qed.

End Dicts.

(** ** The STAC converter, block by block *)

Section StacBlocks.
Context {num : Type} {N : PyNumber num}.
Implicit Types (c : dict num) (k : string) (d : stac_doc num).

(** Each block leaves the keys it does not assign as they are. *)

Lemma set_sci_citation_get k d c :
  k <> "citeAs" -> k <> "citation" ->
  dict_get k (set_sci_citation d c) = dict_get k c.
Proof.
  intros. unfold set_sci_citation.
  destruct (s_sci_citation d); [|reflexivity].
  rewrite !dict_get_set_ne by congruence. reflexivity.
Qed.

Lemma set_creator_get k d c :
  k <> "creator" -> dict_get k (set_creator d c) = dict_get k c.
Proof.
  intros. unfold set_creator.
  destruct (s_providers d) as [[|p l]|]; try reflexivity.
  now rewrite dict_get_set_ne by congruence.
Qed.

Lemma set_url_get k d c :
  k <> "url" -> dict_get k (set_url d c) = dict_get k c.
Proof.
  intros. unfold set_url. destruct (find _ _); [|reflexivity].
  now rewrite dict_get_set_ne by congruence.
Qed.

Lemma set_references_get k d c :
  k <> "references" -> dict_get k (set_references d c) = dict_get k c.
Proof.
  intros. unfold set_references. destruct (flat_map _ _); [reflexivity|].
  now rewrite dict_get_set_ne by congruence.
Qed.

Lemma set_spatial_get k d c :
  k <> "spatialCoverage" -> dict_get k (set_spatial d c) = dict_get k c.
Proof.
  intros. unfold set_spatial.
  destruct (select_bbox d) as [[|b0 [|b1 [|b2 [|b3 l]]]]|]; try reflexivity.
  now rewrite dict_get_set_ne by congruence.
Qed.

Lemma set_temporal_get k d c :
  k <> "temporalCoverage" -> k <> "datePublished" ->
  dict_get k (set_temporal d c) = dict_get k c.
Proof.
  intros. unfold set_temporal.
  repeat match goal with
         | |- context [if ?b then _ else _] => destruct b
         | |- context [match ?x with _ => _ end] => destruct x
         end; rewrite ?dict_get_set_ne by congruence; reflexivity.
Qed.

Lemma set_default_date_get k now c :
  k <> "datePublished" -> dict_get k (set_default_date now c) = dict_get k c.
Proof.
  intros. unfold set_default_date. destruct (negb _); [|reflexivity].
  now rewrite dict_get_set_ne by congruence.
Qed.

Lemma set_file_set_get k d c :
  k <> "fileSet" -> dict_get k (set_file_set d c) = dict_get k c.
Proof.
  intros. unfold set_file_set. destruct (s_item_assets d); [|reflexivity].
  now rewrite dict_get_set_ne by congruence.
Qed.

Lemma set_keywords_get k d c :
  k <> "keywords" -> dict_get k (set_keywords d c) = dict_get k c.
Proof.
  intros. unfold set_keywords. destruct (s_keywords d); [|reflexivity].
  now rewrite dict_get_set_ne by congruence.
Qed.

Lemma set_crs_get k d c :
  k <> crs_key -> k <> "geocr:spatialResolution" ->
  dict_get k (set_crs d c) = dict_get k c.
Proof.
  intros. unfold set_crs.
  repeat match goal with
         | |- context [if ?b then _ else _] => destruct b
         | |- context [match ?x with _ => _ end] => destruct x
         end; rewrite ?dict_get_set_ne by congruence; reflexivity.
Qed.

Lemma set_live_get k d c :
  k <> "isLiveDataset" -> dict_get k (set_live d c) = dict_get k c.
Proof.
  intros. unfold set_live. destruct (s_deprecated d); [|reflexivity].
  now rewrite dict_get_set_ne by congruence.
Qed.

End StacBlocks.

(** ** The asset loop *)

Section AssetLoop.
Context {num : Type} {N : PyNumber num}.
Implicit Types (c : dict num) (k : string) (d : stac_doc num)
  (st : @loop_state num) (assets : list (string * asset num)).

Lemma fold_distribution assets st :
  distribution (fold_left asset_step assets st)
  = (distribution st
     ++ map (fun ka => VDict (fst (asset_entry (fst ka) (snd ka)))) assets)%list.
Proof.
  revert st. induction assets as [|[key a] assets IH]; intros st; simpl.
  - now rewrite app_nil_r.
  - rewrite IH. unfold asset_step.
    destruct (asset_entry key a) as [fo lines]. simpl.
    now rewrite <- app_assoc.
Qed.

Lemma fold_printed assets st :
  printed (fold_left asset_step assets st)
  = (printed st
     ++ flat_map (fun ka => snd (asset_entry (fst ka) (snd ka))) assets)%list.
Proof.
  revert st. induction assets as [|[key a] assets IH]; intros st; simpl.
  - now rewrite app_nil_r.
  - rewrite IH. unfold asset_step.
    destruct (asset_entry key a) as [fo lines]. simpl.
    now rewrite <- app_assoc.
Qed.

Lemma fold_all_bands assets st :
  all_bands (fold_left asset_step assets st)
  = (all_bands st ++ flat_map (fun ka => asset_bands (snd ka)) assets)%list.
Proof.
  revert st. induction assets as [|[key a] assets IH]; intros st; simpl.
  - now rewrite app_nil_r.
  - rewrite IH. unfold asset_step.
    destruct (asset_entry key a) as [fo lines]. simpl.
    now rewrite <- app_assoc.
Qed.

Lemma fold_croissant_get k assets st :
  k <> "geocr:spatialResolution" ->
  dict_get k (croissant (fold_left asset_step assets st))
  = dict_get k (croissant st).
Proof.
  intros Hk. revert st.
  induction assets as [|[key a] assets IH]; intros st; simpl; [reflexivity|].
  rewrite IH. unfold asset_step.
  destruct (asset_entry key a) as [fo lines]. simpl.
  destruct (a_gsd a); [|reflexivity].
  destruct (negb _); [|reflexivity].
  now rewrite dict_get_set_ne by congruence.
Qed.

Lemma asset_loop_distribution d c :
  distribution (asset_loop d c) = distribution_entries d.
Proof. unfold asset_loop. now rewrite fold_distribution. Qed.

Lemma asset_loop_printed d c :
  printed (asset_loop d c) = checksum_lines d.
Proof. unfold asset_loop. now rewrite fold_printed. Qed.

Lemma set_distribution_get k d c :
  k <> "distribution" -> k <> "geocr:spatialResolution" ->
  dict_get k (set_distribution d c) = dict_get k c.
Proof.
  intros. unfold set_distribution, asset_loop.
  rewrite dict_get_set_ne by congruence.
  rewrite fold_croissant_get by assumption. simpl.
  now rewrite dict_get_set_ne by congruence.
Qed.

Lemma set_distribution_distribution d c :
  dict_get "distribution" (set_distribution d c)
  = Some (VList (distribution_entries d)).
Proof.
  unfold set_distribution.
  now rewrite dict_get_set_eq, asset_loop_distribution.
Qed.

(** What the converter prints and what it stores under "distribution". *)
Lemma stac_printed now d :
  snd (stac_to_geocroissant now d)
  = (detect_line d :: checksum_lines d ++ unmapped_lines d)%list.
Proof. unfold stac_to_geocroissant. cbn [snd]. now rewrite asset_loop_printed. Qed.

Lemma stac_distribution now d :
  dict_get "distribution" (fst (stac_to_geocroissant now d))
  = Some (VList (distribution_entries d)).
Proof.
  unfold stac_to_geocroissant. cbn [fst].
  rewrite set_live_get, set_crs_get, set_keywords_get, set_file_set_get
    by discriminate.
  apply set_distribution_distribution.
Qed.

End AssetLoop.

(** ** Checksum policy of the STAC converter *)

Section Checksums.
Context {num : Type} {N : PyNumber num}.
Implicit Types (d : stac_doc num) (a : asset num) (key : string).

Lemma file_object_has_checksum key a :
  dict_has "sha256" (fst (file_object_of key a))
  || dict_has "md5" (fst (file_object_of key a)) = true.
Proof.
  unfold file_object_of.
  destruct (a_checksum_multihash a), (a_file_checksum a), (a_checksum_md5 a);
    reflexivity.
Qed.

Lemma file_object_placeholder key a :
  no_checksum a = true ->
  dict_get "sha256" (fst (file_object_of key a)) = Some (VStr placeholder_checksum)
  /\ snd (file_object_of key a) = checksum_warning key a.
Proof.
  unfold no_checksum, file_object_of.
  destruct (a_checksum_multihash a), (a_file_checksum a), (a_checksum_md5 a);
    try discriminate.
  intros _. split; reflexivity.
Qed.

Lemma file_object_silent key a :
  no_checksum a = false -> snd (file_object_of key a) = [].
Proof.
  unfold no_checksum, file_object_of.
  destruct (a_checksum_multihash a), (a_file_checksum a), (a_checksum_md5 a);
    try discriminate; reflexivity.
Qed.

Lemma asset_entry_fst key a :
  fst (asset_entry key a) = fst (file_object_of key a)
  \/ exists bands,
      fst (asset_entry key a)
      = dict_set "geocr:bandConfiguration" (band_config bands)
          (fst (file_object_of key a)).
Proof.
  unfold asset_entry. destruct (file_object_of key a) as [fo lines].
  destruct (asset_bands a) as [|b bs]; [now left|right; now eexists].
Qed.

Lemma asset_entry_snd key a :
  snd (asset_entry key a) = snd (file_object_of key a).
Proof.
  unfold asset_entry. destruct (file_object_of key a) as [fo lines].
  now destruct (asset_bands a).
Qed.

Lemma asset_entry_has_checksum key a :
  dict_has "sha256" (fst (asset_entry key a))
  || dict_has "md5" (fst (asset_entry key a)) = true.
Proof.
  destruct (asset_entry_fst key a) as [->|[bands ->]].
  - apply file_object_has_checksum.
  - rewrite !dict_has_set_ne by discriminate. apply file_object_has_checksum.
Qed.

Lemma asset_entry_placeholder key a :
  no_checksum a = true ->
  dict_get "sha256" (fst (asset_entry key a)) = Some (VStr placeholder_checksum)
  /\ snd (asset_entry key a) = checksum_warning key a.
Proof.
  intros H. destruct (file_object_placeholder key a H) as [H1 H2].
  rewrite asset_entry_snd. split; [|assumption].
  destruct (asset_entry_fst key a) as [->|[bands ->]]; [assumption|].
  now rewrite dict_get_set_ne by discriminate.
Qed.

Lemma asset_entry_warnings key a :
  List.length (filter is_warning (snd (asset_entry key a)))
  = if no_checksum a then 1 else 0.
Proof.
  rewrite asset_entry_snd. destruct (no_checksum a) eqn:E.
  - destruct (file_object_placeholder key a E) as [_ ->]. reflexivity.
  - now rewrite (file_object_silent key a E).
Qed.

Lemma checksum_lines_warnings (assets : list (string * asset num)) :
  List.length
    (filter is_warning
       (flat_map (fun ka => snd (asset_entry (fst ka) (snd ka))) assets))
  = List.length (filter (fun ka => no_checksum (snd ka)) assets).
Proof.
  induction assets as [|[key a] assets IH]; [reflexivity|].
  cbn [flat_map filter fst snd].
  rewrite filter_app, length_app, IH, asset_entry_warnings.
  now destruct (no_checksum a).
Qed.

Lemma unmapped_lines_no_warning d :
  filter is_warning (unmapped_lines d) = [].
Proof.
  unfold unmapped_lines. cbn [filter].
  replace (is_warning _) with false by reflexivity.
  destruct (s_extra d) as [|kv extra]; [reflexivity|].
  generalize (kv :: extra). intros l.
  induction l as [|x l IH]; [reflexivity|].
  cbn [map filter]. now rewrite IH.
Qed.

Lemma detect_line_no_warning d : is_warning (detect_line d) = false.
Proof.
  unfold detect_line. destruct (is_item d); [reflexivity|].
  destruct (is_collection d); reflexivity.
Qed.

End Checksums.

(** C3, as amended.  In the STAC converter, every distribution entry is the
    FileObject built from one asset, in order, and it always has a sha256 or
    an md5 key.  When the asset has none of the three checksum fields, the
    FileObject's sha256 is the sentinel "PLACEHOLDER-CHECKSUM-REQUIRED" and
    the lines printed for it are one warning and one hint; an asset with a
    checksum field prints nothing.  So the converter prints exactly one
    warning per asset without checksum. *)
Theorem stac_checksum_policy {num} {N : PyNumber num}
    (now : datetime) (d : stac_doc num) :
  dict_get "distribution" (fst (stac_to_geocroissant now d))
  = Some (VList (distribution_entries d))
  /\ (forall i key a,
      nth_error (assets_of d) i = Some (key, a) ->
      exists file_object,
        nth_error (distribution_entries d) i = Some (VDict file_object)
        /\ dict_has "sha256" file_object || dict_has "md5" file_object = true
        /\ (no_checksum a = true ->
            dict_get "sha256" file_object = Some (VStr placeholder_checksum)
            /\ snd (asset_entry key a) = checksum_warning key a
            /\ List.length (filter is_warning (snd (asset_entry key a))) = 1)
        /\ (no_checksum a = false -> snd (asset_entry key a) = []))
  /\ List.length (filter is_warning (snd (stac_to_geocroissant now d)))
     = List.length (filter (fun ka => no_checksum (snd ka)) (assets_of d)).
Proof.
  split; [apply stac_distribution|split].
  - intros i key a Hi.
    exists (fst (asset_entry key a)). split; [|split; [|split]].
    + unfold distribution_entries. now rewrite nth_error_map, Hi.
    + apply asset_entry_has_checksum.
    + intros Hn. destruct (asset_entry_placeholder key a Hn) as [H1 H2].
      split; [assumption|split; [assumption|]].
      now rewrite asset_entry_warnings, Hn.
    + intros Hn. rewrite asset_entry_snd. now apply file_object_silent.
  - rewrite stac_printed. cbn [filter].
    rewrite detect_line_no_warning, filter_app, length_app,
      unmapped_lines_no_warning.
    cbn [List.length]. rewrite Nat.add_0_r.
    apply checksum_lines_warnings.
Qed.

Lemma stac_checksum_policy_witness :
  let d := item_doc dated [("B01", plain_asset); ("B02", hashed_asset)] None in
  exists file_object,
    nth_error (distribution_entries d) 0 = Some (VDict file_object)
    /\ dict_has "sha256" file_object || dict_has "md5" file_object = true
    /\ (no_checksum plain_asset = true ->
        dict_get "sha256" file_object = Some (VStr placeholder_checksum)
        /\ snd (asset_entry "B01" plain_asset) = checksum_warning "B01" plain_asset
        /\ List.length (filter is_warning (snd (asset_entry "B01" plain_asset))) = 1)
    /\ (no_checksum plain_asset = false -> snd (asset_entry "B01" plain_asset) = []).
Proof.
  intros d.
  apply (proj1 (proj2 (stac_checksum_policy run_2024 d)) 0 "B01" plain_asset).
  reflexivity.
Defined.

(** The other converters write a fixed placeholder under sha256 and print
    nothing. *)
Lemma fixed_placeholders {num} (asset_name product_url data_dir : string) (n : nat) :
  dict_get "sha256" (@Ceda.file_obj num asset_name product_url)
  = Some (VStr "placeholder")
  /\ forallb Distribution.has_checksum
       (filter (Distribution.is_type "cr:FileObject") (@L4s.distribution num))
     = true
  /\ forallb Distribution.has_checksum
       (filter (Distribution.is_type "cr:FileObject")
          (@Sdo.distribution num data_dir n))
     = true.
Proof. repeat split. Qed.

(** C3 as stated fails: the FileObject that the Earth Engine script puts in
    its distribution has neither a sha256 nor an md5 key. *)
Lemma gee_checksum_counterexample :
  exists file_object,
    @Gee.distribution Z Gee.ASSET_ID = [VDict file_object]
    /\ dict_get "@type" file_object = Some (VStr "cr:FileObject")
    /\ dict_has "sha256" file_object = false
    /\ dict_has "md5" file_object = false
    /\ forallb Distribution.has_checksum (@Gee.distribution Z Gee.ASSET_ID) = false.
Proof. eexists. repeat split. Qed.

(** ** Temporal coverage *)

Section Temporal.
Context {num : Type} {N : PyNumber num}.
Implicit Types (c : dict num) (d : stac_doc num).

Lemma set_temporal_item_range d c props s e :
  is_item d = true -> s_properties d = Some props ->
  start_datetime props = Some s -> end_datetime props = Some e ->
  nonempty s = true -> nonempty e = true ->
  dict_get "temporalCoverage" (set_temporal d c) = Some (VStr (s ++ "/" ++ e)).
Proof.
  intros Hi Hp Hs He Hns Hne. unfold set_temporal.
  rewrite Hi, Hp. cbn [default]. rewrite Hs, He. cbn [truthy val default].
  rewrite Hns, Hne. cbn [andb].
  destruct (created_datetime props).
  - destruct (negb _).
    + rewrite !dict_get_set_ne by discriminate. apply dict_get_set_eq.
    + rewrite dict_get_set_ne by discriminate. apply dict_get_set_eq.
  - rewrite dict_get_set_ne by discriminate. apply dict_get_set_eq.
Qed.

Lemma set_temporal_collection_range d c s e rest :
  is_item d = false -> s_extent_interval d = Some ((Some s, Some e) :: rest) ->
  nonempty s = true -> nonempty e = true ->
  dict_get "temporalCoverage" (set_temporal d c) = Some (VStr (s ++ "/" ++ e)).
Proof.
  intros Hi Hx Hns Hne. unfold set_temporal.
  rewrite Hi, Hx. cbn [truthy val default]. rewrite Hns, Hne. cbn [andb].
  rewrite dict_get_set_ne by discriminate. apply dict_get_set_eq.
Qed.

Lemma stac_temporal_coverage now d :
  dict_get "temporalCoverage" (fst (stac_to_geocroissant now d))
  = dict_get "temporalCoverage"
      (set_temporal d
         (set_spatial d
            (set_references d
               (set_url d
                  (set_creator d
                     (set_sci_citation d (set_cite_as now d (header d)))))))).
Proof.
  unfold stac_to_geocroissant. cbn [fst].
  now rewrite set_live_get, set_crs_get, set_keywords_get, set_file_set_get,
    set_distribution_get, set_default_date_get by discriminate.
Qed.

End Temporal.

(** C4, as amended.  For every STAC document whose range has a non-empty
    start and a non-empty end (the start_datetime and end_datetime of an
    item, or the first interval of a collection), whatever their order, the
    converter emits the temporal coverage "start/end" with both bounds as
    given and in the given order: the interval is never swapped.  No check
    that the start is before the end is made: the only lines printed are the
    type line, the checksum lines of the assets and the unmapped-field
    report. *)
Theorem temporal_range_passed_through {num} {N : PyNumber num}
    (now : datetime) (d : stac_doc num) (s e : string) :
  nonempty s = true -> nonempty e = true ->
  (is_item d = true
   /\ exists props,
       s_properties d = Some props
       /\ start_datetime props = Some s /\ end_datetime props = Some e)
  \/ (is_item d = false
      /\ exists rest, s_extent_interval d = Some ((Some s, Some e) :: rest)) ->
  dict_get "temporalCoverage" (fst (stac_to_geocroissant now d))
  = Some (VStr (s ++ "/" ++ e))
  /\ snd (stac_to_geocroissant now d)
     = (detect_line d :: checksum_lines d ++ unmapped_lines d)%list.
Proof.
  intros Hs He H. split; [|apply stac_printed].
  rewrite stac_temporal_coverage.
  destruct H as [(Hi & props & Hp & H1 & H2)|(Hi & rest & Hx)].
  - now apply (set_temporal_item_range d _ props).
  - now apply (set_temporal_collection_range d _ s e rest).
Qed.

Lemma temporal_range_passed_through_witness :
  let d := item_doc reversed_range [("B02", hashed_asset)] None in
  dict_get "temporalCoverage" (fst (stac_to_geocroissant run_2024 d))
  = Some (VStr ("2021-01-01T00:00:00Z" ++ "/" ++ "2020-01-01T00:00:00Z"))
  /\ snd (stac_to_geocroissant run_2024 d)
     = (detect_line d :: checksum_lines d ++ unmapped_lines d)%list.
Proof.
  intros d.
  apply (temporal_range_passed_through run_2024 d); try reflexivity.
  left. split; [reflexivity|]. exists reversed_range. repeat split.
Defined.

(** C4 as stated fails: an item whose start (2021) is after its end (2020)
    gets the range start/end with the start after the end, and no warning is
    printed. *)
Lemma reversed_range_counterexample :
  let d := item_doc reversed_range [("B02", hashed_asset)] None in
  String.ltb "2020-01-01T00:00:00Z" "2021-01-01T00:00:00Z" = true
  /\ dict_get "temporalCoverage" (fst (stac_to_geocroissant run_2024 d))
     = Some (VStr "2021-01-01T00:00:00Z/2020-01-01T00:00:00Z")
  /\ filter is_warning (snd (stac_to_geocroissant run_2024 d)) = []
  /\ snd (stac_to_geocroissant run_2024 d)
     = [ "Detected STAC Item (Feature)";
         String (ascii_of_nat 10) (String (ascii_of_nat 27)
           ("[1mUnmapped STAC Fields:" ++ String (ascii_of_nat 27) "[0m"));
         "None" ].
Proof. cbv zeta. repeat split; vm_compute; reflexivity. Qed.

(** ** Dependence on the clock *)

Section Clock.
Context {num : Type} {N : PyNumber num}.
Implicit Types (c : dict num) (d : stac_doc num).

Lemma has_date_published d c :
  has_date d = true -> dict_has "datePublished" (set_temporal d c) = true.
Proof.
  unfold has_date, set_temporal. destruct (is_item d).
  - destruct (s_properties d) as [props|]; [|discriminate]. cbn [default].
    destruct (truthy (start_datetime props) && truthy (end_datetime props)).
    + intros _. destruct (created_datetime props).
      * rewrite dict_has_set_eq. cbn [negb]. apply dict_has_set_eq.
      * apply dict_has_set_eq.
    + destruct (truthy (datetime_val props)).
      * intros _. destruct (created_datetime props).
        -- rewrite dict_has_set_eq. cbn [negb]. apply dict_has_set_eq.
        -- apply dict_has_set_eq.
      * cbn [orb]. destruct (created_datetime props); [|discriminate].
        intros _. destruct (dict_has "datePublished" c) eqn:E; cbn [negb].
        -- assumption.
        -- apply dict_has_set_eq.
  - destruct (s_extent_interval d) as [[|[start end_] rest]|]; try discriminate.
    intros ->. apply dict_has_set_eq.
Qed.

Lemma set_default_date_id now c :
  dict_has "datePublished" c = true -> set_default_date now c = c.
Proof. intros H. unfold set_default_date. now rewrite H. Qed.

Lemma citation_overrides now d cit c :
  s_sci_citation d = Some cit ->
  set_sci_citation d (set_cite_as now d c)
  = dict_set "citation" (VStr cit) (dict_set "citeAs" (VStr cit) c).
Proof.
  intros H. unfold set_sci_citation, set_cite_as. rewrite H.
  now rewrite dict_set_set.
Qed.

End Clock.

(** ** Bounding boxes: STAC to GeoShape box and back *)

Lemma split_ws_aux_piece (t rest : string) (cur : list ascii) :
  all_chars (fun c => negb (is_space c)) t = true ->
  split_ws_aux cur (t ++ rest)
  = split_ws_aux (rev (list_ascii_of_string t) ++ cur)%list rest.
Proof.
  revert cur. induction t as [|c t IH]; intros cur H; [reflexivity|].
  cbn [all_chars] in H. apply andb_true_iff in H. destruct H as [Hc Ht].
  apply negb_true_iff in Hc.
  cbn [append split_ws_aux]. rewrite Hc, (IH _ Ht).
  cbn [list_ascii_of_string rev]. now rewrite <- app_assoc.
Qed.

Lemma token_chars (t : string) :
  is_token t = true ->
  all_chars (fun c => negb (is_space c)) t = true
  /\ rev (list_ascii_of_string t) <> [].
Proof.
  unfold is_token. intros H. apply andb_true_iff in H. destruct H as [Hn Ha].
  split; [assumption|].
  destruct t as [|c t]; [discriminate|]. cbn [list_ascii_of_string rev].
  intros E. now apply app_eq_nil in E.
Qed.

Lemma rev_token (t : string) :
  string_of_list_ascii (rev (rev (list_ascii_of_string t) ++ [])) = t.
Proof.
  now rewrite app_nil_r, rev_involutive, string_of_list_ascii_of_string.
Qed.

(** A token followed by a space is the first piece. *)
Lemma split_ws_token_space (t rest : string) :
  is_token t = true ->
  split_ws_aux [] (t ++ " " ++ rest) = t :: split_ws_aux [] rest.
Proof.
  intros H. destruct (token_chars t H) as [Ha Hne].
  rewrite (split_ws_aux_piece t _ [] Ha).
  cbn [append split_ws_aux]. change (is_space " ") with true. cbv iota.
  destruct (rev (list_ascii_of_string t) ++ [])%list eqn:E.
  - rewrite app_nil_r in E. contradiction.
  - rewrite <- E. now rewrite rev_token.
Qed.

(** A token at the end is the last piece. *)
Lemma split_ws_token_end (t : string) :
  is_token t = true -> split_ws_aux [] t = [t].
Proof.
  intros H. destruct (token_chars t H) as [Ha Hne].
  rewrite <- (append_nil_r t) at 1.
  rewrite (split_ws_aux_piece t _ [] Ha). cbn [split_ws_aux].
  destruct (rev (list_ascii_of_string t) ++ [])%list eqn:E.
  - rewrite app_nil_r in E. contradiction.
  - rewrite <- E. now rewrite rev_token.
Qed.

Lemma split_ws_four (a b c d : string) :
  is_token a = true -> is_token b = true ->
  is_token c = true -> is_token d = true ->
  split_ws (a ++ " " ++ b ++ " " ++ c ++ " " ++ d) = [a; b; c; d].
Proof.
  intros Ha Hb Hc Hd. unfold split_ws.
  rewrite (split_ws_token_space a _ Ha), (split_ws_token_space b _ Hb),
    (split_ws_token_space c _ Hc), (split_ws_token_end d Hd).
  reflexivity.
Qed.

Section RoundTrip.
Context {num : Type} {N : PyNumber num}.
Implicit Types (c : dict num) (d : stac_doc num) (w s e n : num).

Lemma box_parses w s e n :
  reads_back w -> reads_back s -> reads_back e -> reads_back n ->
  GeoCroissantToStac.bbox_of_box (box_string w s e n)
  = Ok ([VNum w; VNum s; VNum e; VNum n],
        GeoCroissantToStac.polygon (VNum w) (VNum s) (VNum e) (VNum n)).
Proof.
  intros [Tw Fw] [Ts Fs] [Te Fe] [Tn Fn].
  unfold GeoCroissantToStac.bbox_of_box, box_string.
  rewrite split_ws_four by assumption.
  cbn [GeoCroissantToStac.floats]. now rewrite Fs, Fw, Fn, Fe.
Qed.

Lemma box_nonempty w s e n :
  reads_back s -> nonempty (box_string w s e n) = true.
Proof.
  intros [T _]. unfold box_string, is_token in *.
  apply andb_true_iff in T. destruct T as [T _].
  destruct (num_str s); [discriminate|reflexivity].
Qed.

Lemma stac_spatial_coverage now d :
  dict_get "spatialCoverage" (fst (stac_to_geocroissant now d))
  = dict_get "spatialCoverage"
      (set_spatial d
         (set_references d
            (set_url d
               (set_creator d
                  (set_sci_citation d (set_cite_as now d (header d))))))).
Proof.
  unfold stac_to_geocroissant. cbn [fst].
  now rewrite set_live_get, set_crs_get, set_keywords_get, set_file_set_get,
    set_distribution_get, set_default_date_get, set_temporal_get by discriminate.
Qed.

End RoundTrip.

(** Python integers read back. *)
Lemma uint_chars (u : Decimal.uint) :
  all_chars (fun c => negb (is_space c)) (NilEmpty.string_of_uint u) = true.
Proof. induction u; simpl; auto. Qed.

Lemma reads_back_int (z : Z) : reads_back z.
Proof.
  unfold reads_back. cbn [num_str num_float Z_PyNumber]. split.
  - unfold is_token, str_Z, Z.to_int.
    destruct z as [|p|p]; [reflexivity| |].
    + cbn [NilZero.string_of_int].
      pose proof (DecimalPos.Unsigned.to_uint_nonnil p) as Hn.
      destruct (Pos.to_uint p) eqn:E; [contradiction| ..];
        rewrite <- E; unfold NilZero.string_of_uint; rewrite E;
        rewrite uint_chars; reflexivity.
    + cbn [NilZero.string_of_int nonempty all_chars].
      pose proof (DecimalPos.Unsigned.to_uint_nonnil p) as Hn.
      destruct (Pos.to_uint p) eqn:E; [contradiction| ..];
        rewrite <- E; unfold NilZero.string_of_uint; rewrite E;
        rewrite uint_chars; reflexivity.
  - unfold int_float, str_Z. rewrite NilZero.isi.
    + cbn [option_map]. now rewrite DecimalZ.of_to.
    + destruct z; cbn [Z.to_int]; intros H; try discriminate.
      injection H. apply DecimalPos.Unsigned.to_uint_nonnil.
    + destruct z; cbn [Z.to_int]; intros H; try discriminate.
      injection H. apply DecimalPos.Unsigned.to_uint_nonnil.
Qed.

(** C1.  A STAC bounding box [west, south, east, north] is written as the
    GeoShape box string "south west north east" (the canonical order) under
    spatialCoverage, and reading that record back gives the STAC bbox
    [west, south, east, north] again: the original four numbers in the
    original order, together with the closed polygon of the box.  A valid
    box is one whose numbers print and read back, as Python floats do. *)
Theorem bbox_round_trip {num} {N : PyNumber num}
    (now : datetime) (d : stac_doc num) (w s e n : num) :
  select_bbox d = Some [w; s; e; n] ->
  reads_back w -> reads_back s -> reads_back e -> reads_back n ->
  dict_get "spatialCoverage" (fst (stac_to_geocroissant now d))
  = Some (VDict [("@type", VStr "Place");
                 ("geo", VDict [("@type", VStr "GeoShape");
                                ("box", VStr (num_str s ++ " " ++ num_str w ++ " "
                                              ++ num_str n ++ " " ++ num_str e))])])
  /\ GeoCroissantToStac.bbox_and_geometry (fst (stac_to_geocroissant now d))
     = Ok ([VNum w; VNum s; VNum e; VNum n],
           GeoCroissantToStac.polygon (VNum w) (VNum s) (VNum e) (VNum n)).
Proof.
  intros Hb Hw Hs He Hn.
  assert (Hsc : dict_get "spatialCoverage" (fst (stac_to_geocroissant now d))
                = Some (VDict [("@type", VStr "Place");
                               ("geo", VDict [("@type", VStr "GeoShape");
                                              ("box", VStr (box_string w s e n))])])).
  { rewrite stac_spatial_coverage. unfold set_spatial. rewrite Hb.
    apply dict_get_set_eq. }
  split; [exact Hsc|].
  unfold GeoCroissantToStac.bbox_and_geometry, GeoCroissantToStac.bbox_string.
  rewrite Hsc. cbn [dict_get String.eqb Ascii.eqb Bool.eqb py_bool].
  rewrite (box_nonempty w s e n Hs).
  now apply box_parses.
Qed.

Lemma bbox_round_trip_witness :
  let d := item_doc dated [("B01", plain_asset)] None in
  dict_get "spatialCoverage" (fst (stac_to_geocroissant run_2024 d))
  = Some (VDict [("@type", VStr "Place");
                 ("geo", VDict [("@type", VStr "GeoShape");
                                ("box", VStr "10 20 30 40")])])
  /\ GeoCroissantToStac.bbox_and_geometry (fst (stac_to_geocroissant run_2024 d))
     = Ok ([VNum 20; VNum 10; VNum 40; VNum 30]%Z,
           GeoCroissantToStac.polygon (VNum 20%Z) (VNum 10%Z) (VNum 40%Z) (VNum 30%Z)).
Proof.
  intros d.
  exact (bbox_round_trip run_2024 d 20%Z 10%Z 40%Z 30%Z eq_refl
           (conj eq_refl eq_refl) (conj eq_refl eq_refl)
           (conj eq_refl eq_refl) (conj eq_refl eq_refl)).
Defined.

(** ** FileSets and their containers *)

Section FileSets.
Context {num : Type}.

Lemma file_set_shape (band_names : list string) (idx : nat) (it : TimeSeries.item) :
  let e : pyval num := TimeSeries.file_set band_names idx it in
  Distribution.is_type "cr:FileSet" e = true
  /\ Distribution.is_type "cr:FileObject" e = false
  /\ Distribution.str_field "includes" e = Some "*.tif"
  /\ Distribution.includes_nonempty e = true
  /\ Distribution.str_field "contentUrl" e
     = Some (TimeSeries.base_url band_names it)
  /\ Distribution.has_key "containedIn" e = false
  /\ Distribution.container_ref e = None.
Proof. repeat split. Qed.

Lemma file_sets_from_length (band_names : list string) (items : list TimeSeries.item)
    (idx : nat) :
  List.length (@TimeSeries.file_sets_from num band_names idx items)
  = List.length items.
Proof.
  revert idx. induction items as [|it items IH]; intros idx; simpl; [reflexivity|].
  now rewrite IH.
Qed.

Lemma file_sets_from_in (band_names : list string) (items : list TimeSeries.item)
    (idx : nat) (e : pyval num) :
  In e (TimeSeries.file_sets_from band_names idx items) ->
  exists i it, In it items /\ e = TimeSeries.file_set band_names i it.
Proof.
  revert idx. induction items as [|it items IH]; intros idx; simpl; [contradiction|].
  intros [<-|H]; [exists idx, it; split; [now left|reflexivity]|].
  destruct (IH (S idx) H) as (i & it' & Hin & ->).
  exists i, it'. split; [now right|reflexivity].
Qed.

Lemma file_sets_from_not_ok (band_names : list string) (items : list TimeSeries.item)
    (idx : nat) (declared : list string) :
  items <> [] ->
  Distribution.filesets_ok declared
    (@TimeSeries.file_sets_from num band_names idx items) = false.
Proof.
  destruct items as [|it items]; [contradiction|]. intros _. reflexivity.
Qed.

End FileSets.

Section TimeSeriesRuns.
Context {num dt : Type} {D : TimeSeries.PyDatetimes dt}.

(** What a returned dataset holds. *)
Lemma convert_returns (items : list TimeSeries.item)
    (res : @TimeSeries.dataset num dt) :
  TimeSeries.convert_items_to_geocroissant items = Ok (Some res) ->
  items <> []
  /\ TimeSeries.distribution res = TimeSeries.file_sets items
  /\ TimeSeries.extent_from (None, None) items = Ok (TimeSeries.temporal_extent res)
  /\ TimeSeries.examples_from 1 (firstn 2 items) = Ok (TimeSeries.examples res).
Proof.
  destruct items as [|it items]; [discriminate|].
  unfold TimeSeries.convert_items_to_geocroissant.
  destruct (TimeSeries.extent_from _ _) as [bounds|exc]; [|discriminate].
  destruct (TimeSeries.examples_from _ _) as [es|exc]; [|discriminate].
  intros H. injection H as <-. repeat split. discriminate.
Qed.

Lemma convert_empty :
  @TimeSeries.convert_items_to_geocroissant num dt D [] = Ok None.
Proof. reflexivity. Qed.

Lemma extent_step_undated bounds it :
  undated it = true -> TimeSeries.extent_step bounds it = Ok bounds.
Proof.
  unfold undated, TimeSeries.extent_step.
  destruct (TimeSeries.item_datetime it) as [| |s]; try reflexivity.
  now destruct (nonempty s).
Qed.

Lemma extent_step_unreadable bounds it :
  readable it = false -> undated it = false ->
  TimeSeries.extent_step bounds it = Raise "ValueError".
Proof.
  unfold readable, undated, TimeSeries.extent_step, TimeSeries.parse.
  destruct (TimeSeries.item_datetime it) as [| |s]; try discriminate.
  destruct (nonempty s); [|discriminate].
  now destruct (TimeSeries.fromisoformat _).
Qed.

Lemma extent_step_readable bounds it :
  (forall a b : dt, TimeSeries.dt_ltb a b <> None) ->
  readable it = true ->
  exists bounds', TimeSeries.extent_step bounds it = Ok bounds'.
Proof.
  intros Hcmp. unfold readable, TimeSeries.extent_step, TimeSeries.parse.
  destruct (TimeSeries.item_datetime it) as [| |s]; try discriminate.
  destruct (nonempty s); [|discriminate].
  destruct (TimeSeries.fromisoformat _) as [d|]; [|discriminate]. intros _.
  assert (Hb : forall bound cmp,
             (forall b, cmp b <> None) ->
             exists r, TimeSeries.update_bound bound d cmp = Ok r).
  { intros [b|] cmp Hc; cbn [TimeSeries.update_bound]; [|now eexists].
    specialize (Hc b). destruct (cmp b) as [[|]|]; [now eexists..|contradiction]. }
  destruct (Hb (fst bounds) (fun m => TimeSeries.dt_ltb d m)) as [lo ->];
    [intros b; apply Hcmp|].
  destruct (Hb (snd bounds) (fun m => TimeSeries.dt_ltb m d)) as [hi ->];
    [intros b; apply Hcmp|].
  now eexists.
Qed.

Lemma extent_from_raises items :
  forallb (fun it => readable it || undated it) items = false ->
  forall bounds, exists exc, TimeSeries.extent_from bounds items = Raise exc.
Proof.
  induction items as [|it items IH]; [discriminate|].
  cbn [forallb TimeSeries.extent_from]. intros H bounds.
  destruct (TimeSeries.extent_step bounds it) as [bounds'|exc] eqn:E;
    [|now exists exc].
  apply andb_false_iff in H. destruct H as [H|H]; [|now apply IH].
  apply orb_false_iff in H. destruct H as [Hr Hu].
  rewrite (extent_step_unreadable bounds it Hr Hu) in E. discriminate.
Qed.

Lemma extent_from_returns items :
  (forall a b : dt, TimeSeries.dt_ltb a b <> None) ->
  forallb (fun it => readable it || undated it) items = true ->
  forall bounds, exists bounds', TimeSeries.extent_from bounds items = Ok bounds'.
Proof.
  intros Hcmp. induction items as [|it items IH]; [now eexists|].
  cbn [forallb TimeSeries.extent_from]. intros H bounds.
  apply andb_true_iff in H. destruct H as [H Hrest].
  apply orb_true_iff in H. destruct H as [H|H].
  - destruct (extent_step_readable bounds it Hcmp H) as [bounds' ->].
    now apply IH.
  - rewrite (extent_step_undated bounds it H). now apply IH.
Qed.

Lemma example_of_readable idx it :
  readable it = true -> exists e, TimeSeries.example_of idx it = Ok e.
Proof.
  unfold readable, TimeSeries.example_of, TimeSeries.parse.
  destruct (TimeSeries.item_datetime it) as [| |s]; try discriminate.
  destruct (nonempty s); [|discriminate].
  destruct (TimeSeries.fromisoformat _) as [d|]; [|discriminate].
  now eexists.
Qed.

Lemma example_of_unreadable idx it :
  readable it = false ->
  TimeSeries.example_of idx it
  = Raise (match TimeSeries.item_datetime it with
           | TimeSeries.NullDatetime => "AttributeError"
           | _ => "ValueError"
           end).
Proof.
  unfold readable, TimeSeries.example_of, TimeSeries.parse.
  destruct (TimeSeries.item_datetime it) as [| |s]; try reflexivity.
  destruct (nonempty s); [|reflexivity].
  now destruct (TimeSeries.fromisoformat _).
Qed.

Lemma examples_from_raises items :
  forallb readable items = false ->
  forall idx, exists exc, TimeSeries.examples_from idx items = Raise exc.
Proof.
  induction items as [|it items IH]; [discriminate|].
  cbn [forallb TimeSeries.examples_from]. intros H idx.
  destruct (readable it) eqn:Hr.
  - destruct (example_of_readable idx it Hr) as [e ->].
    destruct (IH H (S idx)) as [exc ->]. now exists exc.
  - rewrite (example_of_unreadable idx it Hr). now eexists.
Qed.

Lemma examples_from_returns items :
  forallb readable items = true ->
  forall idx, exists es, TimeSeries.examples_from idx items = Ok es.
Proof.
  induction items as [|it items IH]; [now eexists|].
  cbn [forallb TimeSeries.examples_from]. intros H idx.
  apply andb_true_iff in H. destruct H as [Hr H].
  destruct (example_of_readable idx it Hr) as [e ->].
  destruct (IH H (S idx)) as [es ->]. now eexists.
Qed.

(** The converter raises as soon as one of the first two items has no
    readable datetime, or any item has a datetime that is not read. *)
Lemma convert_raises (items : list TimeSeries.item) :
  forallb readable (firstn 2 items)
  && forallb (fun it => readable it || undated it) items = false ->
  exists exc,
    @TimeSeries.convert_items_to_geocroissant num dt D items = Raise exc.
Proof.
  intros H. destruct items as [|it items]; [discriminate|].
  unfold TimeSeries.convert_items_to_geocroissant.
  destruct (TimeSeries.extent_from (None, None) (it :: items))
    as [bounds|exc] eqn:E; [|now exists exc].
  apply andb_false_iff in H. destruct H as [H|H].
  - destruct (examples_from_raises _ H 1) as [exc ->]. now exists exc.
  - destruct (extent_from_raises _ H (None, None)) as [exc Hx]. congruence.
Qed.

(** Otherwise, when the datetimes can be compared, a dataset is returned. *)
Lemma convert_total (items : list TimeSeries.item) :
  (forall a b : dt, TimeSeries.dt_ltb a b <> None) ->
  items <> [] ->
  forallb readable (firstn 2 items) = true ->
  forallb (fun it => readable it || undated it) items = true ->
  exists res,
    @TimeSeries.convert_items_to_geocroissant num dt D items = Ok (Some res).
Proof.
  intros Hcmp Hne Hfirst Hall. destruct items as [|it items]; [contradiction|].
  unfold TimeSeries.convert_items_to_geocroissant.
  destruct (extent_from_returns _ Hcmp Hall (None, None)) as [bounds ->].
  destruct (examples_from_returns _ Hfirst 1) as [es ->].
  now eexists.
Qed.

End TimeSeriesRuns.




(** ** Temporal coverage read back (GeoCroissant to STAC) *)

Lemma split_char_single (c : ascii) (s : string) :
  all_chars (fun a => negb (Ascii.eqb a c)) s = true -> split_char c s = [s].
Proof.
  induction s as [|a s IH]; [reflexivity|].
  cbn [all_chars split_char]. intros H.
  apply andb_true_iff in H. destruct H as [Ha Hs].
  apply negb_true_iff in Ha. now rewrite Ha, (IH Hs).
Qed.

Lemma split_char_app (c : ascii) (s t : string) :
  all_chars (fun a => negb (Ascii.eqb a c)) s = true ->
  split_char c (s ++ String c t) = s :: split_char c t.
Proof.
  induction s as [|a s IH]; intros H.
  - cbn [append split_char]. now rewrite Ascii.eqb_refl.
  - cbn [all_chars] in H. apply andb_true_iff in H. destruct H as [Ha Hs].
    apply negb_true_iff in Ha.
    cbn [append split_char]. now rewrite Ha, (IH Hs).
Qed.

Lemma contains_app (p a b : string) : contains p (a ++ p ++ b) = true.
Proof.
  induction a as [|x a IH].
  - cbn [append]. apply contains_prefix, prefix_append.
  - cbn [append]. now apply contains_cons.
Qed.

Section ReadTemporal.
Import GeoCroissantToStac.
Context {dt : Type} {D : PyDatetime dt}.

(** Without a range, the item's datetime is the clock reading of the run. *)
Lemma parse_temporal_absent (now : dt) :
  parse_temporal now None = Ok {| item_datetime := now; start_end := None |}.
Proof. reflexivity. Qed.

(** A range "start/end" is kept as given, in the given order: the two
    bounds are never compared. *)
Lemma parse_temporal_range (now start_dt end_dt : dt) (s e : string) :
  all_chars (fun a => negb (Ascii.eqb a "/")) s = true ->
  all_chars (fun a => negb (Ascii.eqb a "/")) e = true ->
  fromisoformat s = Some start_dt -> fromisoformat e = Some end_dt ->
  parse_temporal now (Some (s ++ "/" ++ e))
  = Ok {| item_datetime := dt_midpoint start_dt end_dt;
          start_end := Some (dt_isoformat start_dt ++ "Z",
                             dt_isoformat end_dt ++ "Z") |}.
Proof.
  intros Hs He Fs Fe. unfold parse_temporal.
  replace (contains "/" (s ++ "/" ++ e)) with true
    by (symmetry; apply (contains_app "/" s e)).
  replace (nonempty (s ++ "/" ++ e)) with true by (now destruct s).
  cbn [andb].
  change (s ++ "/" ++ e) with (s ++ String "/" e).
  rewrite (split_char_app "/" s e Hs), (split_char_single "/" e He).
  now rewrite Fs, Fe.
Qed.

End ReadTemporal.

(* ===================================================================== *)
(** * Further properties of the converters *)
(* ===================================================================== *)

(** ** Names and versions (STAC converter) *)

Lemma name_char_ok_dash : name_char_ok "-" = true.
Proof. reflexivity. Qed.

Lemma map_chars_length (f : ascii -> ascii) (s : string) :
  String.length (map_chars f s) = String.length s.
Proof. induction s as [|c s IH]; simpl; [reflexivity|now rewrite IH]. Qed.

Lemma sanitize_name_ok (s : string) :
  all_chars name_char_ok (sanitize_name s) = true.
Proof.
  unfold sanitize_name. induction s as [|c s IH]; [reflexivity|].
  cbn [map_chars all_chars]. rewrite IH, andb_true_r.
  destruct (name_char_ok c) eqn:E; [exact E|reflexivity].
Qed.

Lemma sanitize_name_clean (s : string) :
  all_chars name_char_ok s = true -> sanitize_name s = s.
Proof.
  unfold sanitize_name. induction s as [|c s IH]; [reflexivity|].
  cbn [map_chars all_chars]. intros H.
  apply andb_true_iff in H. destruct H as [Hc Hs].
  now rewrite Hc, (IH Hs).
Qed.

(** X1.  [sanitize_name] keeps the length of the name, leaves only letters,
    digits, "_" and "-" in it, changes nothing in a name that is already
    made of these characters, and so is idempotent. *)
Theorem sanitize_name_spec (name : string) :
  String.length (sanitize_name name) = String.length name
  /\ all_chars name_char_ok (sanitize_name name) = true
  /\ (all_chars name_char_ok name = true -> sanitize_name name = name)
  /\ sanitize_name (sanitize_name name) = sanitize_name name.
Proof.
  split; [apply map_chars_length|].
  split; [apply sanitize_name_ok|].
  split; [apply sanitize_name_clean|].
  apply sanitize_name_clean, sanitize_name_ok.
Qed.

Lemma sanitize_name_spec_witness :
  sanitize_name "HLS_S30-T11SMT" = "HLS_S30-T11SMT"
  /\ sanitize_name "My data set/v1.0" = "My-data-set-v1-0".
Proof.
  split.
  - apply (proj1 (proj2 (proj2 (sanitize_name_spec "HLS_S30-T11SMT")))).
    reflexivity.
  - reflexivity.
Defined.

Lemma split_char_nonempty (c : ascii) (s : string) : split_char c s <> [].
Proof.
  destruct s as [|a s]; cbn [split_char]; [discriminate|].
  destruct (Ascii.eqb a c); [discriminate|].
  destruct (split_char c s); discriminate.
Qed.

Lemma split_char_free (c : ascii) (s : string) :
  Forall (fun p => free_of c p = true) (split_char c s).
Proof.
  induction s as [|a s IH]; cbn [split_char].
  - repeat constructor.
  - destruct (Ascii.eqb a c) eqn:E.
    + constructor; [reflexivity|assumption].
    + destruct (split_char c s) as [|p rest].
      * repeat constructor. unfold free_of. cbn [all_chars]. now rewrite E.
      * inversion IH as [|? ? Hp Hrest]. subst. constructor; [|assumption].
        unfold free_of in *. cbn [all_chars]. now rewrite E, Hp.
Qed.

(** Splitting what [join] put together gives the pieces back. *)
Lemma split_char_join (c : ascii) (parts : list string) :
  parts <> [] -> Forall (fun p => free_of c p = true) parts ->
  split_char c (join (String c EmptyString) parts) = parts.
Proof.
  induction parts as [|p parts IH]; [contradiction|]. intros _ H.
  inversion H as [|? ? Hp Hrest]. subst.
  destruct parts as [|q parts].
  - cbn [join]. now apply split_char_single.
  - change (join (String c EmptyString) (p :: q :: parts))
      with (p ++ String c (join (String c EmptyString) (q :: parts))).
    rewrite (split_char_app c p _ Hp). f_equal. apply IH; [discriminate|assumption].
Qed.

Lemma Forall_firstn_keep {A} (P : A -> Prop) (n : nat) (l : list A) :
  Forall P l -> Forall P (firstn n l).
Proof.
  revert n. induction l as [|x l IH]; intros [|n] H; cbn [firstn];
    try constructor; inversion H; subst; auto.
Qed.

Lemma firstn_nonempty {A} (n : nat) (l : list A) :
  l <> [] -> firstn (S n) l <> [].
Proof. destruct l; [contradiction|discriminate]. Qed.

Lemma startswith_app (p a b : string) :
  nonempty p = true -> nonempty a = true ->
  String.length p = 1 ->
  startswith p (a ++ b) = startswith p a.
Proof.
  destruct p as [|x [|y p]]; try discriminate. intros _ Ha _.
  destruct a as [|c a]; [discriminate|]. unfold startswith. cbn [append prefix].
  destruct (ascii_dec x c); [|reflexivity]. now destruct (a ++ b), a.
Qed.

Lemma ensure_semver_parts (v : string) :
  nonempty v = true ->
  exists parts,
    parts <> [] /\ Forall (fun p => free_of "." p = true) parts
    /\ List.length parts <= 3
    /\ ensure_semver v = join "." parts.
Proof.
  intros Hv. unfold ensure_semver. rewrite Hv. cbn [negb].
  set (v' := if startswith "v" v then drop 1 v else v).
  pose proof (split_char_nonempty "." v') as Hne.
  pose proof (split_char_free "." v') as Hfree.
  set (parts := split_char "." v') in *.
  set (padded := if Nat.eqb (List.length parts) 2 then (parts ++ ["0"])%list else parts).
  assert (Hp : padded <> [] /\ Forall (fun p => free_of "." p = true) padded).
  { unfold padded. destruct (Nat.eqb (List.length parts) 2).
    - split; [now destruct parts|].
      apply Forall_app. split; [assumption|repeat constructor].
    - now split. }
  destruct Hp as [Hpn Hpf].
  exists (firstn 3 padded). split; [now apply firstn_nonempty|].
  split; [now apply Forall_firstn_keep|].
  split; [apply firstn_le_length|reflexivity].
Qed.

(** X2.  [ensure_semver] gives "1.0.0" for an empty version and otherwise a
    version of at most three dot-separated components: "a.b" becomes
    "a.b.0", components after the third are dropped, one leading "v" is
    removed, and a version of a single component is returned as it is, with
    no padding. *)
Theorem ensure_semver_shape :
  ensure_semver EmptyString = "1.0.0"
  /\ (forall v, List.length (split_char "." (ensure_semver v)) <= 3)
  /\ (forall a b,
      free_of "." a = true -> free_of "." b = true -> startswith "v" a = false ->
      ensure_semver (a ++ "." ++ b) = a ++ "." ++ b ++ ".0")
  /\ (forall a b c rest,
      free_of "." a = true -> free_of "." b = true -> free_of "." c = true ->
      startswith "v" a = false ->
      ensure_semver (a ++ "." ++ b ++ "." ++ c ++ "." ++ rest)
      = a ++ "." ++ b ++ "." ++ c)
  /\ (forall a,
      nonempty a = true -> free_of "." a = true -> startswith "v" a = false ->
      ensure_semver a = a)
  /\ (forall v,
      nonempty v = true -> startswith "v" v = false ->
      ensure_semver ("v" ++ v) = ensure_semver v).
Proof.
  split; [reflexivity|]. split; [|split; [|split; [|split]]].
  - intros v. destruct (nonempty v) eqn:Hv.
    + destruct (ensure_semver_parts v Hv) as (parts & Hn & Hf & Hl & ->).
      now rewrite (split_char_join "." parts Hn Hf).
    + destruct v; [cbn; lia|discriminate].
  - intros a b Ha Hb Hv. unfold ensure_semver.
    assert (Hs : startswith "v" (a ++ "." ++ b) = false).
    { destruct a as [|x a]; [reflexivity|].
      rewrite startswith_app by reflexivity. exact Hv. }
    rewrite Hs. replace (nonempty (a ++ "." ++ b)) with true by (now destruct a).
    cbn [negb]. change (a ++ "." ++ b) with (a ++ String "." b).
    rewrite (split_char_app "." a b Ha), (split_char_single "." b Hb).
    reflexivity.
  - intros a b c rest Ha Hb Hc Hv. unfold ensure_semver.
    assert (Hs : startswith "v" (a ++ "." ++ b ++ "." ++ c ++ "." ++ rest) = false).
    { destruct a as [|x a]; [reflexivity|].
      rewrite startswith_app by reflexivity. exact Hv. }
    rewrite Hs.
    replace (nonempty (a ++ "." ++ b ++ "." ++ c ++ "." ++ rest)) with true
      by (now destruct a).
    cbn [negb].
    change (a ++ "." ++ b ++ "." ++ c ++ "." ++ rest)
      with (a ++ String "." (b ++ String "." (c ++ String "." rest))).
    rewrite (split_char_app "." a _ Ha), (split_char_app "." b _ Hb),
      (split_char_app "." c _ Hc).
    pose proof (split_char_nonempty "." rest) as Hr.
    destruct (split_char "." rest) as [|r rs]; [contradiction|].
    reflexivity.
  - intros a Hn Ha Hv. unfold ensure_semver. rewrite Hn, Hv. cbn [negb].
    now rewrite (split_char_single "." a Ha).
  - intros v Hn Hv. destruct v as [|c v]; [discriminate|].
    unfold ensure_semver at 2. rewrite Hv. reflexivity.
Qed.

Lemma ensure_semver_shape_witness :
  ensure_semver ("2" ++ "." ++ "1") = "2" ++ "." ++ "1" ++ ".0"
  /\ ensure_semver ("1" ++ "." ++ "2" ++ "." ++ "3" ++ "." ++ "4.5")
     = "1" ++ "." ++ "2" ++ "." ++ "3"
  /\ ensure_semver "7" = "7"
  /\ ensure_semver ("v" ++ "1.0") = ensure_semver "1.0".
Proof.
  destruct ensure_semver_shape as (_ & _ & H2 & H3 & H1 & Hv).
  split; [|split; [|split]].
  - apply H2; reflexivity.
  - apply H3; reflexivity.
  - apply H1; reflexivity.
  - apply Hv; reflexivity.
Defined.

(** ** The output of the STAC converter, key by key *)

Section StacOutput.
Context {num : Type} {N : PyNumber num}.
Implicit Types (c : dict num) (k : string) (d : stac_doc num) (now : datetime).

Lemma set_cite_as_get k now d c :
  k <> "citeAs" -> dict_get k (set_cite_as now d c) = dict_get k c.
Proof. intros. unfold set_cite_as. now rewrite dict_get_set_ne by congruence. Qed.

(** The keys of the header literal that no later block assigns. *)
Lemma stac_header_get k now d :
  In k ["@context"; "@type"; "@id"; "name"; "description"; "version";
        "license"; "conformsTo"] ->
  dict_get k (fst (stac_to_geocroissant now d)) = dict_get k (header d).
Proof.
  intros Hk. unfold stac_to_geocroissant. cbn [fst].
  cbn [In] in Hk.
  repeat (destruct Hk as [<-|Hk];
          [now rewrite set_live_get, set_crs_get, set_keywords_get,
             set_file_set_get, set_distribution_get, set_default_date_get,
             set_temporal_get, set_spatial_get, set_references_get,
             set_url_get, set_creator_get, set_sci_citation_get,
             set_cite_as_get by discriminate|]).
  contradiction.
Qed.

Lemma nonempty_length (s : string) :
  nonempty s = negb (Nat.eqb (String.length s) 0).
Proof. now destruct s. Qed.

Lemma sanitize_name_nonempty (s : string) :
  nonempty (sanitize_name s) = nonempty s.
Proof. unfold sanitize_name. now destruct s. Qed.

Lemma or_else_nonempty (o : option string) (y : string) :
  nonempty y = true -> nonempty (or_else o y) = true.
Proof.
  intros Hy. unfold or_else. destruct o as [s|]; [|assumption].
  destruct (nonempty s) eqn:E; assumption.
Qed.

Lemma dataset_name_nonempty d :
  is_item d = true \/ s_title d <> Some EmptyString ->
  nonempty (dataset_name d) = true.
Proof.
  intros H. unfold dataset_name. destruct (is_item d).
  - rewrite sanitize_name_nonempty. now apply or_else_nonempty.
  - destruct H as [H|H]; [discriminate|].
    rewrite sanitize_name_nonempty. destruct (s_title d) as [t|].
    + destruct t; [contradiction|reflexivity].
    + now apply or_else_nonempty.
Qed.

End StacOutput.

(** X3.  The dataset name written by the STAC converter is made of letters,
    digits, "_" and "-" only, and it is never empty, except for a document
    that is not an item and whose title is the empty string: an item is
    named after its id, or "UnnamedItem"; a collection after its title, else
    its id, else "UnnamedDataset". *)
Theorem stac_name_sanitized {num} {N : PyNumber num}
    (now : datetime) (d : stac_doc num) :
  exists name,
    dict_get "name" (fst (stac_to_geocroissant now d)) = Some (VStr name)
    /\ all_chars name_char_ok name = true
    /\ (is_item d = true \/ s_title d <> Some EmptyString ->
        nonempty name = true)
    /\ (is_item d = true -> s_id d = None -> name = "UnnamedItem")
    /\ (is_item d = false -> s_title d = None -> s_id d = None ->
        name = "UnnamedDataset").
Proof.
  exists (dataset_name d). split; [|split; [|split; [|split]]].
  - rewrite stac_header_get by (cbn; auto). reflexivity.
  - unfold dataset_name. destruct (is_item d); apply sanitize_name_ok.
  - apply dataset_name_nonempty.
  - intros Hi Hid. unfold dataset_name. now rewrite Hi, Hid.
  - intros Hi Ht Hid. unfold dataset_name. now rewrite Hi, Ht, Hid.
Qed.

Lemma stac_name_sanitized_witness :
  exists name,
    dict_get "name"
      (fst (stac_to_geocroissant run_2024 (item_doc dated [] None)))
    = Some (VStr name)
    /\ nonempty name = true.
Proof.
  destruct (stac_name_sanitized run_2024 (item_doc dated [] None))
    as (name & Hget & _ & Hne & _).
  exists name. split; [exact Hget|]. apply Hne. left. reflexivity.
Defined.

(** ** The publication date *)

Section DatePublished.
Context {num : Type} {N : PyNumber num}.
Implicit Types (c : dict num) (k : string) (d : stac_doc num) (now : datetime).

(** The dictionary as it is when the temporal block starts. *)
Lemma before_temporal_get k now d :
  k <> "citeAs" -> k <> "citation" -> k <> "creator" -> k <> "url" ->
  k <> "references" -> k <> "spatialCoverage" ->
  dict_get k
    (set_spatial d
       (set_references d
          (set_url d
             (set_creator d
                (set_sci_citation d (set_cite_as now d (header d)))))))
  = dict_get k (header d).
Proof.
  intros. now rewrite set_spatial_get, set_references_get, set_url_get,
    set_creator_get, set_sci_citation_get, set_cite_as_get by assumption.
Qed.

Lemma stac_date_published now d :
  dict_get "datePublished" (fst (stac_to_geocroissant now d))
  = dict_get "datePublished"
      (set_default_date now
         (set_temporal d
            (set_spatial d
               (set_references d
                  (set_url d
                     (set_creator d
                        (set_sci_citation d (set_cite_as now d (header d))))))))).
Proof.
  unfold stac_to_geocroissant. cbn [fst].
  now rewrite set_live_get, set_crs_get, set_keywords_get, set_file_set_get,
    set_distribution_get by discriminate.
Qed.

Lemma set_temporal_no_date d c :
  has_date d = false -> set_temporal d c = c.
Proof.
  unfold has_date, set_temporal. destruct (is_item d).
  - destruct (s_properties d) as [props|]; [|reflexivity]. cbn [default].
    destruct (truthy (start_datetime props) && truthy (end_datetime props));
      [discriminate|].
    destruct (truthy (datetime_val props)); [discriminate|].
    destruct (created_datetime props); [discriminate|reflexivity].
  - destruct (s_extent_interval d) as [[|[start end_] rest]|]; try reflexivity.
    intros ->. cbn [andb]. reflexivity.
Qed.

Lemma set_temporal_date d c :
  dict_get "datePublished" c = None -> has_date d = true ->
  exists s, dict_get "datePublished" (set_temporal d c) = Some (VStr s).
Proof.
  intros Hc. unfold has_date, set_temporal. destruct (is_item d).
  - destruct (s_properties d) as [props|]; [|discriminate]. cbn [default].
    destruct (truthy (start_datetime props) && truthy (end_datetime props)).
    + intros _. destruct (created_datetime props);
        rewrite ?dict_has_set_eq; cbn [negb]; rewrite dict_get_set_eq; eauto.
    + destruct (truthy (datetime_val props)).
      * intros _. destruct (created_datetime props);
          rewrite ?dict_has_set_eq; cbn [negb]; rewrite dict_get_set_eq; eauto.
      * cbn [orb]. destruct (created_datetime props) as [cd|]; [|discriminate].
        intros _. unfold dict_has. rewrite Hc. cbn [negb].
        rewrite dict_get_set_eq. eauto.
  - destruct (s_extent_interval d) as [[|[start end_] rest]|]; try discriminate.
    intros ->. rewrite dict_get_set_eq. eauto.
Qed.

End DatePublished.

(** X4.  Every document produced by the STAC converter has a datePublished
    string.  When no field of the source gives a date, it is the date of the
    run (the clock's ISO form up to the "T"); for an item with a start and an
    end it is the start up to its first "T". *)
Theorem stac_date_published_present {num} {N : PyNumber num}
    (now : datetime) (d : stac_doc num) :
  (exists s,
      dict_get "datePublished" (fst (stac_to_geocroissant now d)) = Some (VStr s))
  /\ (has_date d = false ->
      dict_get "datePublished" (fst (stac_to_geocroissant now d))
      = Some (VStr (date_part (isoformat now))))
  /\ (forall props s e,
      is_item d = true -> s_properties d = Some props ->
      start_datetime props = Some s -> end_datetime props = Some e ->
      nonempty s = true -> nonempty e = true ->
      dict_get "datePublished" (fst (stac_to_geocroissant now d))
      = Some (VStr (date_part s))).
Proof.
  assert (Hnone : dict_get "datePublished"
            (set_spatial d (set_references d (set_url d (set_creator d
               (set_sci_citation d (set_cite_as now d (header d))))))) = None).
  { now rewrite before_temporal_get by discriminate. }
  assert (Hno : has_date d = false ->
            dict_get "datePublished" (fst (stac_to_geocroissant now d))
            = Some (VStr (date_part (isoformat now)))).
  { intros Hd. rewrite stac_date_published, (set_temporal_no_date d _ Hd).
    unfold set_default_date, dict_has. rewrite Hnone. cbn [negb].
    apply dict_get_set_eq. }
  split; [|split; [exact Hno|]].
  - destruct (has_date d) eqn:Hd; [|eauto].
    rewrite stac_date_published.
    rewrite set_default_date_id by now apply has_date_published.
    now apply set_temporal_date.
  - intros props s e Hi Hp Hs He Hns Hne.
    rewrite stac_date_published.
    assert (Hd : has_date d = true).
    { unfold has_date. rewrite Hi, Hp, Hs, He. cbn [truthy].
      now rewrite Hns, Hne. }
    rewrite set_default_date_id by now apply has_date_published.
    unfold set_temporal. rewrite Hi, Hp. cbn [default]. rewrite Hs, He.
    cbn [truthy val default]. rewrite Hns, Hne. cbn [andb].
    destruct (created_datetime props); rewrite ?dict_has_set_eq; cbn [negb];
      apply dict_get_set_eq.
Qed.

Lemma stac_date_published_present_witness :
  dict_get "datePublished"
    (fst (stac_to_geocroissant run_2024 (item_doc no_properties [] None)))
  = Some (VStr "2024-03-07")
  /\ dict_get "datePublished"
       (fst (stac_to_geocroissant run_2024 (item_doc reversed_range [] None)))
     = Some (VStr "2021-01-01").
Proof.
  split.
  - exact (proj1 (proj2 (stac_date_published_present run_2024
                            (item_doc no_properties [] None))) eq_refl).
  - exact (proj2 (proj2 (stac_date_published_present run_2024
                            (item_doc reversed_range [] None)))
             reversed_range _ _ eq_refl eq_refl eq_refl eq_refl eq_refl eq_refl).
Defined.

(** ** Distribution entries, field by field *)

Section Entries.
Context {num : Type} {N : PyNumber num}.
Implicit Types (d : stac_doc num) (a : asset num) (key : string).

Lemma asset_entry_fields key a :
  let fo := fst (asset_entry key a) in
  dict_get "@type" fo = Some (VStr "cr:FileObject")
  /\ dict_get "@id" fo = Some (VStr key)
  /\ dict_get "name" fo = Some (VStr key)
  /\ dict_get "contentUrl" fo = Some (vopt (a_href a))
  /\ dict_get "encodingFormat" fo
     = Some (VStr (default "application/octet-stream" (a_type a))).
Proof.
  unfold asset_entry, file_object_of, asset_bands.
  destruct (a_checksum_multihash a), (a_file_checksum a), (a_checksum_md5 a),
    (a_bands a) as [[|b bs]|]; repeat split.
Qed.

Lemma asset_entry_checksums key a :
  let fo := fst (asset_entry key a) in
  dict_get "sha256" fo
  = match a_checksum_multihash a, a_file_checksum a, a_checksum_md5 a with
    | Some h, _, _ => Some (VStr h)
    | None, Some h, _ => Some (VStr h)
    | None, None, Some _ => None
    | None, None, None => Some (VStr placeholder_checksum)
    end
  /\ dict_get "md5" fo = option_map VStr (a_checksum_md5 a).
Proof.
  unfold asset_entry, file_object_of, asset_bands.
  destruct (a_checksum_multihash a), (a_file_checksum a), (a_checksum_md5 a),
    (a_bands a) as [[|b bs]|]; split; reflexivity.
Qed.

Lemma asset_entry_bands key a :
  dict_get "geocr:bandConfiguration" (fst (asset_entry key a))
  = match asset_bands a with
    | [] => None
    | bands => Some (band_config bands)
    end.
Proof.
  unfold asset_entry, file_object_of, asset_bands.
  destruct (a_checksum_multihash a), (a_file_checksum a), (a_checksum_md5 a),
    (a_bands a) as [[|b bs]|]; reflexivity.
Qed.

Lemma distribution_entries_nth d i key a :
  nth_error (assets_of d) i = Some (key, a) ->
  nth_error (distribution_entries d) i = Some (VDict (fst (asset_entry key a))).
Proof. intros H. unfold distribution_entries. now rewrite nth_error_map, H. Qed.

End Entries.

(** X5.  The distribution written by the STAC converter has one FileObject
    per asset, in the order of the assets.  The FileObject of an asset has
    the asset's key as @id and as name, its href as contentUrl (null when
    there is none) and its type as encodingFormat, or
    application/octet-stream when it has no type.  Its sha256 is the asset's
    checksum:multihash, or else its file:checksum; its md5 is the asset's
    checksum:md5; an asset that has only an md5 gets no sha256. *)
Theorem stac_distribution_mirrors_assets {num} {N : PyNumber num}
    (now : datetime) (d : stac_doc num) :
  exists dist,
    dict_get "distribution" (fst (stac_to_geocroissant now d)) = Some (VList dist)
    /\ List.length dist = List.length (assets_of d)
    /\ forall i key a,
        nth_error (assets_of d) i = Some (key, a) ->
        exists fo,
          nth_error dist i = Some (VDict fo)
          /\ dict_get "@type" fo = Some (VStr "cr:FileObject")
          /\ dict_get "@id" fo = Some (VStr key)
          /\ dict_get "name" fo = Some (VStr key)
          /\ dict_get "contentUrl" fo = Some (vopt (a_href a))
          /\ dict_get "encodingFormat" fo
             = Some (VStr (default "application/octet-stream" (a_type a)))
          /\ dict_get "sha256" fo
             = match a_checksum_multihash a, a_file_checksum a, a_checksum_md5 a with
               | Some h, _, _ => Some (VStr h)
               | None, Some h, _ => Some (VStr h)
               | None, None, Some _ => None
               | None, None, None => Some (VStr placeholder_checksum)
               end
          /\ dict_get "md5" fo = option_map VStr (a_checksum_md5 a).
Proof.
  exists (distribution_entries d). split; [apply stac_distribution|].
  split; [unfold distribution_entries; apply length_map|].
  intros i key a Hi. exists (fst (asset_entry key a)).
  split; [now apply distribution_entries_nth|].
  destruct (asset_entry_fields key a) as (H1 & H2 & H3 & H4 & H5).
  destruct (asset_entry_checksums key a) as (H6 & H7).
  repeat split; assumption.
Qed.

Lemma stac_distribution_mirrors_assets_witness :
  let d := item_doc dated [("B01", plain_asset); ("B02", hashed_asset)] None in
  exists dist fo,
    dict_get "distribution" (fst (stac_to_geocroissant run_2024 d)) = Some (VList dist)
    /\ nth_error dist 1 = Some (VDict fo)
    /\ dict_get "@id" fo = Some (VStr "B02")
    /\ dict_get "sha256" fo = None
    /\ dict_get "md5" fo = Some (VStr "9e107d9d372bb6826bd81d3542a419d6").
Proof.
  intros d.
  destruct (stac_distribution_mirrors_assets run_2024 d) as (dist & Hd & _ & H).
  destruct (H 1 "B02" hashed_asset eq_refl)
    as (fo & Hn & _ & Hid & _ & _ & _ & Hs & Hm).
  exists dist, fo. repeat split; assumption.
Defined.

(** X6.  A FileObject of the STAC converter has a band configuration
    exactly when its asset has a non-empty band list; the configuration's
    total is the number of bands of the asset and it lists as many names. *)
Theorem stac_band_configuration {num} {N : PyNumber num}
    (now : datetime) (d : stac_doc num) (i : nat) (key : string) (a : asset num) :
  nth_error (assets_of d) i = Some (key, a) ->
  exists fo,
    nth_error (distribution_entries d) i = Some (VDict fo)
    /\ dict_get "distribution" (fst (stac_to_geocroissant now d))
       = Some (VList (distribution_entries d))
    /\ (asset_bands a = [] -> dict_has "geocr:bandConfiguration" fo = false)
    /\ (asset_bands a <> [] ->
        exists names,
          dict_get "geocr:bandConfiguration" fo
          = Some (VDict [ ("@type", VStr "geocr:BandConfiguration");
                          ("geocr:totalBands", VInt (Z.of_nat (List.length names)));
                          ("geocr:bandNamesList", VList (map VStr names)) ])
          /\ List.length names = List.length (asset_bands a)).
Proof.
  intros Hi. exists (fst (asset_entry key a)).
  split; [now apply distribution_entries_nth|].
  split; [apply stac_distribution|]. split.
  - intros Hb. unfold dict_has. now rewrite asset_entry_bands, Hb.
  - intros Hb. exists (band_names_list (asset_bands a)).
    rewrite asset_entry_bands. unfold band_names_list.
    rewrite band_names_from_length. split; [|reflexivity].
    destruct (asset_bands a); [contradiction|reflexivity].
Qed.

(** ** Spatial resolution: the first ground sample distance wins *)

Section Resolution.
Context {num : Type} {N : PyNumber num}.
Implicit Types (c : dict num) (d : stac_doc num)
  (st : @loop_state num) (assets : list (string * asset num)).

Lemma fold_croissant_gsd assets st :
  dict_get "geocr:spatialResolution" (croissant (fold_left asset_step assets st))
  = match dict_get "geocr:spatialResolution" (croissant st) with
    | Some v => Some v
    | None => option_map quantity (first_gsd assets)
    end.
Proof.
  revert st. induction assets as [|[key a] assets IH]; intros st.
  - cbn [fold_left first_gsd option_map]. now destruct (dict_get _ _).
  - cbn [fold_left first_gsd]. rewrite IH. unfold asset_step.
    destruct (asset_entry key a) as [fo lines]. cbn [croissant].
    unfold dict_has.
    destruct (a_gsd a) as [g|].
    + destruct (dict_get "geocr:spatialResolution" (croissant st)) eqn:E;
        cbn [negb].
      * now rewrite E.
      * now rewrite dict_get_set_eq.
    + reflexivity.
Qed.

Lemma set_distribution_gsd d c :
  dict_get "geocr:spatialResolution" c = None ->
  dict_get "geocr:spatialResolution" (set_distribution d c)
  = option_map quantity (first_gsd (assets_of d)).
Proof.
  intros Hc. unfold set_distribution, asset_loop.
  rewrite dict_get_set_ne by discriminate.
  rewrite fold_croissant_gsd. cbn [croissant].
  rewrite dict_get_set_ne by discriminate. now rewrite Hc.
Qed.

Lemma set_crs_gsd d c :
  dict_get "geocr:spatialResolution" (set_crs d c)
  = match dict_get "geocr:spatialResolution" c with
    | Some v => Some v
    | None =>
        if is_item d then None
        else match sum_gsd (default no_summaries (s_summaries d)) with
             | Some (g :: _) => Some (quantity g)
             | _ => None
             end
    end.
Proof.
  unfold set_crs. destruct (is_item d).
  - destruct (proj_epsg _) as [e|];
      [rewrite dict_get_set_ne by discriminate; now destruct (dict_get _ c)|].
    destruct (proj_wkt2 _) as [w|]; [|now destruct (dict_get _ c)].
    destruct (extract_crs_from_wkt2 w) as [r|]; [|now destruct (dict_get _ c)].
    destruct (nonempty r); [|now destruct (dict_get _ c)].
    rewrite dict_get_set_ne by discriminate. now destruct (dict_get _ c).
  - set (c' := match sum_proj_epsg _ with Some (e :: _) => _ | _ => c end).
    assert (Hc' : dict_get "geocr:spatialResolution" c'
                  = dict_get "geocr:spatialResolution" c).
    { unfold c'. destruct (sum_proj_epsg _) as [[|e l]|]; try reflexivity.
      now rewrite dict_get_set_ne by discriminate. }
    unfold dict_has. rewrite <- Hc'.
    destruct (sum_gsd _) as [[|g l]|]; try now destruct (dict_get _ c').
    destruct (dict_get "geocr:spatialResolution" c') eqn:E; cbn [negb].
    + exact E.
    + apply dict_get_set_eq.
Qed.

End Resolution.

(** X7.  The spatial resolution written by the STAC converter is the gsd of
    the first asset that has one, with unit "m": the gsd of a later asset
    never replaces it.  When no asset has a gsd, a document that is not an
    item gets the first gsd of its summaries, if there is one; otherwise the
    key is absent. *)
Theorem stac_first_gsd_wins {num} {N : PyNumber num}
    (now : datetime) (d : stac_doc num) :
  dict_get "geocr:spatialResolution" (fst (stac_to_geocroissant now d))
  = match first_gsd (assets_of d) with
    | Some g =>
        Some (VDict [ ("@type", VStr "QuantitativeValue");
                      ("value", VNum g); ("unitText", VStr "m") ])
    | None =>
        if is_item d then None
        else match sum_gsd (default no_summaries (s_summaries d)) with
             | Some (g :: _) =>
                 Some (VDict [ ("@type", VStr "QuantitativeValue");
                               ("value", VNum g); ("unitText", VStr "m") ])
             | _ => None
             end
    end.
Proof.
  unfold stac_to_geocroissant. cbn [fst].
  rewrite set_live_get by discriminate.
  rewrite set_crs_gsd.
  rewrite set_keywords_get, set_file_set_get by discriminate.
  rewrite set_distribution_gsd.
  - destruct (first_gsd (assets_of d)); reflexivity.
  - now rewrite set_default_date_get, set_temporal_get, before_temporal_get
      by discriminate.
Qed.

Lemma stac_band_configuration_witness :
  let d := item_doc dated [("B01", plain_asset); ("SR", banded_asset)] None in
  exists fo names,
    nth_error (distribution_entries d) 1 = Some (VDict fo)
    /\ dict_get "geocr:bandConfiguration" fo
       = Some (VDict [ ("@type", VStr "geocr:BandConfiguration");
                       ("geocr:totalBands", VInt (Z.of_nat (List.length names)));
                       ("geocr:bandNamesList", VList (map VStr names)) ])
    /\ List.length names = 3.
Proof.
  intros d.
  destruct (stac_band_configuration run_2024 d 1 "SR" banded_asset eq_refl)
    as (fo & Hn & _ & _ & Hb).
  destruct Hb as (names & Hc & Hl); [discriminate|].
  now exists fo, names.
Defined.

(** ** Absent spatial extent *)

Section AbsentExtent.
Context {num : Type} {N : PyNumber num}.
Implicit Types (c : dict num) (d : stac_doc num).

Lemma set_spatial_absent d c :
  (forall b, select_bbox d = Some b -> List.length b < 4) ->
  set_spatial d c = c.
Proof.
  intros H. unfold set_spatial.
  destruct (select_bbox d) as [[|b0 [|b1 [|b2 [|b3 l]]]]|]; try reflexivity.
  specialize (H _ eq_refl). cbn in H. lia.
Qed.

End AbsentExtent.

(** X8.  A STAC document without a bounding box of at least four numbers
    gets no spatialCoverage: the STAC converter never invents an extent.
    Converted back by the GeoCroissant-to-STAC converter, such a record gets
    the whole-Earth bbox [-180, -90, 180, 90] and its polygon. *)
Theorem absent_bbox_becomes_global {num} {N : PyNumber num}
    (now : datetime) (d : stac_doc num) :
  (forall b, select_bbox d = Some b -> List.length b < 4) ->
  dict_get "spatialCoverage" (fst (stac_to_geocroissant now d)) = None
  /\ GeoCroissantToStac.bbox_and_geometry (fst (stac_to_geocroissant now d))
     = Ok ([VInt (-180); VInt (-90); VInt 180; VInt 90],
           GeoCroissantToStac.polygon (VInt (-180)) (VInt (-90)) (VInt 180) (VInt 90)).
Proof.
  intros H.
  assert (Hsc : dict_get "spatialCoverage" (fst (stac_to_geocroissant now d)) = None).
  { rewrite stac_spatial_coverage, (set_spatial_absent d _ H).
    now rewrite set_references_get, set_url_get, set_creator_get,
      set_sci_citation_get, set_cite_as_get by discriminate. }
  split; [exact Hsc|].
  unfold GeoCroissantToStac.bbox_and_geometry, GeoCroissantToStac.bbox_string.
  now rewrite Hsc.
Qed.

Lemma absent_bbox_becomes_global_witness :
  dict_get "spatialCoverage" (fst (stac_to_geocroissant run_2024 open_collection))
  = None
  /\ GeoCroissantToStac.bbox_and_geometry
       (fst (stac_to_geocroissant run_2024 open_collection))
     = Ok ([VInt (-180); VInt (-90); VInt 180; VInt 90],
           GeoCroissantToStac.polygon (VInt (-180)) (VInt (-90)) (VInt 180) (VInt 90)).
Proof.
  apply (absent_bbox_becomes_global run_2024 open_collection).
  intros b Hb. discriminate Hb.
Defined.

(** ** References and the self link *)

Section References.
Context {num : Type} {N : PyNumber num}.
Implicit Types (c : dict num) (d : stac_doc num) (links : list link).

Lemma reference_of_kept (l : link) :
  @reference_of num l = [] /\ is_reference l = false
  \/ (exists r, @reference_of num l = [VDict r]
                /\ dict_get "url" r = Some (vopt (l_href l))
                /\ dict_get "encodingFormat" r
                   = Some (VStr (default "application/json" (l_type l))))
     /\ is_reference l = true.
Proof.
  unfold reference_of, is_reference.
  destruct (truthy (l_href l)); cbn [negb orb andb]; [|now left].
  destruct (rel_is "self" l); cbn [negb]; [now left|].
  right. split; [|reflexivity]. eexists. repeat split.
Qed.

Lemma references_filter links :
  @flat_map _ (pyval num) reference_of links
  = flat_map reference_of (filter is_reference links)
  /\ List.length (@flat_map _ (pyval num) reference_of links)
     = List.length (filter is_reference links).
Proof.
  induction links as [|l links [IH1 IH2]]; [now split|].
  cbn [flat_map filter].
  destruct (reference_of_kept l) as [[Hr Hk]|[(r & Hr & _) Hk]];
    rewrite Hk, Hr.
  - cbn [app]. now split.
  - cbn [flat_map app List.length]. rewrite Hr. cbn [app].
    split; congruence.
Qed.

Lemma references_nth links (i : nat) (l : link) :
  nth_error (filter is_reference links) i = Some l ->
  exists r,
    nth_error (@flat_map _ (pyval num) reference_of links) i = Some (VDict r)
    /\ dict_get "url" r = Some (vopt (l_href l))
    /\ dict_get "encodingFormat" r
       = Some (VStr (default "application/json" (l_type l))).
Proof.
  revert i. induction links as [|l0 links IH]; intros i Hi.
  - destruct i; discriminate.
  - cbn [flat_map filter] in *.
    destruct (reference_of_kept l0) as [[Hr Hk]|[(r & Hr & Hu & He) Hk]];
      rewrite Hk in Hi; rewrite Hr; cbn [app].
    + now apply IH.
    + destruct i as [|i]; cbn [nth_error] in *.
      * injection Hi as <-. now exists r.
      * now apply IH.
Qed.

Lemma stac_references now d :
  dict_get "references" (fst (stac_to_geocroissant now d))
  = dict_get "references"
      (set_references d
         (set_url d
            (set_creator d
               (set_sci_citation d (set_cite_as now d (header d)))))).
Proof.
  unfold stac_to_geocroissant. cbn [fst].
  now rewrite set_live_get, set_crs_get, set_keywords_get, set_file_set_get,
    set_distribution_get, set_default_date_get, set_temporal_get,
    set_spatial_get by discriminate.
Qed.

End References.

(** X9.  The references written by the STAC converter are made from the
    links that have a non-empty href and are not the self link, one
    reference per such link and in their order; each has the link's href as
    url and the link's type, or application/json, as encodingFormat.  When no
    link qualifies there is no references key: an empty list is never
    written. *)
Theorem stac_references_skip_self {num} {N : PyNumber num}
    (now : datetime) (d : stac_doc num) :
  let kept := filter is_reference (default [] (s_links d)) in
  (kept = [] ->
   dict_get "references" (fst (stac_to_geocroissant now d)) = None)
  /\ (kept <> [] ->
      exists refs,
        dict_get "references" (fst (stac_to_geocroissant now d)) = Some (VList refs)
        /\ List.length refs = List.length kept
        /\ forall i l,
            nth_error kept i = Some l ->
            exists r,
              nth_error refs i = Some (VDict r)
              /\ dict_get "url" r = Some (vopt (l_href l))
              /\ dict_get "encodingFormat" r
                 = Some (VStr (default "application/json" (l_type l)))).
Proof.
  intros kept. rewrite stac_references. unfold set_references.
  destruct (@references_filter num (default [] (s_links d))) as [Hf Hl].
  fold kept in Hf, Hl. split.
  - intros Hk. rewrite Hf, Hk. cbn [flat_map].
    now rewrite set_url_get, set_creator_get, set_sci_citation_get,
      set_cite_as_get by discriminate.
  - intros Hk.
    destruct (flat_map reference_of (default [] (s_links d))) as [|r0 refs] eqn:E.
    + cbn in Hl. destruct kept; [contradiction|discriminate].
    + exists (r0 :: refs). rewrite dict_get_set_eq. split; [reflexivity|].
      split; [exact Hl|].
      intros i l Hi. rewrite <- E. now apply references_nth.
Qed.

Lemma stac_references_skip_self_witness :
  exists refs r,
    dict_get "references" (fst (stac_to_geocroissant run_2024 open_collection))
    = Some (VList refs)
    /\ List.length refs = 1
    /\ nth_error refs 0 = Some (VDict r)
    /\ dict_get "url" r = Some (VStr "https://stac.example/").
Proof.
  destruct (proj2 (stac_references_skip_self run_2024 open_collection))
    as (refs & Hget & Hlen & Hnth); [discriminate|].
  destruct (Hnth 0 {| l_rel := Some "root"; l_href := Some "https://stac.example/";
                      l_type := None |} eq_refl) as (r & Hr & Hu & _).
  now exists refs, r.
Defined.

(** ** The coordinate reference system written by the STAC converter *)

Lemma extract_crs_nonempty (s r : string) :
  extract_crs_from_wkt2 s = Some r -> nonempty r = true.
Proof.
  destruct (contains "PROJCS" s || contains "PROJECTION" s) eqn:Hp.
  - rewrite (projected_label s Hp).
    destruct (contains "Albers" s);
      [|destruct (contains "UTM" s); [destruct (search_utm_zone s)|]];
      intros E; injection E as <-; reflexivity.
  - rewrite (geographic_result s Hp).
    destruct (search_epsg s) as [c|]; [|discriminate].
    destruct (in_list c unit_codes); [discriminate|].
    intros E. injection E as <-. reflexivity.
Qed.

(** X10.  The STAC converter writes the coordinate reference system of an
    item as "EPSG:" followed by proj:epsg whenever the item has that
    property, whatever its proj:wkt2 says; without proj:epsg it writes what
    the extraction from proj:wkt2 gives, and no key at all when that gives
    nothing.  For a document that is not an item it writes "EPSG:" followed
    by the first proj:epsg of the summaries, if any. *)
Theorem stac_crs_precedence {num} {N : PyNumber num}
    (now : datetime) (d : stac_doc num) :
  dict_get "geocr:coordinateReferenceSystem" (fst (stac_to_geocroissant now d))
  = if is_item d then
      match proj_epsg (default no_properties (s_properties d)),
            proj_wkt2 (default no_properties (s_properties d)) with
      | Some e, _ => Some (VStr ("EPSG:" ++ num_str e))
      | None, Some w => option_map VStr (extract_crs_from_wkt2 w)
      | None, None => None
      end
    else
      match sum_proj_epsg (default no_summaries (s_summaries d)) with
      | Some (e :: _) => Some (VStr ("EPSG:" ++ num_str e))
      | _ => None
      end.
Proof.
  unfold stac_to_geocroissant. cbn [fst].
  rewrite set_live_get by discriminate.
  match goal with
  | |- dict_get _ (set_crs d ?c) = _ =>
      assert (Hc : dict_get "geocr:coordinateReferenceSystem" c = None)
        by (now rewrite set_keywords_get, set_file_set_get, set_distribution_get,
              set_default_date_get, set_temporal_get, before_temporal_get
              by discriminate);
      generalize dependent c
  end.
  intros c Hc.
  unfold set_crs, crs_key. destruct (is_item d).
  - destruct (proj_epsg _) as [e|]; [apply dict_get_set_eq|].
    destruct (proj_wkt2 _) as [w|]; [|exact Hc].
    destruct (extract_crs_from_wkt2 w) as [r|] eqn:E; [|exact Hc].
    rewrite (extract_crs_nonempty w r E). apply dict_get_set_eq.
  - destruct (sum_gsd _) as [[|g l]|];
      try destruct (negb _);
      rewrite ?dict_get_set_ne by discriminate;
      destruct (sum_proj_epsg _) as [[|e l']|];
      rewrite ?dict_get_set_eq; auto.
Qed.

(** ** Reading a box and a temporal coverage back: edge cases *)

Lemma split_char_length (c : ascii) (s : string) :
  List.length (split_char c s) = S (count_char c s).
Proof.
  induction s as [|a s IH]; [reflexivity|].
  cbn [split_char count_char]. destruct (Ascii.eqb a c).
  - cbn [List.length]. now rewrite IH.
  - pose proof (split_char_nonempty c s) as Hn.
    destruct (split_char c s) as [|p rest]; [contradiction|].
    cbn [List.length] in *. now rewrite IH.
Qed.

Lemma contains_char_count (c : ascii) (s : string) :
  contains (String c EmptyString) s = negb (Nat.eqb (count_char c s) 0).
Proof.
  induction s as [|a s IH]; [reflexivity|].
  cbn [contains count_char prefix]. rewrite IH.
  destruct (ascii_dec c a) as [->|Hne].
  - rewrite Ascii.eqb_refl. now destruct s.
  - assert (E : Ascii.eqb a c = false) by (apply Ascii.eqb_neq; congruence).
    now rewrite E.
Qed.

Section ReadBack.
Import GeoCroissantToStac.
Context {num : Type} {N : PyNumber num}.

Lemma floats_length (tokens : list string) (xs : list num) :
  floats tokens = Some xs -> List.length xs = List.length tokens.
Proof.
  revert xs. induction tokens as [|t tokens IH]; intros xs; cbn [floats].
  - intros H. now injection H as <-.
  - destruct (num_float t); [|discriminate].
    destruct (floats tokens) as [ys|]; [|discriminate].
    intros H. injection H as <-. cbn [List.length]. now rewrite (IH ys).
Qed.

Lemma bbox_of_box_count (box : string) :
  List.length (split_ws box) <> 4 -> bbox_of_box box = Raise "ValueError".
Proof.
  intros H. unfold bbox_of_box.
  destruct (floats (split_ws box)) as [xs|] eqn:E; [|reflexivity].
  apply floats_length in E.
  destruct xs as [|s [|w [|n [|e [|x xs]]]]]; try reflexivity.
  cbn in E. congruence.
Qed.

End ReadBack.

(** X11.  In the GeoCroissant-to-STAC converter, a record without
    spatialCoverage, with a spatialCoverage or geo that is not a dictionary,
    without a box or with an empty box gets the whole-Earth bbox
    [-180, -90, 180, 90].  A non-empty box that does not split into exactly
    four pieces raises ValueError, as does a piece that is not a number, and
    a box that is true as a condition but not a string (a number, a
    non-empty list) raises AttributeError: there is no default in these
    cases. *)
Theorem stac_bbox_defaults_and_errors {num} {N : PyNumber num}
    (g : dict num) :
  (dict_get "spatialCoverage" g = None ->
   GeoCroissantToStac.bbox_and_geometry g = Ok GeoCroissantToStac.global_extent)
  /\ (forall v,
      dict_get "spatialCoverage" g = Some v -> (forall sc, v <> VDict sc) ->
      GeoCroissantToStac.bbox_and_geometry g = Ok GeoCroissantToStac.global_extent)
  /\ (GeoCroissantToStac.bbox_string g = Some (VStr EmptyString) ->
      GeoCroissantToStac.bbox_and_geometry g = Ok GeoCroissantToStac.global_extent)
  /\ (forall box,
      GeoCroissantToStac.bbox_string g = Some (VStr box) -> nonempty box = true ->
      List.length (split_ws box) <> 4
      \/ GeoCroissantToStac.floats (split_ws box) = None ->
      GeoCroissantToStac.bbox_and_geometry g = Raise "ValueError")
  /\ (forall v,
      GeoCroissantToStac.bbox_string g = Some v -> py_bool v = true ->
      (forall box, v <> VStr box) ->
      GeoCroissantToStac.bbox_and_geometry g = Raise "AttributeError").
Proof.
  unfold GeoCroissantToStac.bbox_and_geometry.
  split; [|split; [|split; [|split]]].
  - intros H. unfold GeoCroissantToStac.bbox_string. now rewrite H.
  - intros v H Hv. unfold GeoCroissantToStac.bbox_string. rewrite H.
    destruct v; try reflexivity. now contradiction (Hv d).
  - intros H. now rewrite H.
  - intros box H Hn Hbad. rewrite H. cbn [py_bool]. rewrite Hn.
    destruct Hbad as [Hc|Hf]; [now apply bbox_of_box_count|].
    unfold GeoCroissantToStac.bbox_of_box. now rewrite Hf.
  - intros v H Hv Hs. rewrite H, Hv. destruct v; try reflexivity.
    now destruct (Hs s).
Qed.

Lemma stac_bbox_defaults_and_errors_witness :
  @GeoCroissantToStac.bbox_and_geometry Z _
    [("name", VStr "cube"); ("spatialCoverage", VStr "global")]
  = Ok GeoCroissantToStac.global_extent
  /\ @GeoCroissantToStac.bbox_and_geometry Z _
       [("spatialCoverage",
         VDict [("geo", VDict [("box", VStr "10 20 30")])])]
     = Raise "ValueError".
Proof.
  split.
  - apply (proj1 (proj2 (stac_bbox_defaults_and_errors _)) (VStr "global"));
      [reflexivity|discriminate].
  - apply (proj1 (proj2 (proj2 (proj2 (stac_bbox_defaults_and_errors _))))
             "10 20 30"); [reflexivity|reflexivity|].
    left. discriminate.
Defined.

Lemma free_of_count (c : ascii) (s : string) :
  free_of c s = true <-> count_char c s = 0.
Proof.
  unfold free_of. induction s as [|a s IH]; [now split|].
  cbn [all_chars count_char]. destruct (Ascii.eqb a c); cbn [negb andb].
  - split; [discriminate|intros H; discriminate H].
  - exact IH.
Qed.

Lemma count_nonempty (c : ascii) (s : string) :
  0 < count_char c s -> nonempty s = true.
Proof. destruct s; [cbn; lia|reflexivity]. Qed.

Lemma split_char_many (c : ascii) (s : string) :
  2 <= count_char c s ->
  exists p q r rest, split_char c s = p :: q :: r :: rest.
Proof.
  intros H. pose proof (split_char_length c s) as Hl.
  destruct (split_char c s) as [|p [|q [|r rest]]]; cbn in Hl; try lia.
  now exists p, q, r, rest.
Qed.

Lemma period_of_range (a b : string) :
  free_of "/" a = true -> free_of "/" b = true ->
  GeoDcat.period (a ++ "/" ++ b) = Ok (Some (a, b)).
Proof.
  intros Ha Hb. unfold GeoDcat.period. rewrite (contains_app "/" a b).
  change (a ++ "/" ++ b) with (a ++ String "/" b).
  now rewrite (split_char_app "/" a b Ha), (split_char_single "/" b Hb).
Qed.

Lemma parse_temporal_no_slash {dt} {D : GeoCroissantToStac.PyDatetime dt}
    (now : dt) (tc : string) :
  count_char "/" tc = 0 ->
  GeoCroissantToStac.parse_temporal now (Some tc)
  = Ok {| GeoCroissantToStac.item_datetime := now;
          GeoCroissantToStac.start_end := None |}.
Proof.
  intros H. unfold GeoCroissantToStac.parse_temporal.
  rewrite (contains_char_count "/" tc), H. cbn [Nat.eqb negb].
  now rewrite andb_false_r.
Qed.

(** X12.  A temporal coverage is a range only when it has exactly one "/".
    Without any "/", the GeoCroissant-to-STAC converter gives the item the
    clock reading of the run as datetime and no start and end, and the
    GeoDCAT converter adds no period.  With two or more "/", both converters
    raise ValueError.  With one "/", the GeoDCAT period has the two halves as
    they are written, as start and end. *)
Theorem temporal_coverage_slashes {dt} {D : GeoCroissantToStac.PyDatetime dt}
    (now : dt) (tc : string) :
  (count_char "/" tc = 0 ->
   GeoCroissantToStac.parse_temporal now (Some tc)
   = Ok {| GeoCroissantToStac.item_datetime := now;
           GeoCroissantToStac.start_end := None |}
   /\ GeoDcat.period tc = Ok None)
  /\ (2 <= count_char "/" tc ->
      GeoCroissantToStac.parse_temporal now (Some tc) = Raise "ValueError"
      /\ GeoDcat.period tc = Raise "ValueError")
  /\ (forall a b,
      free_of "/" a = true -> free_of "/" b = true -> tc = a ++ "/" ++ b ->
      GeoDcat.period tc = Ok (Some (a, b))).
Proof.
  unfold GeoCroissantToStac.parse_temporal, GeoDcat.period.
  rewrite (contains_char_count "/" tc).
  split; [|split].
  - intros H. rewrite H. cbn [Nat.eqb negb]. now rewrite andb_false_r.
  - intros H. rewrite (count_nonempty "/" tc) by lia.
    destruct (split_char_many "/" tc H) as (p & q & r & rest & ->).
    destruct (count_char "/" tc); [lia|]. split; reflexivity.
  - intros a b Ha Hb ->.
    pose proof (period_of_range a b Ha Hb) as H.
    unfold GeoDcat.period in H. now rewrite (contains_char_count "/") in H.
Qed.

Lemma temporal_coverage_slashes_witness :
  GeoDcat.period "2015-01-01" = Ok None
  /\ GeoDcat.period "2015-01-01/2022-01-01/P1M" = Raise "ValueError"
  /\ GeoDcat.period ("2015-01-01" ++ "/" ++ "2022-01-01")
     = Ok (Some ("2015-01-01", "2022-01-01")).
Proof.
  pose (D := {| GeoCroissantToStac.fromisoformat := fun _ : string => @None unit;
                GeoCroissantToStac.dt_isoformat := fun _ => EmptyString;
                GeoCroissantToStac.dt_midpoint := fun a _ => a |}).
  split; [|split].
  - apply (proj1 (@temporal_coverage_slashes unit D tt "2015-01-01")).
    reflexivity.
  - apply (proj1 (proj2 (@temporal_coverage_slashes unit D tt
                            "2015-01-01/2022-01-01/P1M"))).
    cbn. lia.
  - apply (proj2 (proj2 (@temporal_coverage_slashes unit D tt
                            ("2015-01-01" ++ "/" ++ "2022-01-01"))));
      reflexivity.
Defined.

(** X13.  An open-ended interval does not survive the way there and back.
    For a STAC collection whose first interval has a start without "/" and
    no end, the STAC converter writes the start alone as temporalCoverage;
    the GeoCroissant-to-STAC converter, reading that coverage, finds no
    range: the item's datetime is the clock reading of that run and it has
    no start_datetime or end_datetime. *)
Theorem open_interval_loses_start {num} {N : PyNumber num}
    (now : datetime) (d : stac_doc num) (s : string) (e : option string)
    (rest : list (option string * option string)) :
  is_item d = false ->
  s_extent_interval d = Some ((Some s, e) :: rest) ->
  truthy e = false -> nonempty s = true -> free_of "/" s = true ->
  dict_get "temporalCoverage" (fst (stac_to_geocroissant now d)) = Some (VStr s)
  /\ forall dt (D : GeoCroissantToStac.PyDatetime dt) (now' : dt),
      GeoCroissantToStac.parse_temporal now' (Some s)
      = Ok {| GeoCroissantToStac.item_datetime := now';
              GeoCroissantToStac.start_end := None |}.
Proof.
  intros Hi Hx He Hs Hf. split.
  - rewrite stac_temporal_coverage. unfold set_temporal. rewrite Hi, Hx.
    cbn [truthy val default]. rewrite He, Hs, andb_false_r.
    rewrite dict_get_set_ne by discriminate. apply dict_get_set_eq.
  - intros dt D now'.
    apply parse_temporal_no_slash. now apply free_of_count.
Qed.

Lemma open_interval_loses_start_witness :
  dict_get "temporalCoverage" (fst (stac_to_geocroissant run_2024 open_collection))
  = Some (VStr "2015-11-28T00:00:00Z")
  /\ forall dt (D : GeoCroissantToStac.PyDatetime dt) (now' : dt),
      GeoCroissantToStac.parse_temporal now' (Some "2015-11-28T00:00:00Z")
      = Ok {| GeoCroissantToStac.item_datetime := now';
              GeoCroissantToStac.start_end := None |}.
Proof.
  exact (open_interval_loses_start run_2024 open_collection
           "2015-11-28T00:00:00Z" None [] eq_refl eq_refl eq_refl eq_refl eq_refl).
Defined.

(* ===================================================================== *)
(** * Further properties: the NASA UMM-G converter *)
(* ===================================================================== *)

Lemma split_char_one (c : ascii) (s p : string) :
  split_char c s = [p] -> p = s.
Proof.
  revert p. induction s as [|a s IH]; intros p H; cbn [split_char] in H.
  - now injection H.
  - destruct (Ascii.eqb a c).
    + pose proof (split_char_nonempty c s) as Hn.
      destruct (split_char c s); [contradiction|discriminate].
    + pose proof (split_char_nonempty c s) as Hn.
      destruct (split_char c s) as [|q rest] eqn:E; [contradiction|].
      injection H as <- ->. now rewrite (IH q eq_refl).
Qed.

Lemma endswith_cons (suf : string) (a : ascii) (s : string) :
  endswith suf s = true -> endswith suf (String a s) = true.
Proof. intros H. cbn [endswith]. rewrite H. apply orb_true_r. Qed.

Lemma last_segment_suffix (c : ascii) (s : string) :
  endswith (last (split_char c s) EmptyString) s = true.
Proof.
  induction s as [|a s IH]; [reflexivity|].
  cbn [split_char]. pose proof (split_char_nonempty c s) as Hn.
  destruct (Ascii.eqb a c).
  - destruct (split_char c s) as [|q rest] eqn:E; [contradiction|].
    change (last (EmptyString :: q :: rest) EmptyString)
      with (last (q :: rest) EmptyString).
    now apply endswith_cons.
  - destruct (split_char c s) as [|q rest] eqn:E; [contradiction|].
    destruct rest as [|r rest].
    + cbn [last]. apply split_char_one in E. subst q. apply endswith_refl.
    + change (last (String a q :: r :: rest) EmptyString)
        with (last (q :: r :: rest) EmptyString).
      now apply endswith_cons.
Qed.

Lemma last_segment_free (c : ascii) (s : string) :
  free_of c (last (split_char c s) EmptyString) = true.
Proof.
  pose proof (split_char_free c s) as F.
  pose proof (split_char_nonempty c s) as Hn.
  induction F as [|p l Hp F IH]; [contradiction|].
  destruct l as [|q l]; [exact Hp|].
  change (last (p :: q :: l) EmptyString) with (last (q :: l) EmptyString).
  apply IH. discriminate.
Qed.

(** X14.  [add_distribution] of the NASA converter leaves the dataset as it
    is when there is no related URL; otherwise it sets "distribution" to
    one FileObject per related URL, in order.  The name of a FileObject is
    the part of the URL after its last "/" (it is never empty and never
    holds a "/"), or "data_file" when that part is empty;
    its description is never empty; its sha256 is the same fixed note for
    every URL; and it has no "@id". *)
Theorem nasa_distribution_entries {num}
    (related_urls : list NasaUmm.related_url) (dataset : dict num) :
  (related_urls = [] -> NasaUmm.add_distribution related_urls dataset = dataset)
  /\ (related_urls <> [] ->
      exists entries,
        dict_get "distribution" (NasaUmm.add_distribution related_urls dataset)
        = Some (VList entries)
        /\ List.length entries = List.length related_urls
        /\ forall i u,
            nth_error related_urls i = Some u ->
            exists fo name description,
              nth_error entries i = Some (VDict fo)
              /\ dict_get "name" fo = Some (VStr name)
              /\ nonempty name = true /\ free_of "/" name = true
              /\ (endswith name (NasaUmm.get_str (NasaUmm.URL u)) = true
                  \/ name = "data_file"
                     /\ NasaUmm.last_segment (NasaUmm.get_str (NasaUmm.URL u))
                        = EmptyString)
              /\ dict_get "contentUrl" fo = Some (VStr (NasaUmm.get_str (NasaUmm.URL u)))
              /\ dict_get "description" fo = Some (VStr description)
              /\ nonempty description = true
              /\ dict_get "sha256" fo = Some (VStr NasaUmm.sha256_note)
              /\ dict_get "@id" fo = None).
Proof.
  split.
  - now intros ->.
  - intros Hne.
    exists (map (fun u => VDict (NasaUmm.file_object u)) related_urls).
    split; [|split].
    + unfold NasaUmm.add_distribution.
      destruct related_urls; [contradiction|]. apply dict_get_set_eq.
    + apply length_map.
    + intros i u Hi.
      set (url := NasaUmm.get_str (NasaUmm.URL u)).
      exists (NasaUmm.file_object u).
      exists (if nonempty (NasaUmm.last_segment url)
              then NasaUmm.last_segment url else "data_file").
      exists (if nonempty (NasaUmm.get_str (NasaUmm.Description u))
              then NasaUmm.get_str (NasaUmm.Description u)
              else "Download " ++ NasaUmm.last_segment url).
      split; [now rewrite nth_error_map, Hi|].
      split; [reflexivity|].
      split; [destruct (nonempty (NasaUmm.last_segment url)) eqn:E;
              [exact E|reflexivity]|].
      split; [destruct (nonempty (NasaUmm.last_segment url));
              [apply last_segment_free|reflexivity]|].
      split.
      { destruct (nonempty (NasaUmm.last_segment url)) eqn:E.
        - left. apply last_segment_suffix.
        - right. split; [reflexivity|].
          destruct (NasaUmm.last_segment url); [reflexivity|discriminate]. }
      split; [reflexivity|]. split; [reflexivity|].
      split; [destruct (nonempty (NasaUmm.get_str (NasaUmm.Description u))) eqn:E;
              [exact E|reflexivity]|].
      split; reflexivity.
Qed.

Lemma nasa_distribution_entries_witness :
  exists entries fo,
    dict_get "distribution" (@NasaUmm.add_distribution Z granule_urls [])
    = Some (VList entries)
    /\ nth_error entries 0 = Some (VDict fo)
    /\ dict_get "name" fo = Some (VStr "T11SMT.B02.tif")
    /\ dict_get "description" fo = Some (VStr "Download T11SMT.B02.tif").
Proof.
  destruct (proj2 (@nasa_distribution_entries Z granule_urls []))
    as (entries & He & _ & Hi); [discriminate|].
  destruct (Hi 0 _ eq_refl) as (fo & name & description & Hfo & _).
  exists entries, fo. split; [exact He|]. split; [exact Hfo|].
  cbn in He. injection He as <-.
  cbn in Hfo. injection Hfo as <-. split; reflexivity.
Defined.

Lemma find_attribute_skips (pre rest : list NasaUmm.attribute) (name : string) :
  Forall (fun x => NasaUmm.named name x = false) pre ->
  NasaUmm.find_additional_attribute (pre ++ rest)%list name
  = NasaUmm.find_additional_attribute rest name.
Proof.
  induction 1 as [|x pre Hx _ IH]; [reflexivity|].
  cbn [app NasaUmm.find_additional_attribute]. now rewrite Hx.
Qed.

(** X15.  [find_additional_attribute] returns the first element of what
    [find_additional_attribute_values] returns, if there is one.  The first
    attribute with the wanted name decides alone: its first value is the
    result, and when it has no values the result is [None] even if a later
    attribute of the same name has some.  Without an attribute of that
    name the result is [None]. *)
Theorem find_attribute_first_match (name : string) :
  (forall attributes,
      NasaUmm.find_additional_attribute attributes name
      = hd_error (NasaUmm.find_additional_attribute_values attributes name))
  /\ (forall pre attr post,
        Forall (fun x => NasaUmm.named name x = false) pre ->
        NasaUmm.named name attr = true ->
        NasaUmm.find_additional_attribute (pre ++ attr :: post)%list name
        = match NasaUmm.Values attr with
          | Some values => hd_error values
          | None => None
          end)
  /\ (forall attributes,
        Forall (fun x => NasaUmm.named name x = false) attributes ->
        NasaUmm.find_additional_attribute attributes name = None).
Proof.
  split; [|split].
  - induction attributes as [|attr rest IH]; [reflexivity|].
    cbn [NasaUmm.find_additional_attribute NasaUmm.find_additional_attribute_values].
    destruct (NasaUmm.named name attr); [|exact IH].
    destruct (NasaUmm.Values attr) as [[|v values]|]; reflexivity.
  - intros pre attr post Hpre Hattr.
    rewrite find_attribute_skips by assumption.
    cbn [NasaUmm.find_additional_attribute]. rewrite Hattr.
    destruct (NasaUmm.Values attr) as [[|v values]|]; reflexivity.
  - intros attributes H.
    rewrite <- (app_nil_r attributes). now rewrite find_attribute_skips.
Qed.

Lemma find_attribute_first_match_witness :
  NasaUmm.find_additional_attribute granule_attributes "HORIZONTAL_CS_CODE" = None
  /\ NasaUmm.find_additional_attribute granule_attributes "SPATIAL_RESOLUTION"
     = Some "30"
  /\ NasaUmm.find_additional_attribute granule_attributes "CLOUD_COVERAGE" = None.
Proof.
  split; [|split].
  - apply (proj1 (proj2 (find_attribute_first_match "HORIZONTAL_CS_CODE"))
             [ {| NasaUmm.Name := Some "SPATIAL_COVERAGE";
                  NasaUmm.Values := Some ["87"] |} ]
             {| NasaUmm.Name := Some "HORIZONTAL_CS_CODE"; NasaUmm.Values := Some [] |}).
    + repeat constructor.
    + reflexivity.
  - apply (proj1 (proj2 (find_attribute_first_match "SPATIAL_RESOLUTION"))
             (firstn 3 granule_attributes)
             {| NasaUmm.Name := Some "SPATIAL_RESOLUTION";
                NasaUmm.Values := Some ["30"; "60"] |} []).
    + repeat constructor.
    + reflexivity.
  - apply (proj2 (proj2 (find_attribute_first_match "CLOUD_COVERAGE"))).
    repeat constructor.
Defined.

Section Bounds.
Context {A : Type} (ltb : A -> A -> bool).
Hypothesis ltb_irrefl : forall x : A, ltb x x = false.
Hypothesis ltb_trans : forall x y z : A,
  ltb x y = true -> ltb y z = true -> ltb x z = true.

Lemma py_min_below (rest : list A) (x : A) (seen : list A) :
  (forall y, In y seen -> ltb y x = false) ->
  forall y, In y (seen ++ rest)%list -> ltb y (py_min ltb x rest) = false.
Proof.
  revert x seen. induction rest as [|z rest IH]; intros x seen Hseen y Hy.
  - rewrite app_nil_r in Hy. now apply Hseen.
  - cbn [py_min].
    apply (IH _ (seen ++ [z])%list); [|now rewrite <- app_assoc].
    intros u Hu. apply in_app_or in Hu.
    destruct (ltb z x) eqn:Hz.
    + destruct Hu as [Hu|[<-|[]]]; [|apply ltb_irrefl].
      destruct (ltb u z) eqn:Huz; [|reflexivity].
      rewrite <- (Hseen u Hu). symmetry. now apply (ltb_trans u z x).
    + destruct Hu as [Hu|[<-|[]]]; [now apply Hseen|exact Hz].
Qed.

Lemma py_max_above (rest : list A) (x : A) (seen : list A) :
  (forall y, In y seen -> ltb x y = false) ->
  forall y, In y (seen ++ rest)%list -> ltb (py_max ltb x rest) y = false.
Proof.
  revert x seen. induction rest as [|z rest IH]; intros x seen Hseen y Hy.
  - rewrite app_nil_r in Hy. now apply Hseen.
  - cbn [py_max].
    apply (IH _ (seen ++ [z])%list); [|now rewrite <- app_assoc].
    intros u Hu. apply in_app_or in Hu.
    destruct (ltb x z) eqn:Hz.
    + destruct Hu as [Hu|[<-|[]]]; [|apply ltb_irrefl].
      destruct (ltb z u) eqn:Hzu; [|reflexivity].
      rewrite <- (Hseen u Hu). symmetry. now apply (ltb_trans x z u).
    + destruct Hu as [Hu|[<-|[]]]; [now apply Hseen|exact Hz].
Qed.

Lemma py_min_least (x : A) (rest : list A) (y : A) :
  In y (x :: rest) -> ltb y (py_min ltb x rest) = false.
Proof.
  apply (py_min_below rest x [x]).
  intros u [<-|[]]. apply ltb_irrefl.
Qed.

Lemma py_max_greatest (x : A) (rest : list A) (y : A) :
  In y (x :: rest) -> ltb (py_max ltb x rest) y = false.
Proof.
  apply (py_max_above rest x [x]).
  intros u [<-|[]]. apply ltb_irrefl.
Qed.

End Bounds.

Lemma py_min_in {A} (ltb : A -> A -> bool) (rest : list A) (x : A) :
  In (py_min ltb x rest) (x :: rest).
Proof.
  revert x. induction rest as [|z rest IH]; intros x; [now left|].
  cbn [py_min].
  destruct (IH (if ltb z x then z else x)) as [H|H].
  - rewrite <- H. destruct (ltb z x); [right; now left|now left].
  - right. now right.
Qed.

Lemma py_max_in {A} (ltb : A -> A -> bool) (rest : list A) (x : A) :
  In (py_max ltb x rest) (x :: rest).
Proof.
  revert x. induction rest as [|z rest IH]; intros x; [now left|].
  cbn [py_max].
  destruct (IH (if ltb x z then z else x)) as [H|H].
  - rewrite <- H. destruct (ltb x z); [right; now left|now left].
  - right. now right.
Qed.

(** X16.  [calculate_bounding_box] returns nothing for an empty list of
    points.  For a non-empty list, and a comparison of numbers that is
    irreflexive and transitive, no point lies outside the box (no longitude
    is below west or above east, no latitude below south or above north),
    and each side of the box is a coordinate of some point.  The box string
    of spatialCoverage lists south, west, north, east: when these four
    numbers print as one token and read back, geocroissant_to_stac reads
    the string as the bbox [west, south, east, north]. *)
Theorem nasa_bounding_box_encloses {num} {N : PyNumber num} {O : NasaUmm.PyOrdered num}
    (points : list (@NasaUmm.point num)) :
  (forall x : num, NasaUmm.num_ltb x x = false) ->
  (forall x y z : num,
      NasaUmm.num_ltb x y = true -> NasaUmm.num_ltb y z = true ->
      NasaUmm.num_ltb x z = true) ->
  (points = [] -> NasaUmm.calculate_bounding_box points = None)
  /\ (points <> [] ->
      exists bbox,
        NasaUmm.calculate_bounding_box points = Some bbox
        /\ (forall p, In p points ->
              let lon := NasaUmm.or_zero (NasaUmm.Longitude p) in
              let lat := NasaUmm.or_zero (NasaUmm.Latitude p) in
              NasaUmm.num_ltb lon (NasaUmm.west bbox) = false
              /\ NasaUmm.num_ltb (NasaUmm.east bbox) lon = false
              /\ NasaUmm.num_ltb lat (NasaUmm.south bbox) = false
              /\ NasaUmm.num_ltb (NasaUmm.north bbox) lat = false)
        /\ (let lons := map (fun p => NasaUmm.or_zero (NasaUmm.Longitude p)) points in
            let lats := map (fun p => NasaUmm.or_zero (NasaUmm.Latitude p)) points in
            In (NasaUmm.west bbox) lons /\ In (NasaUmm.east bbox) lons
            /\ In (NasaUmm.south bbox) lats /\ In (NasaUmm.north bbox) lats)
        /\ (reads_back (NasaUmm.west bbox) -> reads_back (NasaUmm.south bbox) ->
            reads_back (NasaUmm.east bbox) -> reads_back (NasaUmm.north bbox) ->
            GeoCroissantToStac.bbox_of_box (NasaUmm.box_of bbox)
            = Ok ([VNum (NasaUmm.west bbox); VNum (NasaUmm.south bbox);
                   VNum (NasaUmm.east bbox); VNum (NasaUmm.north bbox)],
                  GeoCroissantToStac.polygon
                    (VNum (NasaUmm.west bbox)) (VNum (NasaUmm.south bbox))
                    (VNum (NasaUmm.east bbox)) (VNum (NasaUmm.north bbox))))).
Proof.
  intros Hirr Htr. split; [now intros ->|].
  intros Hne. destruct points as [|p0 points]; [contradiction|].
  unfold NasaUmm.calculate_bounding_box. cbn [map].
  eexists. split; [reflexivity|]. cbn [NasaUmm.west NasaUmm.east NasaUmm.south NasaUmm.north].
  split; [|split].
  - intros p Hp. cbv zeta.
    set (lon := NasaUmm.or_zero (NasaUmm.Longitude p)).
    set (lat := NasaUmm.or_zero (NasaUmm.Latitude p)).
    assert (Hlon : In lon (map (fun p => NasaUmm.or_zero (NasaUmm.Longitude p))
                               (p0 :: points)))
      by (apply in_map_iff; now exists p).
    assert (Hlat : In lat (map (fun p => NasaUmm.or_zero (NasaUmm.Latitude p))
                               (p0 :: points)))
      by (apply in_map_iff; now exists p).
    cbn [map] in Hlon, Hlat.
    repeat split.
    + now apply py_min_least.
    + now apply py_max_greatest.
    + now apply py_min_least.
    + now apply py_max_greatest.
  - cbn [map]. repeat split; first [apply py_min_in | apply py_max_in].
  - intros Hw Hs He Hn. now apply (box_parses _ _ _ _ Hw Hs He Hn).
Qed.

Lemma nasa_bounding_box_encloses_witness :
  exists bbox,
    @NasaUmm.calculate_bounding_box Z NasaUmm.Z_PyOrdered granule_points = Some bbox
    /\ NasaUmm.box_of bbox = "32 -118 35 -116"
    /\ GeoCroissantToStac.bbox_of_box (NasaUmm.box_of bbox)
       = Ok ([VNum (-118)%Z; VNum 32%Z; VNum (-116)%Z; VNum 35%Z],
             GeoCroissantToStac.polygon
               (VNum (-118)%Z) (VNum 32%Z) (VNum (-116)%Z) (VNum 35%Z)).
Proof.
  destruct (proj2 (@nasa_bounding_box_encloses Z _ NasaUmm.Z_PyOrdered granule_points
                     Z.ltb_irrefl
                     (fun x y z Hxy Hyz =>
                        proj2 (Z.ltb_lt x z)
                          (Z.lt_trans x y z (proj1 (Z.ltb_lt x y) Hxy)
                             (proj1 (Z.ltb_lt y z) Hyz)))))
    as (bbox & Hb & _ & _ & Hread); [discriminate|].
  exists bbox. split; [exact Hb|].
  cbn in Hb. injection Hb as <-. split; [reflexivity|].
  apply Hread; apply reads_back_int.
Defined.

Section NasaDataset.
Context {num : Type} {N : PyNumber num} {O : NasaUmm.PyOrdered num}.
Implicit Types (umm : @NasaUmm.umm_g num) (dataset : dict num).

Lemma add_geospatial_get k umm dataset dataset' :
  NasaUmm.add_geospatial_properties umm dataset = Ok dataset' ->
  k <> "geocr:coordinateReferenceSystem" -> k <> "geocr:spatialResolution" ->
  k <> "spatialCoverage" ->
  dict_get k dataset' = dict_get k dataset.
Proof.
  unfold NasaUmm.add_geospatial_properties. intros H H1 H2 H3.
  destruct (NasaUmm.find_additional_attribute _ "HORIZONTAL_CS_CODE") as [c|];
    [destruct (nonempty c)|];
    (destruct (NasaUmm.find_additional_attribute _ "SPATIAL_RESOLUTION") as [v|];
     [destruct (nonempty v); [destruct (num_float v)|]|]);
    destruct (NasaUmm.calculate_bounding_box (NasaUmm.Points umm));
    try discriminate; injection H as <-;
    repeat rewrite dict_get_set_ne by congruence; reflexivity.
Qed.

Lemma add_geospatial_coverage umm dataset dataset' :
  NasaUmm.add_geospatial_properties umm dataset = Ok dataset' ->
  dict_get "spatialCoverage" dataset = None ->
  dict_get "spatialCoverage" dataset'
  = option_map
      (fun bbox => VDict [("@type", VStr "sc:Place");
                          ("geo", VDict [("@type", VStr "sc:GeoShape");
                                         ("box", VStr (NasaUmm.box_of bbox))])])
      (NasaUmm.calculate_bounding_box (NasaUmm.Points umm)).
Proof.
  unfold NasaUmm.add_geospatial_properties. intros H H0.
  destruct (NasaUmm.find_additional_attribute _ "HORIZONTAL_CS_CODE") as [c|];
    [destruct (nonempty c)|];
    (destruct (NasaUmm.find_additional_attribute _ "SPATIAL_RESOLUTION") as [v|];
     [destruct (nonempty v); [destruct (num_float v)|]|]);
    destruct (NasaUmm.calculate_bounding_box (NasaUmm.Points umm)) as [bbox|];
    try discriminate; injection H as <-; cbn [option_map];
    rewrite ?dict_get_set_eq; try reflexivity;
    repeat rewrite dict_get_set_ne by discriminate; exact H0.
Qed.

Lemma add_geospatial_raises umm dataset v :
  NasaUmm.find_additional_attribute (NasaUmm.AdditionalAttributes umm)
    "SPATIAL_RESOLUTION" = Some v ->
  nonempty v = true -> num_float v = None ->
  NasaUmm.add_geospatial_properties umm dataset = Raise "ValueError".
Proof.
  unfold NasaUmm.add_geospatial_properties. intros -> -> ->. reflexivity.
Qed.

Lemma add_geospatial_returns umm dataset :
  (forall v,
      NasaUmm.find_additional_attribute (NasaUmm.AdditionalAttributes umm)
        "SPATIAL_RESOLUTION" = Some v ->
      nonempty v = true -> num_float v <> None) ->
  exists dataset', NasaUmm.add_geospatial_properties umm dataset = Ok dataset'.
Proof.
  unfold NasaUmm.add_geospatial_properties. intros H.
  destruct (NasaUmm.find_additional_attribute (NasaUmm.AdditionalAttributes umm)
              "SPATIAL_RESOLUTION") as [v|].
  - destruct (nonempty v) eqn:Hv.
    + specialize (H v eq_refl Hv).
      destruct (num_float v); [|contradiction].
      destruct (NasaUmm.calculate_bounding_box (NasaUmm.Points umm)); eauto.
    + destruct (NasaUmm.calculate_bounding_box (NasaUmm.Points umm)); eauto.
  - destruct (NasaUmm.calculate_bounding_box (NasaUmm.Points umm)); eauto.
Qed.

Lemma add_temporal_get k umm dataset :
  k <> "temporalCoverage" ->
  dict_get k (NasaUmm.add_temporal_properties umm dataset) = dict_get k dataset.
Proof.
  intros H. unfold NasaUmm.add_temporal_properties.
  destruct (NasaUmm.BeginningDateTime umm) as [s|]; [|reflexivity].
  destruct (NasaUmm.EndingDateTime umm) as [e|]; [|reflexivity].
  destruct (nonempty s && nonempty e); [|reflexivity].
  apply dict_get_set_ne. congruence.
Qed.

Lemma add_band_get k dataset :
  k <> "geocr:bandConfiguration" -> k <> "geocr:spectralBandMetadata" ->
  dict_get k (NasaUmm.add_band_properties dataset) = dict_get k dataset.
Proof.
  intros H1 H2. unfold NasaUmm.add_band_properties.
  now rewrite !dict_get_set_ne by congruence.
Qed.

Lemma add_instrument_get k umm dataset :
  k <> "geocr:solarInstrumentCharacteristics" ->
  dict_get k (NasaUmm.add_instrument_properties umm dataset) = dict_get k dataset.
Proof.
  intros H. unfold NasaUmm.add_instrument_properties.
  destruct (NasaUmm.Instrument umm) as [[p i]|]; [|reflexivity].
  apply dict_get_set_ne. congruence.
Qed.

Lemma add_sampling_get k umm dataset :
  k <> "geocr:samplingStrategy" ->
  dict_get k (NasaUmm.add_sampling_properties umm dataset) = dict_get k dataset.
Proof.
  intros H. unfold NasaUmm.add_sampling_properties.
  destruct (NasaUmm.find_additional_attribute _ _) as [v|]; [|reflexivity].
  destruct (nonempty v); [|reflexivity].
  apply dict_get_set_ne. congruence.
Qed.

Lemma add_distribution_get k (related_urls : list NasaUmm.related_url) dataset :
  k <> "distribution" ->
  dict_get k (NasaUmm.add_distribution related_urls dataset) = dict_get k dataset.
Proof.
  intros H. unfold NasaUmm.add_distribution.
  destruct related_urls; [reflexivity|].
  apply dict_get_set_ne. congruence.
Qed.

(** What [create_dataset_structure] leaves of a key that only one step
    may set, [step] being the dataset after the steps before it. *)
Lemma nasa_later_steps k meta umm dataset :
  k <> "temporalCoverage" -> k <> "geocr:bandConfiguration" ->
  k <> "geocr:spectralBandMetadata" ->
  k <> "geocr:solarInstrumentCharacteristics" ->
  k <> "geocr:samplingStrategy" -> k <> "distribution" -> k <> "recordSet" ->
  dict_get k
    (dict_set "recordSet" (VList [NasaUmm.create_record meta umm])
       (NasaUmm.add_distribution (NasaUmm.RelatedUrls umm)
          (NasaUmm.add_sampling_properties umm
             (NasaUmm.add_instrument_properties umm
                (NasaUmm.add_band_properties
                   (NasaUmm.add_temporal_properties umm dataset))))))
  = dict_get k dataset.
Proof.
  intros. rewrite dict_get_set_ne by congruence.
  rewrite add_distribution_get, add_sampling_get, add_instrument_get,
    add_band_get, add_temporal_get by assumption.
  reflexivity.
Qed.

End NasaDataset.

(** X17.  [create_dataset_structure] of the NASA converter raises
    ValueError when the first SPATIAL_RESOLUTION attribute has a non-empty
    first value that [float] does not read.  Otherwise it returns a dataset
    that always has a recordSet, made of the one record of [create_record],
    and a datePublished, whose value is the revision date or null;
    temporalCoverage is "Beginning/Ending" when both dates are non-empty and
    is absent otherwise; spatialCoverage is present exactly when the first
    polygon has points; distribution is present exactly when there are
    related URLs. *)
Theorem nasa_dataset_structure {num} {N : PyNumber num} {O : NasaUmm.PyOrdered num}
    (meta : NasaUmm.meta_info) (umm : @NasaUmm.umm_g num) :
  let resolution :=
    NasaUmm.find_additional_attribute (NasaUmm.AdditionalAttributes umm)
      "SPATIAL_RESOLUTION" in
  (forall v, resolution = Some v -> nonempty v = true -> num_float v = None ->
             NasaUmm.create_dataset_structure meta umm = Raise "ValueError")
  /\ ((forall v, resolution = Some v -> nonempty v = true -> num_float v <> None) ->
      exists dataset,
        NasaUmm.create_dataset_structure meta umm = Ok dataset
        /\ dict_get "recordSet" dataset
           = Some (VList [NasaUmm.create_record meta umm])
        /\ dict_get "datePublished" dataset = Some (vopt (NasaUmm.revision_date meta))
        /\ (forall s e,
              NasaUmm.BeginningDateTime umm = Some s ->
              NasaUmm.EndingDateTime umm = Some e ->
              nonempty s = true -> nonempty e = true ->
              dict_get "temporalCoverage" dataset = Some (VStr (s ++ "/" ++ e)))
        /\ (truthy (NasaUmm.BeginningDateTime umm)
            && truthy (NasaUmm.EndingDateTime umm) = false ->
            dict_get "temporalCoverage" dataset = None)
        /\ (dict_get "spatialCoverage" dataset = None <-> NasaUmm.Points umm = [])
        /\ (dict_get "distribution" dataset = None <-> NasaUmm.RelatedUrls umm = [])).
Proof.
  intros resolution. split.
  - intros v Hv Hn Hf. unfold NasaUmm.create_dataset_structure.
    now rewrite (add_geospatial_raises umm _ v Hv Hn Hf).
  - intros Hres.
    destruct (add_geospatial_returns umm (NasaUmm.dataset_header meta umm) Hres)
      as [d1 Hd1].
    unfold NasaUmm.create_dataset_structure. rewrite Hd1.
    eexists. split; [reflexivity|].
    split; [apply dict_get_set_eq|].
    split.
    { rewrite nasa_later_steps by discriminate.
      now rewrite (add_geospatial_get _ _ _ _ Hd1) by discriminate. }
    split.
    { intros s e Hs He Hns Hne.
      rewrite dict_get_set_ne, add_distribution_get, add_sampling_get,
        add_instrument_get, add_band_get by discriminate.
      unfold NasaUmm.add_temporal_properties. rewrite Hs, He, Hns, Hne.
      apply dict_get_set_eq. }
    split.
    { intros Hf.
      rewrite dict_get_set_ne, add_distribution_get, add_sampling_get,
        add_instrument_get, add_band_get by discriminate.
      unfold NasaUmm.add_temporal_properties.
      destruct (NasaUmm.BeginningDateTime umm) as [s|];
        destruct (NasaUmm.EndingDateTime umm) as [e|];
        cbn [truthy] in Hf; rewrite ?Hf;
        now rewrite (add_geospatial_get _ _ _ _ Hd1) by discriminate. }
    split.
    { rewrite nasa_later_steps by discriminate.
      rewrite (add_geospatial_coverage _ _ _ Hd1) by reflexivity.
      unfold NasaUmm.calculate_bounding_box.
      destruct (NasaUmm.Points umm) as [|p ps]; cbn [map option_map].
      - split; reflexivity.
      - split; discriminate. }
    { rewrite dict_get_set_ne by discriminate.
      unfold NasaUmm.add_distribution.
      destruct (NasaUmm.RelatedUrls umm) as [|u us].
      - split; [reflexivity|]. intros _.
        rewrite add_sampling_get, add_instrument_get, add_band_get,
          add_temporal_get by discriminate.
        now rewrite (add_geospatial_get _ _ _ _ Hd1) by discriminate.
      - rewrite dict_get_set_eq. split; discriminate. }
Qed.

Lemma nasa_dataset_structure_witness :
  @NasaUmm.create_dataset_structure Z _ NasaUmm.Z_PyOrdered granule_meta (granule "30 m")
  = Raise "ValueError"
  /\ exists dataset,
      @NasaUmm.create_dataset_structure Z _ NasaUmm.Z_PyOrdered granule_meta (granule "30")
      = Ok dataset
      /\ dict_get "temporalCoverage" dataset
         = Some (VStr ("2021-01-01T18:35:39Z" ++ "/" ++ "2021-01-01T18:35:39Z")).
Proof.
  split.
  - apply (proj1 (@nasa_dataset_structure Z _ NasaUmm.Z_PyOrdered granule_meta
                    (granule "30 m")) "30 m"); reflexivity.
  - destruct (proj2 (@nasa_dataset_structure Z _ NasaUmm.Z_PyOrdered granule_meta
                       (granule "30")))
      as (dataset & Hd & _ & _ & Ht & _).
    + intros v Hv _. injection Hv as <-. discriminate.
    + exists dataset. split; [exact Hd|].
      apply Ht; reflexivity.
Defined.

(* ===================================================================== *)
(** * Further properties: the CEDA converter *)
(* ===================================================================== *)

Lemma split_char_append (c : ascii) (a x : string) :
  split_char c (a ++ String c x) = (split_char c a ++ split_char c x)%list.
Proof.
  induction a as [|b a IH]; cbn [append split_char].
  - now rewrite Ascii.eqb_refl.
  - rewrite IH. pose proof (split_char_nonempty c a) as Hn.
    destruct (Ascii.eqb b c); [reflexivity|].
    destruct (split_char c a); [contradiction|reflexivity].
Qed.

Lemma asset_name_free (product_id : string) :
  free_of "-" (Ceda.asset_name product_id) = true.
Proof.
  unfold Ceda.asset_name.
  destruct (contains "-" product_id) eqn:E; [apply last_segment_free|].
  change "-" with (String "-"%char EmptyString) in E.
  rewrite contains_char_count in E. apply negb_false_iff, Nat.eqb_eq in E.
  now apply free_of_count.
Qed.

Lemma ceda_distribution_filter {num} (products : list Ceda.product) :
  List.length (@Ceda.distribution num products)
  = List.length (filter has_href products).
Proof.
  induction products as [|p ps IH]; [reflexivity|].
  unfold Ceda.distribution in *. cbn [flat_map filter]. unfold has_href at 1.
  destruct (Ceda.href p); cbn [app List.length]; now rewrite IH.
Qed.

Lemma ceda_distribution_nth {num} (products : list Ceda.product) (i : nat)
    (p : Ceda.product) :
  nth_error (filter has_href products) i = Some p ->
  exists product_url,
    Ceda.href p = Some product_url
    /\ nth_error (@Ceda.distribution num products) i
       = Some (Ceda.file_obj (Ceda.asset_name (Ceda.id p)) product_url).
Proof.
  revert i. induction products as [|q qs IH]; intros i Hi.
  - destruct i; discriminate.
  - unfold Ceda.distribution in *. cbn [flat_map filter] in *.
    unfold has_href at 1 in Hi.
    destruct (Ceda.href q) as [u|] eqn:Hq.
    + destruct i as [|i].
      * injection Hi as <-. exists u. now split.
      * cbn [nth_error app] in *. now apply IH.
    + now apply IH.
Qed.

(** X18.  The distribution that [cloud_product_to_geocroissant] builds has
    one FileObject for each product that has an href, in the order of the
    products; the products without href are left out.  The "@id" and name
    of a FileObject are the part of the product id after its last "-" (the
    whole id when it has none), so they never hold a "-", and two products
    whose ids end alike get the same "@id".  A record set is added exactly
    when some product has an href, building it never fails, and each of its
    four fields refers to the "@id" of the first FileObject. *)
Theorem ceda_distribution_and_record_set {num}
    (products : list Ceda.product) (variable_id variable_name : string) :
  List.length (@Ceda.distribution num products)
  = List.length (filter has_href products)
  /\ (forall i p,
        nth_error (filter has_href products) i = Some p ->
        exists fo product_url,
          nth_error (@Ceda.distribution num products) i = Some fo
          /\ Ceda.href p = Some product_url
          /\ dict_get "@id" fo = Some (VStr (Ceda.asset_name (Ceda.id p)))
          /\ dict_get "name" fo = Some (VStr (Ceda.asset_name (Ceda.id p)))
          /\ dict_get "contentUrl" fo = Some (VStr product_url)
          /\ free_of "-" (Ceda.asset_name (Ceda.id p)) = true)
  /\ (forall a b x, free_of "-" x = true ->
        Ceda.asset_name (a ++ "-" ++ x) = x /\ Ceda.asset_name (b ++ "-" ++ x) = x)
  /\ (filter has_href products = [] ->
      Ceda.record_set variable_id variable_name (@Ceda.distribution num products)
      = Ok None)
  /\ (forall p rest, filter has_href products = p :: rest ->
      exists rs,
        Ceda.record_set variable_id variable_name (@Ceda.distribution num products)
        = Ok (Some rs)
        /\ field_sources rs
           = repeat (Some (VStr (Ceda.asset_name (Ceda.id p)))) 4).
Proof.
  split; [apply ceda_distribution_filter|].
  split.
  { intros i p Hi.
    destruct (ceda_distribution_nth (num := num) products i p Hi) as (u & Hu & Hn).
    eexists _, u. split; [exact Hn|]. split; [exact Hu|].
    repeat (split; [reflexivity|]). apply asset_name_free. }
  split.
  { assert (H : forall a x, free_of "-" x = true -> Ceda.asset_name (a ++ "-" ++ x) = x).
    { intros a x Hx. unfold Ceda.asset_name.
      rewrite (contains_app "-" a x).
      change (a ++ "-" ++ x) with (a ++ String "-"%char x).
      rewrite split_char_append, (split_char_single _ _ Hx).
      apply last_last. }
    intros a b x Hx. split; now apply H. }
  split.
  { intros Hf. pose proof (ceda_distribution_filter (num := num) products) as Hl.
    rewrite Hf in Hl. destruct (Ceda.distribution products); [reflexivity|discriminate]. }
  intros p rest Hf.
  destruct (ceda_distribution_nth (num := num) products 0 p) as (u & Hu & Hn).
  { now rewrite Hf. }
  destruct (Ceda.distribution products) as [|first others]; [discriminate|].
  injection Hn as ->. eexists. split; reflexivity.
Qed.

Lemma ceda_distribution_and_record_set_witness :
  exists rs,
    Ceda.record_set "tas" "Near-Surface Air Temperature"
      (@Ceda.distribution Z cloud_products) = Ok (Some rs)
    /\ field_sources rs = repeat (Some (VStr "reference_file")) 4
    /\ map (dict_get "@id") (@Ceda.distribution Z cloud_products)
       = [Some (VStr "reference_file"); Some (VStr "reference_file")].
Proof.
  destruct (proj2 (proj2 (proj2 (proj2
              (@ceda_distribution_and_record_set Z cloud_products "tas"
                 "Near-Surface Air Temperature"))))
              {| Ceda.id := "ssp126-tas-reference_file";
                 Ceda.href := Some "https://data.ceda.ac.uk/ssp126/tas.json" |}
              [ {| Ceda.id := "ssp585-tas-reference_file";
                   Ceda.href := Some "https://data.ceda.ac.uk/ssp585/tas.nc" |} ]
              eq_refl)
    as (rs & Hrs & Hsrc).
  exists rs. split; [exact Hrs|]. split; [exact Hsrc|reflexivity].
Defined.

(** X19.  The coverage strings of the CEDA converter are read by the other
    converters as intended.  A bbox of at least four numbers (that print as
    one token and read back) is written south-west-north-east and
    geocroissant_to_stac reads it as the first four numbers in their
    original order; a missing or shorter bbox gives the fixed box
    "-90 -180 90 180", which reads as the whole globe.  temporalCoverage is
    always start "/" end, with 2015-01-01 and 2100-12-31 for a missing
    bound, and when the bounds hold no "/" the GeoDCAT converter reads the
    period with both bounds unchanged. *)
Theorem ceda_coverage_read_back {num} {N : PyNumber num} :
  (forall (b0 b1 b2 b3 : num) rest,
      reads_back b0 -> reads_back b1 -> reads_back b2 -> reads_back b3 ->
      GeoCroissantToStac.bbox_of_box (Ceda.bbox_str (Some (b0 :: b1 :: b2 :: b3 :: rest)))
      = Ok ([VNum b0; VNum b1; VNum b2; VNum b3],
            GeoCroissantToStac.polygon (VNum b0) (VNum b1) (VNum b2) (VNum b3)))
  /\ (forall bbox : option (list num),
        (forall l, bbox = Some l -> List.length l < 4) ->
        Ceda.bbox_str bbox = "-90 -180 90 180")
  /\ @GeoCroissantToStac.bbox_of_box Z _ "-90 -180 90 180"
     = Ok ([VNum (-180)%Z; VNum (-90)%Z; VNum 180%Z; VNum 90%Z],
           GeoCroissantToStac.polygon (VNum (-180)%Z) (VNum (-90)%Z)
                                      (VNum 180%Z) (VNum 90%Z))
  /\ (forall start_datetime end_datetime : option string,
        let s := match start_datetime with Some s => s | None => "2015-01-01" end in
        let e := match end_datetime with Some e => e | None => "2100-12-31" end in
        free_of "/" s = true -> free_of "/" e = true ->
        GeoDcat.period (Ceda.temporal_coverage start_datetime end_datetime)
        = Ok (Some (s, e))).
Proof.
  split; [|split; [|split]].
  - intros b0 b1 b2 b3 rest H0 H1 H2 H3.
    exact (box_parses b0 b1 b2 b3 H0 H1 H2 H3).
  - intros bbox H. unfold Ceda.bbox_str.
    destruct bbox as [[|b0 [|b1 [|b2 [|b3 rest]]]]|]; try reflexivity.
    specialize (H _ eq_refl). cbn [List.length] in H. lia.
  - reflexivity.
  - intros sd ed s e Hs He.
    now apply period_of_range.
Qed.

Lemma ceda_coverage_read_back_witness :
  Ceda.bbox_str (Some [(-10)%Z; 35%Z; 5%Z; 60%Z; 0%Z]) = "35 -10 60 5"
  /\ GeoCroissantToStac.bbox_of_box (Ceda.bbox_str (Some [(-10)%Z; 35%Z; 5%Z; 60%Z; 0%Z]))
     = Ok ([VNum (-10)%Z; VNum 35%Z; VNum 5%Z; VNum 60%Z],
           GeoCroissantToStac.polygon (VNum (-10)%Z) (VNum 35%Z) (VNum 5%Z) (VNum 60%Z))
  /\ Ceda.bbox_str (Some [1%Z; 2%Z; 3%Z]) = "-90 -180 90 180"
  /\ GeoDcat.period (Ceda.temporal_coverage (Some "2015-01-16T12:00:00Z") None)
     = Ok (Some ("2015-01-16T12:00:00Z", "2100-12-31")).
Proof.
  split; [reflexivity|]. split; [|split].
  - apply (proj1 (@ceda_coverage_read_back Z _)); apply reads_back_int.
  - apply (proj1 (proj2 (@ceda_coverage_read_back Z _))).
    intros l Hl. injection Hl as <-. cbn [List.length]. lia.
  - apply (proj2 (proj2 (proj2 (@ceda_coverage_read_back Z _)))
             (Some "2015-01-16T12:00:00Z") None); reflexivity.
Defined.

(* ===================================================================== *)
(** * Further properties: the SDO converter *)
(* ===================================================================== *)

Lemma str_Z_inj (a b : Z) : str_Z a = str_Z b -> a = b.
Proof.
  intros H.
  destruct (reads_back_int a) as [_ Ha]. destruct (reads_back_int b) as [_ Hb].
  cbn [num_str num_float Z_PyNumber] in Ha, Hb.
  rewrite H, Hb in Ha. now injection Ha.
Qed.

Lemma append_inj_l (p a b : string) : p ++ a = p ++ b -> a = b.
Proof.
  induction p as [|c p IH]; cbn [append]; intros H; [exact H|].
  injection H as H. now apply IH.
Qed.

Lemma band_name_inj (var_name : string) (i j : nat) :
  var_name ++ "_band" ++ str_nat (i + 1) = var_name ++ "_band" ++ str_nat (j + 1) ->
  i = j.
Proof.
  intros H. apply append_inj_l, append_inj_l in H.
  apply str_Z_inj in H. lia.
Qed.

Lemma NoDup_map_inj {A B} (f : A -> B) (l : list A) :
  (forall x y, f x = f y -> x = y) -> NoDup l -> NoDup (map f l).
Proof.
  intros Hf. induction 1 as [|x l Hx _ IH]; cbn [map]; constructor; [|exact IH].
  intros Hin. apply in_map_iff in Hin. destruct Hin as (y & Hy & Hin).
  apply Hf in Hy. now subst y.
Qed.

(** X20.  The band names of an SDO field.  When the band count read from
    the shape is at most 1 the only band name is the variable name; when it
    is larger there are as many names as bands, the i-th being the variable
    name followed by "_band" and i (from 1), and they are pairwise
    distinct.  A band axis of size 0 gives a band count of 0 with one band
    name, so totalBands and the length of the name list differ there. *)
Theorem sdo_band_names_shape (var_name : string) (shape : list nat) :
  (Sdo.num_bands shape <= 1 -> Sdo.band_names var_name shape = [var_name])
  /\ (1 < Sdo.num_bands shape ->
      List.length (Sdo.band_names var_name shape) = Sdo.num_bands shape
      /\ NoDup (Sdo.band_names var_name shape)
      /\ forall i, i < Sdo.num_bands shape ->
           nth_error (Sdo.band_names var_name shape) i
           = Some (var_name ++ "_band" ++ str_nat (i + 1)))
  /\ (forall d1 d2, 0 < d1 -> 0 < d2 ->
        Sdo.num_bands [0; d1; d2] = 0
        /\ List.length (Sdo.band_names var_name [0; d1; d2]) = 1).
Proof.
  split; [|split].
  - intros H. unfold Sdo.band_names.
    destruct (Nat.ltb_spec 1 (Sdo.num_bands shape)); [lia|reflexivity].
  - intros H. unfold Sdo.band_names.
    destruct (Nat.ltb_spec 1 (Sdo.num_bands shape)); [|lia].
    split; [now rewrite length_map, length_seq|].
    split.
    + apply NoDup_map_inj; [|apply seq_NoDup].
      intros i j. apply band_name_inj.
    + intros i Hi. rewrite nth_error_map, nth_error_seq.
      destruct (Nat.ltb_spec i (Sdo.num_bands shape)); [reflexivity|lia].
  - intros d1 d2 H1 H2.
    assert (Hn : Sdo.num_bands [0; d1; d2] = 0).
    { unfold Sdo.num_bands.
      destruct (Nat.ltb_spec 0 d1); [|lia].
      destruct (Nat.ltb_spec 0 d2); [reflexivity|lia]. }
    split; [exact Hn|]. unfold Sdo.band_names. now rewrite Hn.
Qed.

Lemma sdo_band_names_shape_witness :
  Sdo.band_names "aia171" [512; 512] = ["aia171"]
  /\ nth_error (Sdo.band_names "hmi_b" [3; 512; 512]) 2 = Some "hmi_b_band3"
  /\ Sdo.num_bands [0; 512; 512] = 0
  /\ List.length (Sdo.band_names "hmi_b" [0; 512; 512]) = 1.
Proof.
  split; [|split].
  - apply (proj1 (sdo_band_names_shape "aia171" [512; 512])). cbn. lia.
  - apply (proj1 (proj2 (sdo_band_names_shape "hmi_b" [3; 512; 512]))); cbn; lia.
  - apply (proj2 (proj2 (sdo_band_names_shape "hmi_b" [0; 512; 512]))); lia.
Defined.

Lemma string_ltb_irrefl (x : string) : String.ltb x x = false.
Proof.
  unfold String.ltb.
  pose proof (proj2 (OrderedTypeEx.String_as_OT.cmp_eq x x) eq_refl) as H.
  unfold OrderedTypeEx.String_as_OT.cmp in H. now rewrite H.
Qed.

Lemma string_ltb_trans (x y z : string) :
  String.ltb x y = true -> String.ltb y z = true -> String.ltb x z = true.
Proof.
  unfold String.ltb. intros Hxy Hyz.
  assert (Lxy : OrderedTypeEx.String_as_OT.lt x y).
  { apply OrderedTypeEx.String_as_OT.cmp_lt.
    unfold OrderedTypeEx.String_as_OT.cmp. now destruct (String.compare x y). }
  assert (Lyz : OrderedTypeEx.String_as_OT.lt y z).
  { apply OrderedTypeEx.String_as_OT.cmp_lt.
    unfold OrderedTypeEx.String_as_OT.cmp. now destruct (String.compare y z). }
  pose proof (OrderedTypeEx.String_as_OT.lt_trans _ _ _ Lxy Lyz) as L.
  apply OrderedTypeEx.String_as_OT.cmp_lt in L.
  unfold OrderedTypeEx.String_as_OT.cmp in L. now rewrite L.
Qed.

Lemma split_char_keeps_free (c d : ascii) (s : string) :
  free_of d s = true -> Forall (fun p => free_of d p = true) (split_char c s).
Proof.
  induction s as [|a s IH]; intros H.
  - repeat constructor.
  - unfold free_of in *. cbn [all_chars] in H.
    apply andb_true_iff in H. destruct H as [Ha Hs]. specialize (IH Hs).
    cbn [split_char]. destruct (Ascii.eqb a c).
    + constructor; [reflexivity|exact IH].
    + destruct (split_char c s) as [|p rest].
      * repeat constructor. cbn [all_chars]. now rewrite Ha.
      * inversion IH as [|? ? Hp Hrest]; subst.
        constructor; [|exact Hrest]. cbn [all_chars]. now rewrite Ha, Hp.
Qed.

Lemma file_date_shape (f d : string) :
  Sdo.file_date f = Some d ->
  String.length d = 10 /\ free_of "/" d = true.
Proof.
  unfold Sdo.file_date.
  assert (Hx : free_of "/" (hd EmptyString (split_char "_" (Sdo.basename f))) = true).
  { pose proof (split_char_keeps_free "_" "/" (Sdo.basename f)
                  (last_segment_free "/" f)) as F.
    destruct F; [reflexivity|assumption]. }
  destruct (hd EmptyString (split_char "_" (Sdo.basename f)))
    as [|c1 [|c2 [|c3 [|c4 [|c5 [|c6 [|c7 [|c8 [|c9 x]]]]]]]]];
    cbn [String.length Nat.eqb]; try discriminate.
  intros H. injection H as <-. split; [reflexivity|].
  unfold free_of in *. cbn [all_chars] in Hx.
  repeat (apply andb_true_iff in Hx; destruct Hx as [? Hx]).
  cbn. repeat (apply andb_true_iff; split); assumption || reflexivity.
Qed.

Lemma dates_shape (nc_files : list string) :
  Forall (fun d => String.length d = 10 /\ free_of "/" d = true) (Sdo.dates nc_files).
Proof.
  induction nc_files as [|f fs IH]; [constructor|].
  unfold Sdo.dates in *. cbn [flat_map].
  destruct (Sdo.file_date f) as [d|] eqn:E; cbn [app]; [|exact IH].
  constructor; [now apply (file_date_shape f)|exact IH].
Qed.

(** X21.  [_get_temporal_coverage] of the SDO converter.  When no file
    name gives a date (the part of its base name before the first "_" has 8
    characters) the coverage is "Unknown", which the GeoDCAT converter reads
    as no period.  Otherwise it is "a/b", where a and b are dates read from
    the file names, no date is before a or after b in the order of strings
    (so a is not after b), each has 10 characters, and the GeoDCAT
    converter reads the period from a to b. *)
Theorem sdo_temporal_coverage (nc_files : list string) :
  (Sdo.dates nc_files = [] ->
   Sdo._get_temporal_coverage nc_files = "Unknown"
   /\ GeoDcat.period (Sdo._get_temporal_coverage nc_files) = Ok None)
  /\ (Sdo.dates nc_files <> [] ->
      exists a b,
        Sdo._get_temporal_coverage nc_files = a ++ "/" ++ b
        /\ In a (Sdo.dates nc_files) /\ In b (Sdo.dates nc_files)
        /\ (forall d, In d (Sdo.dates nc_files) ->
              String.ltb d a = false /\ String.ltb b d = false)
        /\ String.length a = 10 /\ String.length b = 10
        /\ GeoDcat.period (Sdo._get_temporal_coverage nc_files) = Ok (Some (a, b))).
Proof.
  unfold Sdo._get_temporal_coverage. split.
  - intros ->. split; reflexivity.
  - intros Hne. pose proof (dates_shape nc_files) as Sh.
    destruct (Sdo.dates nc_files) as [|d ds]; [contradiction|].
    exists (py_min String.ltb d ds), (py_max String.ltb d ds).
    pose proof (py_min_in String.ltb ds d) as Ha.
    pose proof (py_max_in String.ltb ds d) as Hb.
    rewrite Forall_forall in Sh.
    destruct (Sh _ Ha) as [La Fa]. destruct (Sh _ Hb) as [Lb Fb].
    split; [reflexivity|]. split; [exact Ha|]. split; [exact Hb|].
    split.
    { intros x Hx. split.
      - now apply (py_min_least String.ltb string_ltb_irrefl string_ltb_trans).
      - now apply (py_max_greatest String.ltb string_ltb_irrefl string_ltb_trans). }
    split; [exact La|]. split; [exact Lb|].
    now apply period_of_range.
Qed.

Lemma sdo_temporal_coverage_witness :
  exists a b,
    Sdo._get_temporal_coverage sdo_files = a ++ "/" ++ b
    /\ a = "2010-12-31" /\ b = "2011-01-21"
    /\ GeoDcat.period (Sdo._get_temporal_coverage sdo_files) = Ok (Some (a, b)).
Proof.
  destruct (proj2 (sdo_temporal_coverage sdo_files))
    as (a & b & Hab & _ & _ & _ & _ & _ & Hp); [discriminate|].
  exists a, b. split; [exact Hab|].
  pose proof Hp as Hq.
  change (Sdo._get_temporal_coverage sdo_files)
    with ("2010-12-31" ++ "/" ++ "2011-01-21") in Hp.
  rewrite (period_of_range "2010-12-31" "2011-01-21" eq_refl eq_refl) in Hp.
  injection Hp as <- <-. split; [reflexivity|]. split; [reflexivity|exact Hq].
Defined.

(* ===================================================================== *)
(** * Further properties: the time-series converter *)
(* ===================================================================== *)

Lemma prefix_nil (s : string) : String.prefix EmptyString s = true.
Proof. now destruct s. Qed.

Lemma prefix_refl (s : string) : String.prefix s s = true.
Proof.
  induction s as [|a s IH]; [reflexivity|].
  cbn [String.prefix]. now destruct (ascii_dec a a).
Qed.

Lemma prefix_cons (a : ascii) (r s : string) :
  String.prefix r s = true -> String.prefix (String a r) (String a s) = true.
Proof. intros H. cbn [String.prefix]. now destruct (ascii_dec a a). Qed.

Lemma prefix_trans (a b c : string) :
  String.prefix a b = true -> String.prefix b c = true -> String.prefix a c = true.
Proof.
  revert b c. induction a as [|x a IH]; intros b c Hab Hbc; [apply prefix_nil|].
  destruct b as [|y b]; [discriminate|]. destruct c as [|z c]; [discriminate|].
  cbn [String.prefix] in *.
  destruct (ascii_dec x y) as [->|]; [|discriminate].
  destruct (ascii_dec y z) as [->|]; [|discriminate].
  now apply (IH b c).
Qed.

Lemma prefix_free (c : ascii) (r s : string) :
  String.prefix r s = true -> free_of c s = true -> free_of c r = true.
Proof.
  revert s. induction r as [|x r IH]; intros s Hp Hs; [reflexivity|].
  destruct s as [|y s]; [discriminate|].
  unfold free_of in *. cbn [String.prefix all_chars] in *.
  destruct (ascii_dec x y) as [->|]; [|discriminate].
  apply andb_true_iff in Hs. destruct Hs as [Hy Hs].
  rewrite Hy. now apply (IH s).
Qed.

Lemma hd_split_prefix (c : ascii) (s : string) :
  String.prefix (hd EmptyString (split_char c s)) s = true.
Proof.
  induction s as [|a s IH]; [reflexivity|].
  cbn [split_char]. destruct (Ascii.eqb a c); [reflexivity|].
  pose proof (split_char_nonempty c s) as Hn.
  destruct (split_char c s) as [|p rest]; [contradiction|].
  cbn [hd] in *. now apply prefix_cons.
Qed.

Lemma hd_split_free (c : ascii) (s : string) :
  free_of c (hd EmptyString (split_char c s)) = true.
Proof.
  pose proof (split_char_free c s) as F. destruct F; [reflexivity|assumption].
Qed.

Lemma rsplit_head_prefix (sep s : string) :
  String.prefix (rsplit_head sep s) s = true.
Proof.
  unfold rsplit_head.
  assert (H : forall r, before_last sep s = Some r -> String.prefix r s = true).
  { induction s as [|a s IH]; intros r Hr; [discriminate|].
    cbn [before_last] in Hr.
    destruct (before_last sep s) as [r'|].
    - injection Hr as <-. apply prefix_cons. now apply IH.
    - destruct (String.prefix sep (String a s)); [|discriminate].
      injection Hr as <-. reflexivity. }
  destruct (before_last sep s) as [r|]; [now apply H|apply prefix_refl].
Qed.

Lemma base_url_prefix (band_names : list string) (it : TimeSeries.item)
    (b0 : string) (rest : list string) (href : string) :
  band_names = b0 :: rest ->
  TimeSeries.lookup b0 (TimeSeries.item_assets it) = Some (Some href) ->
  String.prefix (TimeSeries.base_url band_names it) href = true.
Proof.
  intros -> Hl. unfold TimeSeries.base_url. rewrite Hl.
  assert (Hcut : String.prefix
                   (if contains "?" href then hd EmptyString (split_char "?" href)
                    else href) href = true).
  { destruct (contains "?" href); [apply hd_split_prefix|apply prefix_refl]. }
  destruct (contains ".B" _);
    (eapply prefix_trans; [apply rsplit_head_prefix|exact Hcut]).
Qed.

Lemma base_url_no_query (band_names : list string) (it : TimeSeries.item) :
  free_of "?" (TimeSeries.base_url band_names it) = true.
Proof.
  unfold TimeSeries.base_url.
  destruct band_names as [|b0 rest]; [reflexivity|].
  destruct (TimeSeries.lookup b0 (TimeSeries.item_assets it)) as [href|];
    [|reflexivity].
  set (url := match href with Some u => u | None => EmptyString end).
  assert (Hcut : free_of "?"
                   (if contains "?" url then hd EmptyString (split_char "?" url)
                    else url) = true).
  { destruct (contains "?" url) eqn:E; [apply hd_split_free|].
    change "?" with (String "?"%char EmptyString) in E.
    rewrite contains_char_count in E. apply negb_false_iff, Nat.eqb_eq in E.
    now apply free_of_count. }
  destruct (contains ".B" _);
    (eapply prefix_free; [apply rsplit_head_prefix|exact Hcut]).
Qed.

Lemma file_sets_from_nth {num} (band_names : list string)
    (items : list TimeSeries.item) (idx i : nat) (it : TimeSeries.item) :
  nth_error items i = Some it ->
  nth_error (@TimeSeries.file_sets_from num band_names idx items) i
  = Some (TimeSeries.file_set band_names (idx + i) it).
Proof.
  revert idx i. induction items as [|x items IH]; intros idx i Hi.
  - destruct i; discriminate.
  - destruct i as [|i]; cbn [TimeSeries.file_sets_from nth_error] in *.
    + injection Hi as <-. now rewrite Nat.add_0_r.
    + rewrite (IH (S idx) i Hi). f_equal. f_equal. lia.
Qed.

Lemma granule_id_inj (i j : nat) :
  "granule_" ++ str_nat i ++ "_bands" = "granule_" ++ str_nat j ++ "_bands" -> i = j.
Proof.
  intros H. apply append_inj_l in H.
  assert (Hd : forall n, free_of "_" (str_nat n) = true).
  { intros n. unfold str_nat, str_Z, Z.to_int.
    destruct (Z.of_nat n) as [|p|p] eqn:E; [reflexivity| |lia].
    cbn [NilZero.string_of_int]. clear E.
    assert (Hu : forall u, free_of "_" (NilEmpty.string_of_uint u) = true)
      by (intros u; unfold free_of; induction u; cbn; auto).
    unfold NilZero.string_of_uint.
    destruct (Pos.to_uint p) eqn:Eu; [reflexivity|..]; apply Hu. }
  assert (Hs : split_char "_" (str_nat i ++ "_bands")
               = split_char "_" (str_nat j ++ "_bands")) by now rewrite H.
  change "_bands" with (String "_"%char "bands") in Hs.
  rewrite !split_char_app in Hs by apply Hd.
  injection Hs as Hs. apply str_Z_inj in Hs. lia.
Qed.

Lemma file_set_ids_from {num} (band_names : list string)
    (items : list TimeSeries.item) (idx : nat) :
  map (Distribution.str_field "@id")
      (@TimeSeries.file_sets_from num band_names idx items)
  = map (fun i => Some ("granule_" ++ str_nat i ++ "_bands"))
        (seq idx (List.length items)).
Proof.
  revert idx. induction items as [|x items IH]; intros idx; [reflexivity|].
  cbn [TimeSeries.file_sets_from map seq List.length]. now rewrite IH.
Qed.

Lemma contains_longer (p q s : string) :
  contains (p ++ q) s = true -> contains p s = true.
Proof.
  induction s as [|a s IH]; cbn [contains]; intros H.
  - apply orb_true_iff in H. destruct H as [H|H]; [|discriminate].
    destruct p; [reflexivity|discriminate].
  - apply orb_true_iff in H. apply orb_true_iff. destruct H as [H|H].
    + left. apply (prefix_trans p (p ++ q)); [apply prefix_append|exact H].
    + right. now apply IH.
Qed.



Section Monthly.
Context {stac_item : Type} (year_month : stac_item -> string).
Implicit Types (g : list (string * list stac_item)) (items : list stac_item).

Lemma group_of_append month ym it g :
  TimeSeries.group_of month (TimeSeries.group_append ym it g)
  = (TimeSeries.group_of month g
     ++ (if String.eqb ym month then [it] else []))%list.
Proof.
  induction g as [|[k l] rest IH]; cbn [TimeSeries.group_append TimeSeries.group_of].
  - reflexivity.
  - destruct (String.eqb_spec k ym) as [->|Hk]; cbn [TimeSeries.group_of].
    + destruct (String.eqb ym month); [reflexivity|now rewrite app_nil_r].
    + destruct (String.eqb_spec k month) as [->|Hm]; [|exact IH].
      destruct (String.eqb_spec ym month) as [->|_]; [contradiction|].
      now rewrite app_nil_r.
Qed.

Lemma keys_append ym it g :
  map fst (TimeSeries.group_append ym it g)
  = if existsb (fun k => String.eqb k ym) (map fst g) then map fst g
    else (map fst g ++ [ym])%list.
Proof.
  induction g as [|[k l] rest IH]; cbn [TimeSeries.group_append map existsb fst].
  - reflexivity.
  - destruct (String.eqb k ym); cbn [map fst orb]; [reflexivity|].
    rewrite IH. now destruct (existsb _ _).
Qed.

Lemma group_by_month_snoc items it :
  TimeSeries.group_by_month year_month (items ++ [it])%list
  = TimeSeries.group_append (year_month it) it
      (TimeSeries.group_by_month year_month items).
Proof. unfold TimeSeries.group_by_month. now rewrite fold_left_app. Qed.

Lemma group_of_filter items month :
  TimeSeries.group_of month (TimeSeries.group_by_month year_month items)
  = filter (fun it => String.eqb (year_month it) month) items.
Proof.
  induction items as [|it items IH] using rev_ind; [reflexivity|].
  rewrite group_by_month_snoc, group_of_append, IH, filter_app.
  cbn [filter]. now destruct (String.eqb _ _).
Qed.

Lemma keys_months items (k : string) :
  In k (map fst (TimeSeries.group_by_month year_month items))
  <-> In k (map year_month items).
Proof.
  induction items as [|it items IH] using rev_ind; [reflexivity|].
  rewrite group_by_month_snoc, keys_append, map_app, in_app_iff. cbn [map In].
  destruct (existsb _ _) eqn:E.
  - rewrite IH. split; [now left|]. intros [H|[<-|[]]]; [exact H|].
    apply existsb_exists in E. destruct E as (x & Hx & Ex).
    apply String.eqb_eq in Ex. subst x. now apply IH.
  - rewrite in_app_iff, IH. cbn [In]. reflexivity.
Qed.

Lemma keys_nodup items :
  NoDup (map fst (TimeSeries.group_by_month year_month items)).
Proof.
  induction items as [|it items IH] using rev_ind; [constructor|].
  rewrite group_by_month_snoc, keys_append.
  destruct (existsb _ _) eqn:E; [exact IH|].
  apply NoDup_app; [exact IH|repeat constructor; intros []|].
  intros x Hx [<-|[]].
  assert (existsb (fun k => String.eqb k (year_month it))
            (map fst (TimeSeries.group_by_month year_month items)) = true).
  { apply existsb_exists. exists (year_month it). split; [exact Hx|apply String.eqb_refl]. }
  congruence.
Qed.

End Monthly.

Lemma string_ltb_total (a b : string) :
  a <> b -> String.ltb a b = false -> String.ltb b a = true.
Proof.
  unfold String.ltb. intros Hne H.
  rewrite (String.compare_antisym b a).
  destruct (String.compare a b) eqn:E; [|discriminate|reflexivity].
  apply String.compare_eq_iff in E. contradiction.
Qed.

Lemma insert_sorted_in (k x : string) (l : list string) :
  In x (TimeSeries.insert_sorted k l) <-> x = k \/ In x l.
Proof.
  induction l as [|y l IH]; cbn [TimeSeries.insert_sorted In].
  - intuition congruence.
  - destruct (String.ltb k y); cbn [In]; [intuition congruence|].
    rewrite IH. intuition congruence.
Qed.

Lemma sorted_in (x : string) (l : list string) :
  In x (TimeSeries.sorted l) <-> In x l.
Proof.
  induction l as [|y l IH]; [reflexivity|].
  cbn [TimeSeries.sorted fold_right In]. fold (TimeSeries.sorted l).
  rewrite insert_sorted_in, IH. intuition congruence.
Qed.

Lemma insert_sorted_ascending (k : string) (l : list string) :
  ~ In k l -> ascending l = true -> ascending (TimeSeries.insert_sorted k l) = true.
Proof.
  induction l as [|x l IH]; intros Hk Hl; [reflexivity|].
  cbn [TimeSeries.insert_sorted].
  destruct (String.ltb k x) eqn:E.
  - cbn [ascending]. now rewrite E.
  - assert (Hxk : String.ltb x k = true).
    { apply string_ltb_total; [|exact E]. intros ->. apply Hk. now left. }
    assert (Hl' : ascending l = true).
    { destruct l as [|y l]; [reflexivity|].
      cbn [ascending] in Hl. now apply andb_true_iff in Hl. }
    specialize (IH (fun H => Hk (or_intror H)) Hl').
    destruct l as [|y l].
    + cbn [TimeSeries.insert_sorted ascending]. now rewrite Hxk.
    + cbn [TimeSeries.insert_sorted] in *.
      cbn [ascending] in Hl. apply andb_true_iff in Hl. destruct Hl as [Hxy _].
      destruct (String.ltb k y); cbn [ascending] in *.
      * now rewrite Hxk.
      * now rewrite Hxy.
Qed.

Lemma sorted_ascending (l : list string) :
  NoDup l -> ascending (TimeSeries.sorted l) = true.
Proof.
  induction 1 as [|x l Hx _ IH]; [reflexivity|].
  cbn [TimeSeries.sorted fold_right]. fold (TimeSeries.sorted l).
  apply insert_sorted_ascending; [|exact IH].
  now rewrite sorted_in.
Qed.

Lemma filter_head {A} (p : A -> bool) (l : list A) (x : A) (rest : list A) :
  filter p l = x :: rest -> find p l = Some x /\ p x = true.
Proof.
  induction l as [|y l IH]; cbn [filter find]; [discriminate|].
  destruct (p y) eqn:E; [|exact IH].
  intros H. injection H as -> _. now split.
Qed.

Section Selection.
Context {stac_item : Type} (year_month : stac_item -> string).

Lemma selected_months (items : list stac_item) (months : list string) :
  (forall k, In k months -> In k (map year_month items)) ->
  map year_month
      (flat_map (fun month =>
                   match TimeSeries.group_of month
                           (TimeSeries.group_by_month year_month items) with
                   | first :: _ => [first]
                   | [] => []
                   end) months)
  = months.
Proof.
  induction months as [|k months IH]; intros H; [reflexivity|].
  cbn [flat_map]. rewrite map_app, IH by (intros; apply H; now right).
  rewrite group_of_filter.
  destruct (filter _ items) as [|first rest] eqn:E.
  - exfalso. specialize (H k (or_introl eq_refl)).
    apply in_map_iff in H. destruct H as (it & Hit & Hin).
    assert (Hf : In it (filter (fun it => String.eqb (year_month it) k) items)).
    { apply filter_In. split; [exact Hin|]. subst k. apply String.eqb_refl. }
    rewrite E in Hf. contradiction.
  - apply filter_head in E. destruct E as [_ E]. apply String.eqb_eq in E.
    cbn [map app]. now rewrite E.
Qed.

End Selection.

(** X23.  The selection of [fetch_monthly_items], from the items that the
    search returns on: the months of the selected items increase strictly
    (one item per month, months in ascending order); every month that
    occurs among the items found is the month of a selected item; and each
    selected item is the first item found with its month. *)
Theorem monthly_selection {stac_item} (year_month : stac_item -> string)
    (items : list stac_item) :
  let selected := TimeSeries.fetch_monthly_items year_month items in
  ascending (map year_month selected) = true
  /\ (forall it, In it items -> In (year_month it) (map year_month selected))
  /\ (forall sel, In sel selected ->
        find (fun it => String.eqb (year_month it) (year_month sel)) items = Some sel).
Proof.
  intros selected. subst selected. unfold TimeSeries.fetch_monthly_items.
  assert (Hkeys : forall k,
             In k (TimeSeries.sorted
                     (map fst (TimeSeries.group_by_month year_month items))) ->
             In k (map year_month items)).
  { intros k Hk. now apply keys_months, sorted_in. }
  split; [|split].
  - rewrite selected_months by exact Hkeys.
    apply sorted_ascending, keys_nodup.
  - intros it Hit. rewrite selected_months by exact Hkeys.
    apply sorted_in, keys_months. now apply in_map.
  - intros sel Hsel. apply in_flat_map in Hsel. destruct Hsel as (k & _ & Hsel).
    rewrite group_of_filter in Hsel.
    destruct (filter _ items) as [|first rest] eqn:E; [contradiction|].
    destruct Hsel as [<-|[]]. apply filter_head in E. destruct E as [Hf E].
    apply String.eqb_eq in E. now rewrite E.
Qed.

Lemma monthly_selection_witness :
  TimeSeries.fetch_monthly_items fst found_items
  = [("2025-01", "a1"); ("2025-02", "b1"); ("2025-03", "c1")]
  /\ In "2025-02" (map fst (TimeSeries.fetch_monthly_items fst found_items))
  /\ find (fun it => String.eqb (fst it) "2025-03") found_items = Some ("2025-03", "c1").
Proof.
  split; [reflexivity|]. split.
  - apply (proj1 (proj2 (monthly_selection fst found_items)) ("2025-02", "b1")).
    cbn. tauto.
  - apply (proj2 (proj2 (monthly_selection fst found_items)) ("2025-03", "c1")).
    cbn. tauto.
Defined.

(* ===================================================================== *)
(** * Further properties: assets of the GeoCroissant-to-STAC converter *)
(* ===================================================================== *)

Lemma lower_char_not_upper (c : ascii) : is_upper (lower_char c) = false.
Proof.
  unfold lower_char. destruct (is_upper c) eqn:E; [|exact E].
  unfold is_upper in *.
  apply andb_true_iff in E. destruct E as [E1 E2].
  apply Nat.leb_le in E1, E2.
  rewrite nat_ascii_embedding by lia.
  apply andb_false_iff. right. apply Nat.leb_gt. lia.
Qed.

Lemma asset_id_lower_key (s : string) :
  lower_key (lower (GeoCroissantToStac.underscored s)) = true.
Proof.
  unfold lower_key, GeoCroissantToStac.underscored.
  induction s as [|c s IH]; [reflexivity|].
  cbn [map_chars lower all_chars]. rewrite IH, andb_true_r.
  rewrite lower_char_not_upper. cbn [negb andb].
  destruct (Ascii.eqb_spec c " ") as [->|Hc]; [reflexivity|].
  unfold lower_char. destruct (is_upper c) eqn:E.
  - unfold is_upper in E. apply andb_true_iff in E. destruct E as [E1 E2].
    apply Nat.leb_le in E1, E2.
    apply negb_true_iff, Ascii.eqb_neq. intros H.
    apply (f_equal nat_of_ascii) in H.
    rewrite nat_ascii_embedding in H by lia. cbn in H. lia.
  - now apply negb_true_iff, Ascii.eqb_neq.
Qed.

Section Assets.
Context {num : Type} {N : PyNumber num}.
Implicit Types (assets : list (string * @GeoCroissantToStac.asset num)).

Lemma asset_of_added (dist_item : dict num) key a :
  GeoCroissantToStac.asset_of dist_item = Ok (Some (key, a)) ->
  asset_from [VDict dist_item] (key, a).
Proof.
  unfold GeoCroissantToStac.asset_of, asset_from. intros H. cbv zeta in H.
  destruct (GeoCroissantToStac.get_or "contentUrl" _ dist_item) as [| | | |url| |] eqn:Ec;
    destruct (py_bool _) eqn:Eb; cbn [negb] in H; try discriminate.
  assert (Ec' : dict_get "contentUrl" dist_item = Some (VStr url)).
  { unfold GeoCroissantToStac.get_or in Ec.
    destruct (dict_get "contentUrl" dist_item); [now subst|].
    injection Ec as <-. discriminate. }
  clear Ec. rename Ec' into Ec. cbn [py_bool] in Eb.
  destruct (startswith "file://" url) eqn:Es; [discriminate|].
  destruct (GeoCroissantToStac.get_or "encodingFormat" _ dist_item)
    as [| | | |ef| |] eqn:Ee; try discriminate.
  destruct (contains "directory" (lower ef)) eqn:Ed; [discriminate|].
  destruct (GeoCroissantToStac.get_or "@id" _ dist_item) as [| | | |id| |];
    try discriminate.
  destruct (GeoCroissantToStac.names_file_set _) as [fs|]; [|discriminate].
  inversion H; subst; clear H. cbn [fst snd GeoCroissantToStac.href].
  split; [apply asset_id_lower_key|]. split; [exact Eb|]. split; [exact Es|].
  exists dist_item. split; [now left|]. split; [exact Ec|].
  exists ef. now split.
Qed.

Lemma asset_from_more (dist : list (pyval num)) (e : pyval num) ka :
  asset_from dist ka -> asset_from (e :: dist) ka.
Proof.
  intros (H1 & H2 & H3 & di & Hin & H4). repeat split; try assumption.
  exists di. split; [now right|exact H4].
Qed.

Lemma add_asset_in key a assets ka :
  In ka (GeoCroissantToStac.add_asset key a assets) -> ka = (key, a) \/ In ka assets.
Proof.
  induction assets as [|[k a'] rest IH]; cbn [GeoCroissantToStac.add_asset In].
  - intuition.
  - destruct (String.eqb k key); cbn [In]; intuition.
Qed.

Lemma add_asset_keys key a assets :
  NoDup (map fst assets) ->
  NoDup (map fst (GeoCroissantToStac.add_asset key a assets))
  /\ List.length (GeoCroissantToStac.add_asset key a assets) <= S (List.length assets).
Proof.
  induction assets as [|[k a'] rest IH]; cbn [GeoCroissantToStac.add_asset map fst].
  - intros _. split; [repeat constructor; intros []|cbn; lia].
  - intros Hn. inversion Hn as [|? ? Hk Hrest]; subst.
    destruct (String.eqb_spec k key) as [->|Hne]; cbn [map fst List.length].
    + split; [exact Hn|lia].
    + destruct (IH Hrest) as [IH1 IH2]. split; [|lia].
      constructor; [|exact IH1].
      intros Hin. apply in_map_iff in Hin. destruct Hin as ([k2 a2] & Hk2 & Hin).
      cbn [fst] in Hk2. subst k2. apply add_asset_in in Hin.
      destruct Hin as [Hin|Hin]; [congruence|].
      apply Hk. apply in_map_iff. now exists (k, a2).
Qed.

Lemma add_assets_inv (dist : list (pyval num)) assets result :
  GeoCroissantToStac.add_assets dist assets = Ok result ->
  NoDup (map fst assets) ->
  NoDup (map fst result)
  /\ List.length result <= List.length assets + List.length dist
  /\ forall ka, In ka result -> In ka assets \/ asset_from dist ka.
Proof.
  revert assets. induction dist as [|e dist IH]; intros assets H Hn.
  - injection H as <-. split; [exact Hn|]. split; [lia|]. now left.
  - cbn [GeoCroissantToStac.add_assets] in H.
    destruct e as [| | | | | |di]; try discriminate.
    destruct (GeoCroissantToStac.asset_of di) as [[[key a]|]|] eqn:E;
      [| |discriminate].
    + destruct (add_asset_keys key a assets Hn) as [Hn' Hl].
      destruct (IH _ H Hn') as (R1 & R2 & R3).
      split; [exact R1|]. split; [cbn [List.length]; lia|].
      intros ka Hka. destruct (R3 ka Hka) as [Hin|Hfrom].
      * apply add_asset_in in Hin. destruct Hin as [->|Hin]; [|now left].
        right. apply asset_of_added in E.
        destruct E as (H1 & H2 & H3 & d' & [Hd|[]] & H4).
        injection Hd as <-. repeat split; try assumption.
        exists di. split; [now left|exact H4].
      * right. now apply asset_from_more.
    + destruct (IH _ H Hn) as (R1 & R2 & R3).
      split; [exact R1|]. split; [cbn [List.length]; lia|].
      intros ka Hka. destruct (R3 ka Hka) as [Hin|Hfrom]; [now left|].
      right. now apply asset_from_more.
Qed.

End Assets.

(** X24.  The assets that the GeoCroissant-to-STAC converter adds for a
    distribution.  When the loop ends without error, there are at most as
    many assets as entries, their keys are pairwise distinct and hold
    neither a space nor an upper-case letter, and every asset comes from an
    entry whose contentUrl is its href, a non-empty string that does not
    start with "file://", and whose encodingFormat does not contain
    "directory" in any letter case.  So the distributions of the SDO and
    Landslide4Sense records, a directory and a file set without contentUrl,
    give no asset at all, whatever the data directory is. *)
Theorem stac_assets_from_distribution {num} {N : PyNumber num} :
  (forall (dist : list (pyval num)) assets,
      GeoCroissantToStac.add_assets dist [] = Ok assets ->
      List.length assets <= List.length dist
      /\ NoDup (map fst assets)
      /\ forall key a, In (key, a) assets -> asset_from dist (key, a))
  /\ (forall data_dir n,
        GeoCroissantToStac.add_assets (@Sdo.distribution num data_dir n) [] = Ok [])
  /\ GeoCroissantToStac.add_assets (@L4s.distribution num) [] = Ok [].
Proof.
  split; [|split].
  - intros dist assets H.
    destruct (add_assets_inv dist [] assets H (NoDup_nil _)) as (R1 & R2 & R3).
    split; [exact R2|]. split; [exact R1|].
    intros key a Hin. destruct (R3 _ Hin) as [[]|Hf]. exact Hf.
  - intros data_dir n.
    cbn [GeoCroissantToStac.add_assets Sdo.distribution].
    unfold GeoCroissantToStac.asset_of at 1.
    cbn [GeoCroissantToStac.get_or dict_get String.eqb Ascii.eqb Bool.eqb py_bool].
    destruct (nonempty data_dir); [|reflexivity]. cbn [negb].
    destruct (startswith "file://" data_dir); reflexivity.
  - reflexivity.
Qed.

Lemma stac_assets_from_distribution_witness :
  exists assets first second,
    GeoCroissantToStac.add_assets mixed_distribution [] = Ok assets
    /\ assets = [("band_1", second)]
    /\ GeoCroissantToStac.asset_of
         [ ("@id", VStr "Band 1"); ("contentUrl", VStr "https://x.example/b1.tif");
           ("encodingFormat", VStr "image/tiff") ] = Ok (Some ("band_1", first))
    /\ GeoCroissantToStac.roles second = ["data"; "collection"]
    /\ asset_from mixed_distribution ("band_1", second).
Proof.
  eexists _, _, _. split; [reflexivity|]. split; [reflexivity|].
  split; [reflexivity|]. split; [reflexivity|].
  apply (proj1 (@stac_assets_from_distribution Z _) mixed_distribution _ eq_refl).
  now left.
Defined.

Lemma underscored_clean (s : string) :
  free_of " " s = true -> GeoCroissantToStac.underscored s = s.
Proof.
  unfold free_of, GeoCroissantToStac.underscored.
  induction s as [|c s IH]; [reflexivity|]. cbn [all_chars map_chars].
  intros H. apply andb_true_iff in H. destruct H as [Hc Hs].
  apply negb_true_iff in Hc. now rewrite Hc, IH.
Qed.

Lemma underscored_spec (s : string) :
  free_of " " (GeoCroissantToStac.underscored s) = true
  /\ String.length (GeoCroissantToStac.underscored s) = String.length s.
Proof.
  unfold free_of, GeoCroissantToStac.underscored. split.
  - induction s as [|c s IH]; [reflexivity|]. cbn [all_chars map_chars].
    rewrite IH, andb_true_r.
    destruct (Ascii.eqb_spec c " ") as [->|Hc]; [reflexivity|].
    now apply negb_true_iff, Ascii.eqb_neq.
  - apply map_chars_length.
Qed.

Lemma name_chars_no_space (s : string) :
  all_chars name_char_ok s = true -> free_of " " s = true.
Proof.
  unfold free_of. induction s as [|c s IH]; [reflexivity|]. cbn [all_chars].
  intros H. apply andb_true_iff in H. destruct H as [Hc Hs].
  rewrite (IH Hs), andb_true_r.
  destruct (Ascii.eqb_spec c " ") as [->|]; [discriminate|reflexivity].
Qed.

(** X25.  The item id of the GeoCroissant-to-STAC converter is the name of
    the record with every space replaced by "_" (same length, no space
    left), "unknown" when there is no name, and a name that is not a string
    raises AttributeError.  On a record made by the STAC converter the id
    is the record's name unchanged, so an item whose id is non-empty and
    made of letters, digits, "_" and "-" only gets its own id back. *)
Theorem item_id_there_and_back {num} {N : PyNumber num} :
  (forall g : dict num,
      dict_get "name" g = None -> GeoCroissantToStac.item_id g = Ok "unknown")
  /\ (forall (g : dict num) name,
        dict_get "name" g = Some (VStr name) ->
        exists id,
          GeoCroissantToStac.item_id g = Ok id
          /\ free_of " " id = true /\ String.length id = String.length name)
  /\ (forall (g : dict num) v,
        dict_get "name" g = Some v -> (forall s, v <> VStr s) ->
        GeoCroissantToStac.item_id g = Raise "AttributeError")
  /\ (forall now (d : stac_doc num),
        GeoCroissantToStac.item_id (fst (stac_to_geocroissant now d))
        = Ok (dataset_name d))
  /\ (forall now (d : stac_doc num) id,
        is_item d = true -> s_id d = Some id -> nonempty id = true ->
        all_chars name_char_ok id = true ->
        GeoCroissantToStac.item_id (fst (stac_to_geocroissant now d)) = Ok id).
Proof.
  assert (Hback : forall now (d : stac_doc num),
             GeoCroissantToStac.item_id (fst (stac_to_geocroissant now d))
             = Ok (dataset_name d)).
  { intros now d. unfold GeoCroissantToStac.item_id, GeoCroissantToStac.get_or.
    rewrite stac_header_get by (cbn; auto).
    cbn [header dict_get String.eqb Ascii.eqb Bool.eqb].
    rewrite underscored_clean; [reflexivity|].
    apply name_chars_no_space.
    unfold dataset_name. destruct (is_item d); apply sanitize_name_ok. }
  split; [|split; [|split; [|split]]].
  - intros g Hg. unfold GeoCroissantToStac.item_id, GeoCroissantToStac.get_or.
    now rewrite Hg.
  - intros g name Hg. exists (GeoCroissantToStac.underscored name).
    unfold GeoCroissantToStac.item_id, GeoCroissantToStac.get_or. rewrite Hg.
    split; [reflexivity|apply underscored_spec].
  - intros g v Hg Hv. unfold GeoCroissantToStac.item_id, GeoCroissantToStac.get_or.
    rewrite Hg. destruct v; try reflexivity. now destruct (Hv s).
  - exact Hback.
  - intros now d id Hi Hid Hne Hok. rewrite Hback.
    unfold dataset_name, or_else. rewrite Hi, Hid, Hne.
    now rewrite sanitize_name_clean.
Qed.

Lemma item_id_there_and_back_witness :
  let d := item_doc dated [("B01", plain_asset)] None in
  GeoCroissantToStac.item_id (fst (stac_to_geocroissant run_2024 d))
  = Ok "S2A_T10SEG_20170430"
  /\ @GeoCroissantToStac.item_id Z [("name", VStr "HLS Sentinel 2")]
     = Ok "HLS_Sentinel_2"
  /\ @GeoCroissantToStac.item_id Z [("name", VNone)] = Raise "AttributeError".
Proof.
  split; [|split].
  - apply (proj2 (proj2 (proj2 (proj2 (@item_id_there_and_back Z _))))); reflexivity.
  - destruct (proj1 (proj2 (@item_id_there_and_back Z _))
                [("name", VStr "HLS Sentinel 2")] "HLS Sentinel 2" eq_refl)
      as (id & Hid & _).
    rewrite Hid. cbn in Hid. exact (eq_sym Hid).
  - apply (proj1 (proj2 (proj2 (@item_id_there_and_back Z _)))
             [("name", VNone)] VNone eq_refl).
    discriminate.
Defined.

Section AssetsBack.
Context {num : Type} {N : PyNumber num}.

Lemma asset_entry_more key (a : asset num) :
  let fo := fst (asset_entry key a) in
  dict_get "description" fo
  = Some (VStr (match a_description a with
                | Some s => s
                | None => default EmptyString (a_title a)
                end))
  /\ dict_get "includes" fo = None.
Proof.
  unfold asset_entry, file_object_of, asset_bands.
  destruct (a_checksum_multihash a), (a_file_checksum a), (a_checksum_md5 a),
    (a_bands a) as [[|b bs]|]; repeat split.
Qed.

Lemma asset_of_entry key (a : asset num) :
  GeoCroissantToStac.asset_of (fst (asset_entry key a))
  = match a_href a with
    | Some h =>
        if negb (nonempty h) || startswith "file://" h
           || contains "directory"
                (lower (default "application/octet-stream" (a_type a)))
        then Ok None
        else
          Ok (Some
                (lower (GeoCroissantToStac.underscored key),
                 {| GeoCroissantToStac.href := h;
                    GeoCroissantToStac.media :=
                      GeoCroissantToStac.determine_media_type
                        (default "application/octet-stream" (a_type a));
                    GeoCroissantToStac.title :=
                      VStr (match a_description a with
                            | Some s => s
                            | None => default EmptyString (a_title a)
                            end);
                    GeoCroissantToStac.roles := ["data"];
                    GeoCroissantToStac.file_pattern := None |}))
    | None => Ok None
    end.
Proof.
  destruct (asset_entry_fields key a) as (Ht & Hi & Hn & Hc & He).
  destruct (asset_entry_more key a) as (Hd & Hinc).
  unfold GeoCroissantToStac.asset_of, GeoCroissantToStac.get_or.
  rewrite Ht, Hi, Hc, He, Hd, Hinc.
  destruct (a_href a) as [h|]; cbn [vopt py_bool]; [|reflexivity].
  destruct (nonempty h); cbn [negb orb]; [|reflexivity].
  destruct (startswith "file://" h); [reflexivity|].
  destruct (contains "directory" _); reflexivity.
Qed.

End AssetsBack.

(** X26.  An asset of a STAC document, converted to a FileObject and back.
    An asset without href, with an empty href, with a "file://" href or with
    a type that contains "directory" is lost.  Any other asset comes back
    with its href, with its description (else its title, else the empty
    string) as title and with the single role "data", but under its key in
    lower case and with "_" for every space: the key itself comes back only
    when it has no space and no upper-case letter. *)
Theorem asset_there_and_back {num} {N : PyNumber num}
    (key : string) (a : asset num) :
  (a_href a = None \/ a_href a = Some EmptyString ->
   GeoCroissantToStac.asset_of (fst (asset_entry key a)) = Ok None)
  /\ (forall h, a_href a = Some h ->
        startswith "file://" h = true
        \/ contains "directory"
             (lower (default "application/octet-stream" (a_type a))) = true ->
        GeoCroissantToStac.asset_of (fst (asset_entry key a)) = Ok None)
  /\ (forall h, a_href a = Some h -> nonempty h = true ->
        startswith "file://" h = false ->
        contains "directory"
          (lower (default "application/octet-stream" (a_type a))) = false ->
        exists back,
          GeoCroissantToStac.asset_of (fst (asset_entry key a))
          = Ok (Some (lower (GeoCroissantToStac.underscored key), back))
          /\ GeoCroissantToStac.href back = h
          /\ GeoCroissantToStac.roles back = ["data"]
          /\ GeoCroissantToStac.file_pattern back = None
          /\ GeoCroissantToStac.title back
             = VStr (match a_description a with
                     | Some s => s
                     | None => default EmptyString (a_title a)
                     end)
          /\ (lower_key key = true ->
              lower (GeoCroissantToStac.underscored key) = key)
          /\ (lower_key key = false ->
              lower (GeoCroissantToStac.underscored key) <> key)).
Proof.
  rewrite asset_of_entry. split; [|split].
  - intros [->| ->]; reflexivity.
  - intros h -> [Hf|Hd].
    + rewrite Hf, orb_true_r. reflexivity.
    + rewrite Hd, orb_true_r. reflexivity.
  - intros h -> Hn Hf Hd. rewrite Hn, Hf, Hd. cbn [negb orb].
    eexists. split; [reflexivity|]. cbn.
    repeat (split; [reflexivity|]).
    split.
    + unfold lower_key, GeoCroissantToStac.underscored.
      induction key as [|c key IH]; [reflexivity|].
      cbn [all_chars map_chars lower]. intros H.
      apply andb_true_iff in H. destruct H as [Hc Hk].
      apply andb_true_iff in Hc. destruct Hc as [Hu Hs].
      apply negb_true_iff in Hu, Hs. rewrite Hs. unfold lower_char.
      rewrite Hu. now rewrite (IH Hk).
    + intros Hl Heq.
      pose proof (asset_id_lower_key key) as Hk. rewrite Heq in Hk. congruence.
Qed.

Lemma asset_there_and_back_witness :
  exists back,
    GeoCroissantToStac.asset_of (fst (asset_entry "B01" plain_asset))
    = Ok (Some ("b01", back))
    /\ GeoCroissantToStac.href back = "https://data.example/B01.tif"
    /\ GeoCroissantToStac.title back = VStr "Band 1".
Proof.
  destruct (proj2 (proj2 (asset_there_and_back "B01" plain_asset))
              "https://data.example/B01.tif" eq_refl eq_refl eq_refl eq_refl)
    as (back & Hb & Hh & _ & _ & Ht & _).
  exists back. split; [exact Hb|]. split; [exact Hh|exact Ht].
Defined.

(* ===================================================================== *)
(** * Further properties: distributions in the GeoDCAT converter *)
(* ===================================================================== *)

Section GeoDcatDistributions.
Context {num : Type} (py_str : pyval num -> string).
Implicit Types (dist : dict num).

Lemma add_if_present_other key k v subject predicate make dist :
  k <> key ->
  GeoDcat.add_if_present key subject predicate make (dict_set k v dist)
  = GeoDcat.add_if_present key subject predicate make dist.
Proof.
  intros H. unfold GeoDcat.add_if_present. now rewrite dict_get_set_ne.
Qed.

Lemma has_type_other t k v dist :
  k <> "@type" -> GeoDcat.has_type t (dict_set k v dist) = GeoDcat.has_type t dist.
Proof. intros H. unfold GeoDcat.has_type. now rewrite dict_get_set_ne. Qed.

Lemma dist_uri_other uri default_id k v dist :
  k <> "@id" ->
  GeoDcat.dist_uri py_str uri default_id (dict_set k v dist)
  = GeoDcat.dist_uri py_str uri default_id dist.
Proof. intros H. unfold GeoDcat.dist_uri. now rewrite dict_get_set_ne. Qed.

Lemma add_if_present_predicate key subject predicate make dist s p o :
  In (s, p, o) (GeoDcat.add_if_present key subject predicate make dist) ->
  p = predicate.
Proof.
  unfold GeoDcat.add_if_present. destruct (dict_get key dist); [|intros []].
  intros [H|[]]. now injection H.
Qed.

Lemma file_object_triples uri next dist :
  GeoDcat.has_type "cr:FileObject" dist = true ->
  snd (GeoDcat.distribution_triples py_str uri next dist)
  = (if dict_has "md5" dist then S next else next)
  /\ (dict_get "md5" dist = None ->
      forall s o,
        ~ In (s, GeoDcat.NS "spdx" "checksum", o)
             (fst (GeoDcat.distribution_triples py_str uri next dist))).
Proof.
  intros Ht. unfold GeoDcat.distribution_triples, dict_has. rewrite Ht.
  destruct (dict_get "md5" dist) as [md5|]; cbn [fst snd]; split; try reflexivity;
    try discriminate.
  intros _ s o Hin.
  repeat (apply in_app_or in Hin; destruct Hin as [Hin|Hin]);
    try (apply add_if_present_predicate in Hin; discriminate).
  cbn [In] in Hin. destruct Hin as [H|[H|[]]]; discriminate.
Qed.

End GeoDcatDistributions.

(** X27.  Distributions in the GeoDCAT converter.  The sha256 of an entry
    is never translated: setting or changing it changes no triple, and a
    checksum node (the only blank node of the loop) is made exactly for a
    FileObject that has an md5.  So the FileObject that the STAC converter
    writes for an asset without checksum:md5 gets no spdx:checksum, although
    it always has a sha256.  The contentUrl and the containedIn of a FileSet
    are not translated either, and an entry of another type adds nothing.
    An entry without "@id" gets the default identifier, so all FileObjects
    of the NASA converter, which have none, share one distribution URI. *)
Theorem geodcat_distribution_checksums {num} {N : PyNumber num}
    (py_str : pyval num -> string) (uri : string) (next : nat) :
  (forall dist v,
      GeoDcat.distribution_triples py_str uri next (dict_set "sha256" v dist)
      = GeoDcat.distribution_triples py_str uri next dist)
  /\ (forall dist,
        GeoDcat.has_type "cr:FileObject" dist = true ->
        snd (GeoDcat.distribution_triples py_str uri next dist)
        = (if dict_has "md5" dist then S next else next)
        /\ (dict_get "md5" dist = None ->
            forall s o,
              ~ In (s, GeoDcat.NS "spdx" "checksum", o)
                   (fst (GeoDcat.distribution_triples py_str uri next dist))))
  /\ (forall key (a : asset num),
        a_checksum_md5 a = None ->
        dict_has "sha256" (fst (asset_entry key a)) = true
        /\ forall s o,
            ~ In (s, GeoDcat.NS "spdx" "checksum", o)
                 (fst (GeoDcat.distribution_triples py_str uri next
                         (fst (asset_entry key a)))))
  /\ (forall dist v,
        GeoDcat.has_type "cr:FileSet" dist = true ->
        GeoDcat.distribution_triples py_str uri next (dict_set "contentUrl" v dist)
        = GeoDcat.distribution_triples py_str uri next dist
        /\ GeoDcat.distribution_triples py_str uri next (dict_set "containedIn" v dist)
           = GeoDcat.distribution_triples py_str uri next dist
        /\ snd (GeoDcat.distribution_triples py_str uri next dist) = next)
  /\ (forall dist,
        GeoDcat.has_type "cr:FileObject" dist = false ->
        GeoDcat.has_type "cr:FileSet" dist = false ->
        GeoDcat.distribution_triples py_str uri next dist = ([], next))
  /\ ((forall s, py_str (VStr s) = s) ->
      forall url_info : NasaUmm.related_url,
        GeoDcat.dist_uri py_str uri "distribution" (NasaUmm.file_object url_info)
        = uri ++ "/distribution/distribution").
Proof.
  split; [|split; [|split; [|split; [|split]]]].
  - intros dist v. unfold GeoDcat.distribution_triples.
    rewrite !has_type_other, !dist_uri_other, !add_if_present_other by discriminate.
    now rewrite dict_get_set_ne by discriminate.
  - intros dist Ht. now apply file_object_triples.
  - intros key a Hmd5.
    destruct (asset_entry_checksums key a) as [Hsha Hm]. rewrite Hmd5 in Hm, Hsha.
    split.
    + unfold dict_has. rewrite Hsha.
      now destruct (a_checksum_multihash a), (a_file_checksum a).
    + apply file_object_triples; [|exact Hm].
      unfold GeoDcat.has_type.
      now rewrite (proj1 (asset_entry_fields key a)).
  - intros dist v Ht.
    assert (Ho : GeoDcat.has_type "cr:FileObject" dist = false).
    { unfold GeoDcat.has_type in *.
      destruct (dict_get "@type" dist) as [[| | | |t| |]|]; try discriminate.
      apply String.eqb_eq in Ht. now subst t. }
    unfold GeoDcat.distribution_triples.
    rewrite !has_type_other by discriminate. rewrite Ho, Ht.
    rewrite !dist_uri_other, !add_if_present_other by discriminate.
    repeat split.
  - intros dist Ho Hs. unfold GeoDcat.distribution_triples. now rewrite Ho, Hs.
  - intros Hstr url_info. unfold GeoDcat.dist_uri.
    cbn [NasaUmm.file_object dict_get String.eqb Ascii.eqb Bool.eqb].
    now rewrite Hstr.
Qed.

Lemma geodcat_distribution_checksums_witness :
  (forall s o,
      ~ In (s, GeoDcat.NS "spdx" "checksum", o)
           (fst (GeoDcat.distribution_triples str_of_value "https://example.org/d" 0
                   (fst (asset_entry "B01" plain_asset)))))
  /\ snd (GeoDcat.distribution_triples str_of_value "https://example.org/d" 0
            (fst (asset_entry "B02" hashed_asset))) = 1
  /\ GeoDcat.dist_uri str_of_value "https://example.org/d" "distribution"
       (@NasaUmm.file_object Z
          {| NasaUmm.URL := Some "https://data.example/a.tif";
             NasaUmm.Type_ := None; NasaUmm.Subtype := None;
             NasaUmm.Description := None |})
     = "https://example.org/d/distribution/distribution".
Proof.
  pose proof (@geodcat_distribution_checksums Z _ str_of_value
                "https://example.org/d" 0) as (_ & H2 & H3 & _ & _ & H6).
  split; [|split].
  - apply (H3 "B01" plain_asset eq_refl).
  - apply (proj1 (H2 (fst (asset_entry "B02" hashed_asset)) eq_refl)).
  - apply H6. reflexivity.
Defined.

(* ===================================================================== *)
(** * Further properties: the dataset URI of the GeoDCAT converter *)
(* ===================================================================== *)

Lemma hex_digit_code (n : nat) :
  n < 16 ->
  nat_of_ascii (GeoDcat.hex_digit n) = if (n <? 10)%nat then 48 + n else 55 + n.
Proof.
  intros H. unfold GeoDcat.hex_digit.
  destruct (n <? 10)%nat; apply nat_ascii_embedding; lia.
Qed.

Lemma hex_digit_inj (n m : nat) :
  n < 16 -> m < 16 -> GeoDcat.hex_digit n = GeoDcat.hex_digit m -> n = m.
Proof.
  intros Hn Hm H. apply (f_equal nat_of_ascii) in H.
  rewrite !hex_digit_code in H by assumption.
  destruct (Nat.ltb_spec n 10), (Nat.ltb_spec m 10); lia.
Qed.

Lemma percent_encoded_inj (c d : ascii) :
  GeoDcat.percent_encoded c = GeoDcat.percent_encoded d -> c = d.
Proof.
  unfold GeoDcat.percent_encoded.
  pose proof (nat_ascii_bounded c) as Bc. pose proof (nat_ascii_bounded d) as Bd.
  assert (Qc : nat_of_ascii c / 16 < 16) by (apply Nat.Div0.div_lt_upper_bound; lia).
  assert (Qd : nat_of_ascii d / 16 < 16) by (apply Nat.Div0.div_lt_upper_bound; lia).
  assert (Rc : nat_of_ascii c mod 16 < 16) by (apply Nat.mod_upper_bound; lia).
  assert (Rd : nat_of_ascii d mod 16 < 16) by (apply Nat.mod_upper_bound; lia).
  pose proof (Nat.div_mod_eq (nat_of_ascii c) 16) as Ec.
  pose proof (Nat.div_mod_eq (nat_of_ascii d) 16) as Ed.
  revert Qc Qd Rc Rd Ec Ed.
  generalize (nat_of_ascii c / 16), (nat_of_ascii d / 16),
    (nat_of_ascii c mod 16), (nat_of_ascii d mod 16).
  intros qc qd rc rd Qc Qd Rc Rd Ec Ed H. injection H as H1 H2.
  apply hex_digit_inj in H1; [|assumption ..].
  apply hex_digit_inj in H2; [|assumption ..].
  rewrite <- (ascii_nat_embedding c), <- (ascii_nat_embedding d).
  f_equal. lia.
Qed.

Lemma hex_digit_safe (n : nat) :
  n < 16 -> GeoDcat.always_safe (GeoDcat.hex_digit n) = true.
Proof.
  intros H.
  do 16 (destruct n as [|n]; [reflexivity|]). lia.
Qed.

Lemma quote_chars (s : string) :
  all_chars (fun c => GeoDcat.always_safe c || Ascii.eqb c "%") (GeoDcat.quote s) = true.
Proof.
  induction s as [|c s IH]; [reflexivity|]. cbn [GeoDcat.quote].
  destruct (GeoDcat.always_safe c) eqn:E.
  - cbn [append all_chars]. now rewrite E, IH.
  - unfold GeoDcat.percent_encoded. cbn [append all_chars]. rewrite IH.
    pose proof (nat_ascii_bounded c) as Bc.
    rewrite !hex_digit_safe; [reflexivity| |].
    + apply Nat.mod_upper_bound. lia.
    + apply Nat.Div0.div_lt_upper_bound. lia.
Qed.

Lemma quote_safe (s : string) :
  all_chars GeoDcat.always_safe s = true -> GeoDcat.quote s = s.
Proof.
  induction s as [|c s IH]; [reflexivity|]. cbn [all_chars GeoDcat.quote].
  intros H. apply andb_true_iff in H. destruct H as [Hc Hs].
  now rewrite Hc, (IH Hs).
Qed.

Lemma quote_inj (s t : string) : GeoDcat.quote s = GeoDcat.quote t -> s = t.
Proof.
  revert t. induction s as [|c s IH]; intros [|d t]; cbn [GeoDcat.quote].
  - reflexivity.
  - destruct (GeoDcat.always_safe d); discriminate.
  - destruct (GeoDcat.always_safe c); discriminate.
  - destruct (GeoDcat.always_safe c) eqn:Ec, (GeoDcat.always_safe d) eqn:Ed;
      unfold GeoDcat.percent_encoded; cbn [append]; intros H.
    + injection H as -> H. now rewrite (IH t H).
    + injection H as -> _. discriminate.
    + injection H as <- _. discriminate.
    + assert (Hp : GeoDcat.percent_encoded c = GeoDcat.percent_encoded d
                   /\ GeoDcat.quote s = GeoDcat.quote t).
      { unfold GeoDcat.percent_encoded.
        revert H.
        generalize (GeoDcat.hex_digit (nat_of_ascii c / 16)),
          (GeoDcat.hex_digit (nat_of_ascii d / 16)),
          (GeoDcat.hex_digit (nat_of_ascii c mod 16)),
          (GeoDcat.hex_digit (nat_of_ascii d mod 16)).
        intros a1 a2 b1 b2 H. injection H as -> -> H. now split. }
      destruct Hp as [Hp Hq]. apply percent_encoded_inj in Hp.
      subst d. now rewrite (IH t Hq).
Qed.

Lemma name_chars_safe (s : string) :
  all_chars name_char_ok s = true -> all_chars GeoDcat.always_safe s = true.
Proof.
  induction s as [|c s IH]; [reflexivity|]. cbn [all_chars].
  intros H. apply andb_true_iff in H. destruct H as [Hc Hs].
  rewrite (IH Hs), andb_true_r.
  unfold name_char_ok in Hc. unfold GeoDcat.always_safe.
  repeat (apply orb_true_iff in Hc; destruct Hc as [Hc|Hc]);
    rewrite Hc, ?orb_true_r; reflexivity.
Qed.

(** X28.  The dataset URI of the GeoDCAT converter.  A record without
    "name" raises KeyError (the default "dataset" never names a graph), as
    does a record without "description"; a name that is not a string raises
    TypeError.  The quoted name holds only letters, digits, "_", ".", "-",
    "~" and "%", a name made of the first six kinds is quoted as itself, and
    different names are quoted differently.  A record made by the STAC
    converter always has both keys, and its URI is "https://example.org/"
    followed by its name unchanged. *)
Theorem geodcat_dataset_uri {num} {N : PyNumber num} :
  (forall g : dict num,
      dict_get "name" g = None -> GeoDcat.dataset_header g = Raise "KeyError")
  /\ (forall (g : dict num) name,
        dict_get "name" g = Some (VStr name) -> dict_get "description" g = None ->
        GeoDcat.dataset_header g = Raise "KeyError")
  /\ (forall (g : dict num) v,
        dict_get "name" g = Some v -> (forall s, v <> VStr s) ->
        GeoDcat.dataset_header g = Raise "TypeError")
  /\ (forall s,
        all_chars (fun c => GeoDcat.always_safe c || Ascii.eqb c "%")
                  (GeoDcat.quote s) = true)
  /\ (forall s, all_chars GeoDcat.always_safe s = true -> GeoDcat.quote s = s)
  /\ (forall s t, GeoDcat.quote s = GeoDcat.quote t -> s = t)
  /\ (forall now (d : stac_doc num),
        exists triples,
          GeoDcat.dataset_header (fst (stac_to_geocroissant now d))
          = Ok ("https://example.org/" ++ dataset_name d, triples)).
Proof.
  split; [|split; [|split; [|split; [|split; [|split]]]]].
  - intros g Hg. unfold GeoDcat.dataset_header. now rewrite Hg.
  - intros g name Hg Hd. unfold GeoDcat.dataset_header. now rewrite Hg, Hd.
  - intros g v Hg Hv. unfold GeoDcat.dataset_header. rewrite Hg.
    destruct v; try reflexivity. now destruct (Hv s).
  - apply quote_chars.
  - apply quote_safe.
  - apply quote_inj.
  - intros now d. unfold GeoDcat.dataset_header.
    rewrite (stac_header_get "name"), (stac_header_get "description")
      by (cbn; auto 10).
    cbn [header dict_get String.eqb Ascii.eqb Bool.eqb].
    rewrite quote_safe; [eexists; reflexivity|].
    apply name_chars_safe.
    unfold dataset_name. destruct (is_item d); apply sanitize_name_ok.
Qed.

Lemma geodcat_dataset_uri_witness :
  GeoDcat.quote "HLS Sentinel-2/v2" = "HLS%20Sentinel-2%2Fv2"
  /\ GeoDcat.quote "S2A_T10SEG_20170430" = "S2A_T10SEG_20170430"
  /\ @GeoDcat.dataset_header Z [("name", VStr "sdo")] = Raise "KeyError"
  /\ @GeoDcat.dataset_header Z [("name", VInt 7); ("description", VStr "d")]
     = Raise "TypeError".
Proof.
  pose proof (@geodcat_dataset_uri Z _) as (_ & H2 & H3 & _ & H5 & _).
  split; [reflexivity|]. split; [|split].
  - apply H5. reflexivity.
  - apply (H2 _ "sdo"); reflexivity.
  - apply (H3 _ (VInt 7)); [reflexivity|discriminate].
Defined.

(* ===================================================================== *)
(** * Further properties: the EPSG code on the way back *)
(* ===================================================================== *)

Lemma replace_free (old new : string) (c : ascii) (rest s : string) :
  old = String c rest -> free_of c s = true ->
  GeoCroissantToStac.replace_from old new 0 s = s.
Proof.
  intros -> H. unfold free_of in H.
  induction s as [|a s IH]; [reflexivity|].
  cbn [all_chars] in H. apply andb_true_iff in H. destruct H as [Ha Hs].
  cbn [GeoCroissantToStac.replace_from String.prefix].
  destruct (ascii_dec c a) as [->|_].
  - rewrite Ascii.eqb_refl in Ha. discriminate.
  - now rewrite (IH Hs).
Qed.

Lemma str_Z_no_letter (z : Z) : free_of "E" (str_Z z) = true.
Proof.
  assert (Hu : forall u, free_of "E" (NilEmpty.string_of_uint u) = true)
    by (intros u; unfold free_of; induction u; cbn; auto).
  assert (Hn : forall u, free_of "E" (NilZero.string_of_uint u) = true)
    by (intros u; unfold NilZero.string_of_uint; destruct u;
        try reflexivity; apply Hu).
  unfold str_Z, Z.to_int.
  destruct z as [|p|p]; cbn [NilZero.string_of_int]; [reflexivity|apply Hn|].
  unfold free_of. cbn [all_chars Ascii.eqb Bool.eqb negb andb]. apply Hn.
Qed.

Section Projection.
Context {num : Type} {N : PyNumber num} (py_int : string -> option Z).

Lemma projection_of_code (code : string) :
  free_of "E" code = true ->
  GeoCroissantToStac.projection_epsg py_int (Some (@VStr num ("EPSG:" ++ code)))
  = match py_int code with
    | Some z => Ok (Some z)
    | None => Raise "ValueError"
    end.
Proof.
  intros H. unfold GeoCroissantToStac.projection_epsg.
  cbn [py_bool nonempty append negb].
  change (String "E" (String "P" (String "S" (String "G" (String ":" code)))))
    with ("EPSG:" ++ code).
  rewrite (contains_prefix "EPSG:" ("EPSG:" ++ code) (prefix_append "EPSG:" code)).
  unfold GeoCroissantToStac.replace.
  cbn [append GeoCroissantToStac.replace_from String.prefix String.length Nat.sub].
  destruct (ascii_dec "E" "E") as [_|n]; [|now destruct n].
  destruct (ascii_dec "P" "P") as [_|n]; [|now destruct n].
  destruct (ascii_dec "S" "S") as [_|n]; [|now destruct n].
  destruct (ascii_dec "G" "G") as [_|n]; [|now destruct n].
  destruct (ascii_dec ":" ":") as [_|n]; [|now destruct n].
  rewrite (prefix_nil code). cbn [append].
  now rewrite (replace_free "EPSG:" EmptyString "E" "PSG:" code eq_refl H).
Qed.

End Projection.

Lemma stac_item_epsg {num} {N : PyNumber num} (now : datetime) (d : stac_doc num)
    (e : num) :
  is_item d = true ->
  proj_epsg (default no_properties (s_properties d)) = Some e ->
  dict_get "geocr:coordinateReferenceSystem" (fst (stac_to_geocroissant now d))
  = Some (VStr ("EPSG:" ++ num_str e)).
Proof.
  intros Hi He. unfold stac_to_geocroissant. cbn [fst].
  rewrite set_live_get by discriminate.
  unfold set_crs, crs_key. rewrite Hi, He. apply dict_get_set_eq.
Qed.

(** X29.  The projection that the GeoCroissant-to-STAC converter adds.
    Without a coordinate reference system, or with one that is a string
    without "EPSG:" (such as the label "UTM Zone 33" that the STAC converter
    writes for a projected WKT2), no projection is added.  For "EPSG:"
    followed by the decimal form of an integer the code is that integer;
    when what is left after removing "EPSG:" is not read by [int], ValueError
    is raised; a number or a boolean in place of the string raises
    TypeError.  So the integer proj:epsg of a STAC item comes back unchanged
    after both conversions. *)
Theorem epsg_there_and_back (py_int : string -> option Z) :
  (forall z, py_int (str_Z z) = Some z) ->
  (forall num (N : PyNumber num),
      GeoCroissantToStac.projection_epsg py_int (@None (pyval num)) = Ok None)
  /\ (forall num (N : PyNumber num) crs,
        contains "EPSG:" crs = false ->
        GeoCroissantToStac.projection_epsg py_int (Some (@VStr num crs)) = Ok None)
  /\ (forall num (N : PyNumber num) z,
        GeoCroissantToStac.projection_epsg py_int
          (Some (@VStr num ("EPSG:" ++ str_Z z))) = Ok (Some z))
  /\ (forall num (N : PyNumber num) crs,
        contains "EPSG:" crs = true ->
        py_int (GeoCroissantToStac.replace "EPSG:" EmptyString crs) = None ->
        GeoCroissantToStac.projection_epsg py_int (Some (@VStr num crs))
        = Raise "ValueError")
  /\ (forall num (N : PyNumber num) (x : num) b,
        num_bool x = true ->
        GeoCroissantToStac.projection_epsg py_int (Some (VNum x)) = Raise "TypeError"
        /\ GeoCroissantToStac.projection_epsg py_int (Some (@VBool num b))
           = if b then Raise "TypeError" else Ok None)
  /\ (forall now (d : stac_doc Z) e,
        is_item d = true ->
        proj_epsg (default no_properties (s_properties d)) = Some e ->
        GeoCroissantToStac.projection_epsg py_int
          (dict_get "geocr:coordinateReferenceSystem"
             (fst (stac_to_geocroissant now d)))
        = Ok (Some e)).
Proof.
  intros Hint. split; [|split; [|split; [|split; [|split]]]].
  - reflexivity.
  - intros num N crs Hc. unfold GeoCroissantToStac.projection_epsg.
    rewrite Hc. cbn [py_bool]. now destruct (nonempty crs).
  - intros num N z. rewrite projection_of_code by apply str_Z_no_letter.
    now rewrite Hint.
  - intros num N crs Hc Hi. unfold GeoCroissantToStac.projection_epsg.
    rewrite Hc, Hi. cbn [py_bool].
    rewrite (contains_nonempty "EPSG:" crs eq_refl Hc). reflexivity.
  - intros num N x b Hx. unfold GeoCroissantToStac.projection_epsg.
    cbn [py_bool]. rewrite Hx. split; [reflexivity|now destruct b].
  - intros now d e Hi He. rewrite (stac_item_epsg now d e Hi He).
    cbn [num_str Z_PyNumber].
    rewrite projection_of_code by apply str_Z_no_letter.
    now rewrite Hint.
Qed.

Lemma epsg_there_and_back_witness :
  let d := item_doc projected [("B01", plain_asset)] None in
  GeoCroissantToStac.projection_epsg int_float
    (dict_get "geocr:coordinateReferenceSystem" (fst (stac_to_geocroissant run_2024 d)))
  = Ok (Some 32633%Z)
  /\ GeoCroissantToStac.projection_epsg int_float (Some (@VStr Z "UTM Zone 33"))
     = Ok None
  /\ GeoCroissantToStac.projection_epsg int_float (Some (@VStr Z "EPSG:32633.0"))
     = Raise "ValueError".
Proof.
  pose proof (epsg_there_and_back int_float
                (fun z => proj2 (reads_back_int z))) as (_ & H2 & _ & H4 & _ & H6).
  split; [|split].
  - apply H6; reflexivity.
  - apply H2. reflexivity.
  - apply H4; reflexivity.
Defined.

(* ===================================================================== *)
(** * Further properties: the optional keys of the STAC converter *)
(* ===================================================================== *)

Section OptionalKeys.
Context {num : Type} {N : PyNumber num}.
Implicit Types (c : dict num) (d : stac_doc num).

Lemma after_url_get k now d c :
  k <> "references" -> k <> "spatialCoverage" -> k <> "temporalCoverage" ->
  k <> "datePublished" -> k <> "distribution" -> k <> "geocr:spatialResolution" ->
  k <> "fileSet" -> k <> "keywords" -> k <> crs_key -> k <> "isLiveDataset" ->
  dict_get k
    (set_live d
       (set_crs d
          (set_keywords d
             (set_file_set d
                (set_distribution d
                   (set_default_date now
                      (set_temporal d (set_spatial d (set_references d c)))))))))
  = dict_get k c.
Proof.
  intros. now rewrite set_live_get, set_crs_get, set_keywords_get, set_file_set_get,
    set_distribution_get, set_default_date_get, set_temporal_get, set_spatial_get,
    set_references_get by assumption.
Qed.

Lemma header_lacks k d :
  ~ In k ["@context"; "@type"; "@id"; "name"; "description"; "version";
          "license"; "conformsTo"] ->
  dict_get k (header d) = None.
Proof.
  intros H. unfold header. cbn [dict_get].
  repeat match goal with
         | |- context [String.eqb ?a k] =>
             destruct (String.eqb_spec a k) as [E|_];
             [exfalso; apply H; rewrite <- E; cbn; tauto|]
         end.
  reflexivity.
Qed.

End OptionalKeys.

(** X30.  The optional keys of a record made by the STAC converter.  The
    url is the href of the first link whose rel is "self" (null when that
    link has no href), and the key is absent when there is no such link.
    The creator is made from the first provider alone, with "Unknown" and
    the empty string for a missing name and url; without providers, or with
    an empty list of them, there is no creator.  keywords, isLiveDataset and
    citation are present exactly when the document has keywords, deprecated
    and sci:citation: the keywords are copied, also when the list is empty,
    and isLiveDataset is the negation of deprecated.  fileSet is present
    exactly when the document has item_assets, with one template per item
    asset, in order. *)
Theorem stac_optional_keys {num} {N : PyNumber num}
    (now : datetime) (d : stac_doc num) :
  let out := fst (stac_to_geocroissant now d) in
  dict_get "url" out
  = option_map (fun l => vopt (l_href l))
               (find (rel_is "self") (default [] (s_links d)))
  /\ (forall p rest, s_providers d = Some (p :: rest) ->
        dict_get "creator" out
        = Some (VDict [("@type", VStr "Organization");
                       ("name", VStr (default "Unknown" (p_name p)));
                       ("url", VStr (default EmptyString (p_url p)))]))
  /\ (s_providers d = None \/ s_providers d = Some [] ->
      dict_get "creator" out = None)
  /\ dict_get "keywords" out = option_map (fun kws => VList (map VStr kws)) (s_keywords d)
  /\ dict_get "isLiveDataset" out = option_map (fun b => VBool (negb b)) (s_deprecated d)
  /\ dict_get "citation" out = option_map VStr (s_sci_citation d)
  /\ (s_item_assets d = None -> dict_get "fileSet" out = None)
  /\ (forall item_assets, s_item_assets d = Some item_assets ->
        exists templates,
          dict_get "fileSet" out = Some (VList templates)
          /\ List.length templates = List.length item_assets
          /\ forall i key a,
               nth_error item_assets i = Some (key, a) ->
               exists t,
                 nth_error templates i = Some (VDict t)
                 /\ dict_get "name" t = Some (VStr ("Template for " ++ key))
                 /\ dict_get "@id" t = None).
Proof.
  intros out. subst out. unfold stac_to_geocroissant. cbn [fst].
  assert (Hurl : forall c,
             dict_get "url" c = None ->
             dict_get "url" (set_url d c)
             = option_map (fun l => vopt (l_href l))
                          (find (rel_is "self") (default [] (s_links d)))).
  { intros c Hc. unfold set_url.
    destruct (find _ _); [apply dict_get_set_eq|exact Hc]. }
  assert (Hcreator : forall c,
             dict_get "creator" c = None ->
             dict_get "creator" (set_creator d c)
             = match s_providers d with
               | Some (p :: _) =>
                   Some (VDict [("@type", VStr "Organization");
                                ("name", VStr (default "Unknown" (p_name p)));
                                ("url", VStr (default EmptyString (p_url p)))])
               | _ => None
               end).
  { intros c Hc. unfold set_creator.
    destruct (s_providers d) as [[|p ps]|]; [exact Hc|apply dict_get_set_eq|exact Hc]. }
  assert (H0 : forall k,
             ~ In k ["@context"; "@type"; "@id"; "name"; "description"; "version";
                     "license"; "conformsTo"] ->
             k <> "citeAs" -> k <> "citation" ->
             dict_get k (set_sci_citation d (set_cite_as now d (header d))) = None).
  { intros k Hk H1 H2.
    rewrite set_sci_citation_get, set_cite_as_get by assumption.
    now apply header_lacks. }
  assert (Hnot : forall k : string,
             k = "url" \/ k = "creator" \/ k = "keywords" \/ k = "isLiveDataset"
             \/ k = "fileSet" \/ k = "citation" ->
             ~ In k ["@context"; "@type"; "@id"; "name"; "description"; "version";
                     "license"; "conformsTo"]).
  { intros k Hk Hin. cbn [In] in Hin.
    repeat destruct Hk as [->|Hk]; try subst k;
      repeat destruct Hin as [Hin|Hin]; try discriminate; try contradiction. }
  split.
  { rewrite after_url_get by discriminate. apply Hurl.
    rewrite set_creator_get by discriminate.
    apply H0; [apply Hnot; tauto|discriminate..]. }
  assert (Hc : dict_get "creator"
                 (set_creator d (set_sci_citation d (set_cite_as now d (header d))))
               = match s_providers d with
                 | Some (p :: _) =>
                     Some (VDict [("@type", VStr "Organization");
                                  ("name", VStr (default "Unknown" (p_name p)));
                                  ("url", VStr (default EmptyString (p_url p)))])
                 | _ => None
                 end).
  { apply Hcreator. apply H0; [apply Hnot; tauto|discriminate..]. }
  split.
  { intros p rest Hp. rewrite after_url_get, set_url_get by discriminate.
    now rewrite Hc, Hp. }
  split.
  { intros Hp. rewrite after_url_get, set_url_get by discriminate.
    rewrite Hc. now destruct Hp as [-> | ->]. }
  split.
  { rewrite set_live_get, set_crs_get by discriminate.
    unfold set_keywords. destruct (s_keywords d); [apply dict_get_set_eq|].
    rewrite set_file_set_get, set_distribution_get, set_default_date_get,
      set_temporal_get, before_temporal_get by discriminate.
    apply header_lacks, Hnot. tauto. }
  split.
  { unfold set_live. destruct (s_deprecated d); [apply dict_get_set_eq|].
    rewrite set_crs_get, set_keywords_get, set_file_set_get, set_distribution_get,
      set_default_date_get, set_temporal_get, before_temporal_get by discriminate.
    apply header_lacks, Hnot. tauto. }
  split.
  { rewrite after_url_get, set_url_get, set_creator_get by discriminate.
    unfold set_sci_citation.
    destruct (s_sci_citation d); [apply dict_get_set_eq|].
    rewrite set_cite_as_get by discriminate. apply header_lacks, Hnot. tauto. }
  assert (Hfs : dict_get "fileSet"
                  (set_live d (set_crs d (set_keywords d (set_file_set d
                     (set_distribution d (set_default_date now (set_temporal d
                        (set_spatial d (set_references d (set_url d (set_creator d
                           (set_sci_citation d (set_cite_as now d (header d))))))))))))))
                = option_map (fun ia => VList (map file_set_template ia))
                             (s_item_assets d)).
  { rewrite set_live_get, set_crs_get, set_keywords_get by discriminate.
    unfold set_file_set. destruct (s_item_assets d); [apply dict_get_set_eq|].
    rewrite set_distribution_get, set_default_date_get, set_temporal_get,
      before_temporal_get by discriminate.
    apply header_lacks, Hnot. tauto. }
  split.
  { intros Hia. now rewrite Hfs, Hia. }
  intros item_assets Hia. rewrite Hfs, Hia. cbn [option_map].
  eexists. split; [reflexivity|]. split; [apply length_map|].
  intros i key a Hi. rewrite nth_error_map, Hi. cbn [option_map file_set_template].
  eexists. split; [reflexivity|]. split; reflexivity.
Qed.

Lemma stac_optional_keys_witness :
  dict_get "url" (fst (stac_to_geocroissant run_2024 open_collection))
  = Some (VStr "https://stac.example/hls2-s30")
  /\ dict_get "creator" (fst (stac_to_geocroissant run_2024 open_collection)) = None
  /\ dict_get "fileSet" (fst (stac_to_geocroissant run_2024 open_collection)) = None.
Proof.
  pose proof (stac_optional_keys run_2024 open_collection) as (H1 & _ & H3 & _ & _ & _ & H7 & _).
  split; [exact H1|]. split; [apply H3; now left|apply H7; reflexivity].
Defined.

(* ===================================================================== *)
(** * The clock in the output of the STAC converter *)
(* ===================================================================== *)

Lemma all_chars_app (p : ascii -> bool) (a b : string) :
  all_chars p (a ++ b) = all_chars p a && all_chars p b.
Proof.
  induction a as [|c a IH]; [reflexivity|].
  cbn [append all_chars]. now rewrite IH, andb_assoc.
Qed.

Lemma str_nat_free (c : ascii) (n : nat) :
  is_digit c = false -> free_of c (str_nat n) = true.
Proof.
  intros Hc.
  assert (Hd : forall a, is_digit a = true -> negb (Ascii.eqb a c) = true).
  { intros a Ha. destruct (Ascii.eqb_spec a c) as [->|_]; [congruence|reflexivity]. }
  assert (Hu : forall u, free_of c (NilEmpty.string_of_uint u) = true).
  { intros u. unfold free_of.
    induction u; cbn [NilEmpty.string_of_uint all_chars]; [reflexivity|..];
      (apply andb_true_intro; split; [now apply Hd|assumption]). }
  assert (Hz : free_of c "0" = true).
  { unfold free_of. cbn [all_chars]. now rewrite Hd. }
  unfold str_nat, str_Z, Z.to_int.
  destruct (Z.of_nat n) as [|p|p] eqn:E; [exact Hz| |lia].
  cbn [NilZero.string_of_int]. unfold NilZero.string_of_uint.
  destruct (Pos.to_uint p); [exact Hz|..]; apply Hu.
Qed.

Lemma zpad_free (c : ascii) (w n : nat) :
  is_digit c = false -> free_of c (zpad w n) = true.
Proof.
  intros Hc. unfold zpad, free_of. rewrite all_chars_app.
  apply andb_true_intro. split; [|now apply str_nat_free].
  induction (w - String.length (str_nat n)) as [|k IH]; [reflexivity|].
  cbn [zeros all_chars]. rewrite IH, andb_true_r.
  destruct (Ascii.eqb_spec "0"%char c) as [<-|_]; [discriminate|reflexivity].
Qed.

(** The date of a clock reading: year, month and day. *)
Lemma date_part_isoformat (now : datetime) :
  date_part (isoformat now)
  = zpad 4 (year now) ++ "-" ++ zpad 2 (month now) ++ "-" ++ zpad 2 (day now).
Proof.
  unfold date_part, isoformat.
  set (rest := zpad 2 (hour now) ++ _).
  replace (zpad 4 (year now) ++ "-" ++ zpad 2 (month now) ++ "-"
           ++ zpad 2 (day now) ++ "T" ++ rest)
    with ((zpad 4 (year now) ++ "-" ++ zpad 2 (month now) ++ "-"
           ++ zpad 2 (day now)) ++ String "T"%char rest)
    by (now rewrite !append_assoc).
  rewrite split_char_app; [reflexivity|].
  change (free_of "T" (zpad 4 (year now) ++ "-" ++ zpad 2 (month now) ++ "-"
                       ++ zpad 2 (day now)) = true).
  unfold free_of. rewrite !all_chars_app.
  pose proof (zpad_free "T" 4 (year now) eq_refl) as H1.
  pose proof (zpad_free "T" 2 (month now) eq_refl) as H2.
  pose proof (zpad_free "T" 2 (day now) eq_refl) as H3.
  unfold free_of in H1, H2, H3. now rewrite H1, H2, H3.
Qed.

Lemma year_suffix_inj (y1 y2 : nat) :
  str_nat y1 ++ "}}" = str_nat y2 ++ "}}" -> y1 = y2.
Proof.
  intros H.
  assert (Hs : split_char "}" (str_nat y1 ++ "}}")
               = split_char "}" (str_nat y2 ++ "}}")) by now rewrite H.
  change "}}" with (String "}"%char "}") in Hs.
  rewrite !split_char_app in Hs by (now apply str_nat_free).
  injection Hs as Hs. apply str_Z_inj in Hs. lia.
Qed.

Section ClockOutput.
Context {num : Type} {N : PyNumber num}.
Implicit Types (d : stac_doc num) (now : datetime).

(** citeAs is assigned twice at most, by the first two blocks. *)
Lemma stac_cite_as now d :
  dict_get "citeAs" (fst (stac_to_geocroissant now d))
  = Some (VStr (match s_sci_citation d with
                | Some cit => cit
                | None => cite_as now d
                end)).
Proof.
  unfold stac_to_geocroissant. cbn [fst].
  rewrite set_live_get, set_crs_get, set_keywords_get, set_file_set_get,
    set_distribution_get, set_default_date_get, set_temporal_get,
    set_spatial_get, set_references_get, set_url_get, set_creator_get
    by discriminate.
  unfold set_sci_citation, set_cite_as.
  destruct (s_sci_citation d) as [cit|]; [|apply dict_get_set_eq].
  rewrite dict_get_set_ne by discriminate. apply dict_get_set_eq.
Qed.

(** The generated citation ends with the year of the run. *)
Lemma cite_as_year d :
  exists head, forall now, cite_as now d = head ++ str_nat (year now) ++ "}}".
Proof.
  unfold cite_as. destruct (is_collection d).
  - exists ("@misc{" ++ fmt_opt (s_id d) ++ ", title={"
            ++ default (dataset_name d) (s_title d) ++ "}, year={").
    intros now. cbv zeta. now rewrite !append_assoc.
  - exists ("@misc{"
            ++ fmt_opt (match s_collection d with Some c => Some c | None => s_id d end)
            ++ ", title={" ++ dataset_name d ++ "}, year={").
    intros now. cbv zeta. now rewrite !append_assoc.
Qed.

(** Without a dated field, datePublished is the date of the run. *)
Lemma stac_date_of_run now d :
  has_date d = false ->
  dict_get "datePublished" (fst (stac_to_geocroissant now d))
  = Some (VStr (date_part (isoformat now))).
Proof.
  intros Hd. rewrite stac_date_published, (set_temporal_no_date d _ Hd).
  unfold set_default_date, dict_has.
  rewrite before_temporal_get by discriminate.
  assert (Hnone : dict_get "datePublished" (header d) = None) by reflexivity.
  rewrite Hnone. cbn [negb]. apply dict_get_set_eq.
Qed.

End ClockOutput.

(** C6, as amended.  The STAC converter is a deterministic function of its
    input document and of the clock reading of the run: two runs on the same
    document whose clock readings have the same year and the same date yield
    the same dictionary and the same printed lines.  The year of the run is
    written into citeAs unless the document carries sci:citation: without
    it, citeAs is a text that depends on the document only, followed by the
    year of the run and "}}", so that runs in different years give different
    dictionaries; with it, citeAs is the citation at every clock reading.
    The date of the run (year, month and day, zero padded and joined by "-")
    becomes datePublished when no field of the document gives a date, so
    that runs on different dates then give different dictionaries.  When the
    document has sci:citation and a dated field, the output is the same at
    every clock reading. *)
Theorem output_depends_on_clock {num} {N : PyNumber num}
    (now1 now2 : datetime) (d : stac_doc num) :
  (year now1 = year now2 ->
   date_part (isoformat now1) = date_part (isoformat now2) ->
   stac_to_geocroissant now1 d = stac_to_geocroissant now2 d)
  /\ (s_sci_citation d <> None -> has_date d = true ->
      stac_to_geocroissant now1 d = stac_to_geocroissant now2 d)
  /\ (s_sci_citation d = None ->
      (exists head,
          forall now,
            dict_get "citeAs" (fst (stac_to_geocroissant now d))
            = Some (VStr (head ++ str_nat (year now) ++ "}}")))
      /\ (year now1 <> year now2 ->
          fst (stac_to_geocroissant now1 d) <> fst (stac_to_geocroissant now2 d)))
  /\ (forall cit,
      s_sci_citation d = Some cit ->
      forall now,
        dict_get "citeAs" (fst (stac_to_geocroissant now d)) = Some (VStr cit))
  /\ (has_date d = false ->
      (forall now,
          dict_get "datePublished" (fst (stac_to_geocroissant now d))
          = Some (VStr (zpad 4 (year now) ++ "-" ++ zpad 2 (month now)
                        ++ "-" ++ zpad 2 (day now))))
      /\ (date_part (isoformat now1) <> date_part (isoformat now2) ->
          fst (stac_to_geocroissant now1 d) <> fst (stac_to_geocroissant now2 d))).
Proof.
  split; [|split; [|split; [|split]]].
  - intros Hy Hd.
    unfold stac_to_geocroissant, set_cite_as, cite_as, set_default_date.
    now rewrite Hy, Hd.
  - intros Hc Hd.
    destruct (s_sci_citation d) as [cit|] eqn:E; [|contradiction].
    unfold stac_to_geocroissant.
    rewrite !(citation_overrides _ d cit) by assumption.
    rewrite !set_default_date_id by now apply has_date_published.
    reflexivity.
  - intros Hc. destruct (cite_as_year d) as [head Hhead].
    assert (Hcite : forall now,
               dict_get "citeAs" (fst (stac_to_geocroissant now d))
               = Some (VStr (head ++ str_nat (year now) ++ "}}"))).
    { intros now. now rewrite stac_cite_as, Hc, Hhead. }
    split; [now exists head|].
    intros Hy E.
    pose proof (Hcite now1) as H1. rewrite E, Hcite in H1.
    injection H1 as H1. apply append_inj_l, year_suffix_inj in H1. congruence.
  - intros cit Hc now. now rewrite stac_cite_as, Hc.
  - intros Hd. split.
    + intros now. rewrite <- date_part_isoformat. now apply stac_date_of_run.
    + intros Hne E.
      pose proof (stac_date_of_run now1 d Hd) as H1.
      rewrite E, (stac_date_of_run now2 d Hd) in H1.
      injection H1 as H1. congruence.
Qed.

Lemma output_depends_on_clock_witness :
  let cited := item_doc dated [("B01", plain_asset)]
                 (Some "Drusch et al. (2012), Sentinel-2") in
  let bare := item_doc StacToGeoCroissant.no_properties [] None in
  stac_to_geocroissant run_2024 cited = stac_to_geocroissant run_2025 cited
  /\ dict_get "citeAs" (fst (stac_to_geocroissant run_2025 cited))
     = Some (VStr "Drusch et al. (2012), Sentinel-2")
  /\ fst (stac_to_geocroissant run_2024 bare)
     <> fst (stac_to_geocroissant run_2025 bare)
  /\ dict_get "datePublished" (fst (stac_to_geocroissant run_2024 bare))
     = Some (VStr "2024-03-07").
Proof.
  intros cited bare.
  destruct (output_depends_on_clock run_2024 run_2025 cited)
    as (_ & Hsame & _ & Hcit & _).
  destruct (output_depends_on_clock run_2024 run_2025 bare)
    as (_ & _ & Hyear & _ & Hdate).
  split; [apply Hsame; [discriminate|reflexivity]|].
  split; [apply Hcit; reflexivity|].
  split; [apply (proj2 (Hyear eq_refl)); discriminate|].
  apply (proj1 (Hdate eq_refl) run_2024).
Defined.

(** C6 as stated fails: the same item converted in 2024 and in 2025 gives
    two different documents, the year of the run being part of citeAs. *)
Lemma run_year_counterexample :
  let d := item_doc dated [("B01", plain_asset)] None in
  dict_get "citeAs" (fst (stac_to_geocroissant run_2024 d))
  = Some (VStr "@misc{sentinel-2-l1c, title={S2A_T10SEG_20170430}, year={2024}}")
  /\ dict_get "citeAs" (fst (stac_to_geocroissant run_2025 d))
     = Some (VStr "@misc{sentinel-2-l1c, title={S2A_T10SEG_20170430}, year={2025}}")
  /\ stac_to_geocroissant run_2024 d <> stac_to_geocroissant run_2025 d.
Proof.
  cbv zeta. split; [reflexivity|split; [reflexivity|]].
  intros H.
  apply (f_equal (fun r => dict_get "citeAs" (fst r))) in H.
  vm_compute in H. discriminate.
Qed.
